(** * uf-airtable-addin: the task pane's link, reference and attachment logic

    A shallow embedding of [src/taskpane/taskpane.ts].

    Conventions of the embedding.
    - A JavaScript string is a [string]; each character is read as one
      UTF-16 code unit below 256, so a binary string (as taken by [btoa])
      and a byte sequence have the same carrier.
    - A JavaScript object used as a map ([counts], [linkTitleCache]) is a
      [gmap string _]; a missing key reads as [None] ([undefined]). Every
      key the pane uses is a cleaned match of the link pattern, so no key
      meets a property inherited from [Object.prototype].
    - Arrays are lists; [Array.from(new Set(a))] keeps first occurrences.
    - The host mail API, [fetch], MSAL, [URL] and the clock are external:
      their answers are fields of a host record or section variables. *)

From Stdlib Require Import String Ascii List Bool Arith ZArith NArith Lia.
From Stdlib.Strings Require Import Byte.
From Stdlib Require Import DecimalString.
From stdpp Require Import base option list strings gmap.
Import ListNotations.

Local Open Scope string_scope.
Local Open Scope list_scope.

(** ** JavaScript string primitives *)
Module JsString.

Definition code (c : ascii) : N := N_of_ascii c.

(** [String.prototype.toLowerCase] on code units below 256: the ASCII
    capitals and the Latin-1 capitals U+00C0..U+00DE (without U+00D7). *)
Definition lower_char (c : ascii) : ascii :=
  let n := code c in
  if ((65 <=? n) && (n <=? 90))%N then ascii_of_N (n + 32)
  else if ((192 <=? n) && (n <=? 222) && negb (n =? 215))%N
       then ascii_of_N (n + 32)
  else c.

Fixpoint toLowerCase (s : string) : string :=
  match s with
  | EmptyString => EmptyString
  | String c s' => String (lower_char c) (toLowerCase s')
  end.

(** [s.startsWith(p)] *)
Definition startsWith (s p : string) : bool := String.prefix p s.

(** [s.includes(p)] *)
Fixpoint includes (s p : string) : bool :=
  String.prefix p s ||
  match s with
  | EmptyString => false
  | String _ s' => includes s' p
  end.

(** [s.endsWith(p)] *)
Definition endsWith (s p : string) : bool :=
  let n := String.length s in
  let m := String.length p in
  (m <=? n)%nat && String.eqb (String.substring (n - m) m s) p.

(** JavaScript truthiness of a string value. *)
Definition truthy (s : string) : bool := negb (String.eqb s "").

(** Truthiness of [string | undefined | null]: the value when truthy. *)
Definition truthy_opt (o : option string) : option string :=
  match o with
  | Some s => if truthy s then Some s else None
  | None => None
  end.

(** [a || b] on possibly missing strings. *)
Definition or_else (a b : option string) : option string :=
  match truthy_opt a with
  | Some s => Some s
  | None => b
  end.

(** The class [\s] on code units below 256. *)
Definition is_space (c : ascii) : bool :=
  let n := code c in
  ((n =? 9) || (n =? 10) || (n =? 11) || (n =? 12) || (n =? 13)
   || (n =? 32) || (n =? 160))%N.

(** [Array.from(new Set(a))]: insertion order, first occurrence kept. *)
Fixpoint uniq_from (seen : list string) (a : list string) : list string :=
  match a with
  | [] => []
  | x :: t =>
      if existsb (String.eqb x) seen then uniq_from seen t
      else x :: uniq_from (x :: seen) t
  end.

Definition array_from_set (a : list string) : list string := uniq_from [] a.

End JsString.

(** ** Link extraction *)
Module Links.
Import JsString.

(** [limitBodyText] *)
Definition limitBodyText (text : string) (maxLength : N) : string :=
  if negb (truthy text) then ""
  else if (N.of_nat (String.length text) <=? maxLength)%N then text
  else String.substring 0 (N.to_nat maxLength) text.

(** Case-insensitive test of one pattern character (flag [i]). *)
Definition ci_eq (p c : ascii) : bool :=
  Ascii.eqb (lower_char p) (lower_char c).

Fixpoint ci_prefix (p s : string) : option string :=
  match p with
  | EmptyString => Some s
  | String pc p' =>
      match s with
      | EmptyString => None
      | String c s' => if ci_eq pc c then ci_prefix p' s' else None
      end
  end.

Definition nonspace_first (s : string) : bool :=
  match s with
  | EmptyString => false
  | String c _ => negb (is_space c)
  end.

(** Does [/https?:\/\/\S+/i] match at the very start of [s]? *)
Definition url_starts_here (s : string) : bool :=
  match ci_prefix "http" s with
  | None => false
  | Some r =>
      match ci_prefix "s://" r with
      | Some r' => nonspace_first r'
      | None =>
          match ci_prefix "://" r with
          | Some r' => nonspace_first r'
          | None => false
          end
      end
  end.

(** [body.match(/https?:\/\/\S+/gim) ?? []]: one left-to-right pass.
    [cur] is the match being read; [\S+] is greedy, so a match runs to
    the next white space or to the end of the text. *)
Fixpoint scan_urls (cur : option string) (s : string) : list string :=
  match s with
  | EmptyString =>
      match cur with Some m => [m] | None => [] end
  | String c s' =>
      match cur with
      | Some m =>
          if is_space c then m :: scan_urls None s'
          else scan_urls (Some (m +:+ String c EmptyString)) s'
      | None =>
          if url_starts_here s then scan_urls (Some (String c EmptyString)) s'
          else scan_urls None s'
      end
  end.

Definition match_urls (body : string) : list string := scan_urls None body.

Definition is_trailing_punct (c : ascii) : bool :=
  (Ascii.eqb c ")" || Ascii.eqb c "." || Ascii.eqb c ",")%char.

(** [m.replace(/[).,]+$/, "")] *)
Fixpoint strip_trailing (s : string) : string :=
  match s with
  | EmptyString => EmptyString
  | String c s' =>
      let r := strip_trailing s' in
      if is_trailing_punct c && String.eqb r "" then "" else String c r
  end.

Definition sigDomains : list string :=
  ["linkedin.com"; "facebook.com"; "instagram.com"; "twitter.com";
   "youtube.com"; "vimeo.com"].

Definition is_image_url (lower : string) : bool :=
  endsWith lower ".png" || endsWith lower ".jpg"
  || endsWith lower ".jpeg" || endsWith lower ".gif".

(** [filterLink] *)
Definition filterLink (url : string) (count : nat) : bool :=
  let lower := toLowerCase url in
  if includes lower "safelinks.protection.outlook.com" then false
  else if includes lower "cid:" then false
  else if is_image_url lower
          && (includes lower "signature" || includes lower "logo")
  then false
  else if (1 <? count)%nat && existsb (fun d => includes lower d) sigDomains
  then false
  else true.

(** [counts[cleaned] = (counts[cleaned] || 0) + 1] over all matches. *)
Definition count_step (counts : gmap string nat) (m : string)
  : gmap string nat :=
  let cleaned := strip_trailing m in
  <[cleaned := default 0%nat (counts !! cleaned) + 1]> counts.

Definition count_matches (matches : list string) : gmap string nat :=
  fold_left count_step matches ∅.

(** [counts[url] || 1] *)
Definition count_or_one (counts : gmap string nat) (url : string) : nat :=
  match counts !! url with
  | Some (S n) => S n
  | _ => 1
  end.

(** The body of [getLinksFromBody] once the body text has arrived. *)
Definition linksOfBody (bodyText : string) : list string :=
  let body := limitBodyText bodyText 12000 in
  let matches := match_urls body in
  let counts := count_matches matches in
  let cleaned :=
    List.filter (fun url => filterLink url (count_or_one counts url))
                (map strip_trailing matches) in
  array_from_set cleaned.

End Links.

(** ** Results of asynchronous host calls *)
Module Async.

(** A settled promise, or a call that may throw. *)
Inductive Outcome (A : Type) : Type :=
| Ok (a : A)
| Throw (error : string).
Arguments Ok {A} a.
Arguments Throw {A} error.

(** [Office.AsyncResult]: exactly one callback, tagged by its status. *)
Inductive AsyncResult (A : Type) : Type :=
| Succeeded (value : A)
| Failed (error : string).
Arguments Succeeded {A} value.
Arguments Failed {A} error.

End Async.
Export Async.

(** ** The message body *)
Module Body.
Import JsString Links.

(** The two body readers an item may offer; [None]: not a function. *)
Record MailItem : Type := {
  getBodyAsync : option (AsyncResult string);
  compose_body_getAsync : option (AsyncResult string)
}.

(** [getBodyAsText] *)
Definition getBodyAsText (item : MailItem) : Outcome string :=
  match getBodyAsync item with
  | Some (Succeeded v) => Ok v
  | Some (Failed e) => Throw e
  | None =>
      match compose_body_getAsync item with
      | Some (Succeeded v) => Ok v
      | Some (Failed e) => Throw e
      | None => Throw "Body-API ist in diesem Kontext nicht verfuegbar."
      end
  end.

(** [getLinksFromBody] *)
Definition getLinksFromBody (item : MailItem) : Outcome (list string) :=
  match getBodyAsText item with
  | Ok text => Ok (linksOfBody text)
  | Throw e => Throw e
  end.

End Body.

(** ** Link titles *)
Module Titles.
Import JsString.

(** The two components of a parsed [URL] that the pane reads. *)
Record Url : Type := { hostname : string; pathname : string }.

(** A fragment of the platform's URL parser, enough for plain links:
    [http(s)://host/path] with no user info, port, query, fragment,
    escape or dot segment. The host is lowercased and an empty path
    reads as [/]. Anything else is left undecided ([None]). It stands in
    for [new URL] in sample runs only; [getLinkTitle] below takes the
    parser as a parameter. *)
Fixpoint split_at_slash (s : string) : string * string :=
  match s with
  | EmptyString => (EmptyString, EmptyString)
  | String c s' =>
      if Ascii.eqb c "/"%char then (EmptyString, s)
      else let '(h, p) := split_at_slash s' in (String c h, p)
  end.

Definition plain_host_char (c : ascii) : bool :=
  let n := code c in
  ((48 <=? n) && (n <=? 57) || (65 <=? n) && (n <=? 90)
   || (97 <=? n) && (n <=? 122) || (n =? 45) || (n =? 46))%N.

Definition plain_path_char (c : ascii) : bool :=
  let n := code c in
  ((48 <=? n) && (n <=? 57) || (65 <=? n) && (n <=? 90)
   || (97 <=? n) && (n <=? 122) || (n =? 45) || (n =? 46)
   || (n =? 47) || (n =? 95) || (n =? 126))%N.

Fixpoint all_chars (f : ascii -> bool) (s : string) : bool :=
  match s with
  | EmptyString => true
  | String c s' => f c && all_chars f s'
  end.

Definition plain_url_parse (link : string) : option Url :=
  let after :=
    match Links.ci_prefix "https://" link with
    | Some r => Some r
    | None => Links.ci_prefix "http://" link
    end in
  match after with
  | None => None
  | Some r =>
      let '(h, p) := split_at_slash r in
      if truthy h && all_chars plain_host_char h
         && all_chars plain_path_char p
         && negb (includes p "/.") && negb (includes h "..")
         && negb (startsWith h ".") && negb (endsWith h ".")
      then Some {| hostname := toLowerCase h;
                   pathname := if truthy p then p else "/" |}
      else None
  end.

(** [String.prototype.trim] *)
Fixpoint trim_start (s : string) : string :=
  match s with
  | EmptyString => EmptyString
  | String c s' => if is_space c then trim_start s' else s
  end.

Fixpoint trim_end (s : string) : string :=
  match s with
  | EmptyString => EmptyString
  | String c s' =>
      let r := trim_end s' in
      if is_space c && String.eqb r "" then "" else String c r
  end.

Definition trim (s : string) : string := trim_end (trim_start s).

Section WithPlatform.
(** [new URL(link)]: [None] when the constructor throws. *)
Variable URL_parse : string -> option Url.
(** The title endpoint: the [title] property of a 2xx JSON answer;
    [None] for a failed request, a non-2xx status or a missing title. *)
Variable title_lookup : string -> option string.
(** [LINK_TITLE_PROXY] *)
Variable LINK_TITLE_PROXY : string.




End WithPlatform.

End Titles.

(** ** Resolving free-text tokens to record ids *)
Module Resolver.
Import JsString.

(** [AirtableProjectOption] *)
Record AirtableProjectOption : Type := {
  id : string;
  name : string;
  email : option string
}.

Definition matches_entry (entry : string) (opt : AirtableProjectOption)
  : bool :=
  String.eqb (id opt) entry
  || String.eqb (toLowerCase (name opt)) (toLowerCase entry)
  || match truthy_opt (email opt) with
     | Some e => String.eqb (toLowerCase e) (toLowerCase entry)
     | None => false
     end.

(** The callback of [rawEntries.forEach]: what it pushes onto [ids]. *)
Definition push_entry (externalOptions : list AirtableProjectOption)
           (ids : list string) (entry : string) : list string :=
  if startsWith entry "rec" then ids ++ [entry]
  else
    match find (matches_entry entry) externalOptions with
    | Some option => ids ++ [id option]
    | None => ids
    end.

(** [resolveExternalAssignees] *)
Definition resolveExternalAssignees
           (externalOptions : list AirtableProjectOption)
           (rawEntries : list string) : list string :=
  match rawEntries with
  | [] => []
  | _ =>
      let ids := fold_left (push_entry externalOptions) rawEntries [] in
      List.filter (fun i => truthy i && startsWith i "rec")
                  (array_from_set ids)
  end.

End Resolver.

(** ** The content encoder *)
Module Encoder.
Import JsString.

(** *** The platform's [btoa] and [atob] (forgiving base64) *)

Definition alphabet : list ascii :=
  list_ascii_of_string
    "ABCDEFGHIJKLMNOPQRSTUVWXYZabcdefghijklmnopqrstuvwxyz0123456789+/".

Definition pad_char : ascii := "="%char.

(** The character of a sextet. *)
Definition enc_char (n : N) : ascii := nth (N.to_nat n) alphabet "/"%char.

Fixpoint index_of (c : ascii) (l : list ascii) (i : N) : option N :=
  match l with
  | [] => None
  | x :: t => if Ascii.eqb x c then Some i else index_of c t (i + 1)%N
  end.

(** The sextet of a character; [None] outside the alphabet. *)
Definition dec_char (c : ascii) : option N := index_of c alphabet 0%N.

(** Three code units give four characters; a last group of one or two
    code units is zero-filled and padded. *)
Fixpoint encode (l : list N) : list ascii :=
  match l with
  | [] => []
  | [a] =>
      [enc_char (a / 4); enc_char ((a mod 4) * 16); pad_char; pad_char]%N
  | [a; b] =>
      let n := ((a * 256 + b) * 4)%N in
      [enc_char (n / 4096); enc_char ((n / 64) mod 64); enc_char (n mod 64);
       pad_char]%N
  | a :: b :: c :: t =>
      let n := (a * 65536 + b * 256 + c)%N in
      (enc_char (n / 262144) :: enc_char ((n / 4096) mod 64)
       :: enc_char ((n / 64) mod 64) :: enc_char (n mod 64) :: encode t)%N
  end.

(** [btoa]; every code unit of the carrier is below 256, so it is total. *)
Definition btoa (binary : string) : string :=
  string_of_list_ascii (encode (map code (list_ascii_of_string binary))).

Definition is_ascii_whitespace (c : ascii) : bool :=
  let n := code c in
  ((n =? 9) || (n =? 10) || (n =? 12) || (n =? 13) || (n =? 32))%N.

(** When the length is a multiple of four, one or two final [=] go. *)
Definition remove_padding (d : list ascii) : list ascii :=
  if (List.length d mod 4 =? 0)%nat then
    match rev d with
    | p :: q :: r =>
        if Ascii.eqb p pad_char then
          if Ascii.eqb q pad_char then rev r else rev (q :: r)
        else d
    | [p] => if Ascii.eqb p pad_char then [] else d
    | [] => d
    end
  else d.

Fixpoint sextets (d : list ascii) : option (list N) :=
  match d with
  | [] => Some []
  | c :: t =>
      match dec_char c, sextets t with
      | Some n, Some ns => Some (n :: ns)
      | _, _ => None
      end
  end.

(** Four sextets give three bytes; a rest of three or two sextets gives
    two bytes or one, the surplus bits being discarded. *)
Fixpoint decode (l : list N) : list N :=
  match l with
  | s0 :: s1 :: s2 :: s3 :: t =>
      let n := (((s0 * 64 + s1) * 64 + s2) * 64 + s3)%N in
      (n / 65536 :: (n / 256) mod 256 :: n mod 256 :: decode t)%N
  | [s0; s1; s2] =>
      let n := ((((s0 * 64 + s1) * 64 + s2)) / 4)%N in
      [n / 256; n mod 256]%N
  | [s0; s1] => [(s0 * 64 + s1) / 16]%N
  | _ => []
  end.

(** [atob]; [None] when it throws [InvalidCharacterError]. *)
Definition atob (data : string) : option string :=
  let d1 :=
    List.filter (fun c => negb (is_ascii_whitespace c))
                (list_ascii_of_string data) in
  let d2 := remove_padding d1 in
  if (List.length d2 mod 4 =? 1)%nat then None
  else
    match sextets d2 with
    | None => None
    | Some ss => Some (string_of_list_ascii (map ascii_of_N (decode ss)))
    end.

(** *** The pane's own functions *)

(** [String.fromCharCode.apply(null, Array.from(slice))] *)
Definition fromCharCode (slice : list byte) : string :=
  string_of_list_ascii (map ascii_of_byte slice).

(** [bytes.subarray(b, e)] for [b <= e]; both ends are clamped. *)
Definition subarray (bytes : list byte) (b e : N) : list byte :=
  firstn (N.to_nat (e - b)) (skipn (N.to_nat b) bytes).

(** The [for] loop of [arrayBufferToBase64]; [fuel] bounds its rounds. *)
Fixpoint chunk_loop (fuel : nat) (bytes : list byte) (chunkSize offset : N)
         (binary : string) : string :=
  match fuel with
  | O => binary
  | S fuel' =>
      if (offset <? N.of_nat (List.length bytes))%N then
        let slice := subarray bytes offset (offset + chunkSize) in
        chunk_loop fuel' bytes chunkSize (offset + chunkSize)%N
                   (binary +:+ fromCharCode slice)
      else binary
  end.

Definition chunkSize : N := 32768 (* 0x8000 *).

(** [arrayBufferToBase64]; a round consumes at least one byte, so
    [length buffer] rounds are enough. *)
Definition arrayBufferToBase64 (buffer : list byte) : string :=
  btoa (chunk_loop (List.length buffer) buffer chunkSize 0 "").

(** [base64ToArrayBuffer]; [None] when [atob] throws. *)
Definition base64ToArrayBuffer (base64 : string) : option (list byte) :=
  match atob base64 with
  | None => None
  | Some binaryString =>
      Some (map byte_of_ascii (list_ascii_of_string binaryString))
  end.

End Encoder.

(** ** Calls to the outside world, with their log *)
Module World.
Import JsString.

(** [OutlookAttachmentPreview] *)
Record OutlookAttachmentPreview : Type := {
  id : string;
  name : string;
  contentType : string;
  size : N;
  isInline : bool
}.

(** [AirtableAttachmentInput] *)
Record AirtableAttachmentInput : Type := {
  filename : string;
  url : string
}.

(** [Office.MailboxEnums.AttachmentContentFormat] *)
Inductive AttachmentContentFormat : Type :=
| Base64 | Url | Eml | ICalendar.

(** [Office.AttachmentContent] *)
Record AttachmentContent : Type := {
  format : AttachmentContentFormat;
  content : string
}.

(** The properties the pane reads from JSON answers of the file-hosting
    API; [None] is a property that is missing, [null] or [undefined]. *)
Record JsonBody : Type := {
  uploadUrl : option string;
  item_id : option string;
  webUrl : option string;
  downloadUrl : option string;     (* ["@microsoft.graph.downloadUrl"] *)
  link_webUrl : option string      (* [link.webUrl] *)
}.

(** A [fetch] response; [None] for a body reader that rejects. *)
Record Response : Type := {
  ok : bool;
  text : option string;
  json : option JsonBody
}.

(** The four requests of [uploadToOneDriveAndShare]. *)
Inductive Request : Type :=
| CreateUploadSession (safeName graphToken : string)
| PutBytes (uploadUrl : option string) (buffer : list byte)
| GetItem (itemId graphToken : string)
| CreateLink (itemId scope graphToken : string).

(** What the pane asks of its collaborators, in the order it asks. *)
Inductive Event : Type :=
| EvHandleRedirect
| EvAcquireTokenSilent
| EvAcquireTokenPopup
| EvGetAttachmentContent (attachmentId : string)
| EvFetch (request : Request).

(** The identity provider's client (MSAL). *)
Record Msal : Type := {
  construct : Outcome unit;
  handleRedirectPromise : Outcome (option string);   (* [?.accessToken] *)
  getAllAccounts : nat;                               (* [.length] *)
  acquireTokenSilent : Outcome (option string);
  acquireTokenPopup : Outcome (option string)
}.

(** Everything outside the pane. *)
Record Host : Type := {
  GRAPH_CLIENT_ID : string;
  GRAPH_TENANT_ID : string;
  GRAPH_REDIRECT_URI : string;
  msal : Msal;
  getAttachmentContentAsync : string -> AsyncResult AttachmentContent;
  fetch : Request -> Outcome Response;
  Date_now : string
}.

(** A computation that logs its calls and may throw. *)
Definition W (A : Type) : Type := (Outcome A * list Event)%type.

Definition ret {A} (a : A) : W A := (Ok a, []).
Definition throw {A} (e : string) : W A := (Throw e, []).
Definition emit (e : Event) : W unit := (Ok tt, [e]).

Definition bind {A B} (m : W A) (k : A -> W B) : W B :=
  match m with
  | (Ok a, t) => let '(r, t') := k a in (r, t ++ t')
  | (Throw e, t) => (Throw e, t)
  end.

(** [try { m } catch (e) { h e }] *)
Definition try_catch {A} (m : W A) (h : string -> W A) : W A :=
  match m with
  | (Ok a, t) => (Ok a, t)
  | (Throw e, t) => let '(r, t') := h e in (r, t ++ t')
  end.

Definition of_outcome {A} (o : Outcome A) : W A := (o, []).

Definition of_option {A} (error : string) (o : option A) : W A :=
  match o with
  | Some a => ret a
  | None => throw error
  end.

End World.

Declare Scope w_scope.
Delimit Scope w_scope with W.
Notation "x <- m ;; k" := (World.bind m (fun x => k))
  (at level 100, m at next level, right associativity) : w_scope.
Notation "m ;;; k" := (World.bind m (fun _ => k))
  (at level 100, right associativity) : w_scope.

(** ** The credential broker *)
Module Credentials.
Import JsString World.

(** The pane's own mutable state that the broker touches. *)
Record Pane : Type := {
  cachedGraphToken : option string;
  msalInstance : bool                (* already constructed? *)
}.

Definition with_token (p : Pane) (t : string) : Pane :=
  {| cachedGraphToken := Some t; msalInstance := msalInstance p |}.

Definition with_client (p : Pane) : Pane :=
  {| cachedGraphToken := cachedGraphToken p; msalInstance := true |}.

(** One acquisition step: [Some t] ends the search with a token, [None]
    lets it go on; a throw is for the enclosing [catch]. *)
Definition acquire (e : Event) (answer : Outcome (option string))
  : W (option string) :=
  (emit e ;;; r <- of_outcome answer ;; ret (truthy_opt r))%W.

(** The [try] block of [getGraphToken] after the client exists. *)
Definition acquire_chain (m : Msal) : W (option string) :=
  (redirect <- acquire EvHandleRedirect (handleRedirectPromise m) ;;
   match redirect with
   | Some t => ret (Some t)
   | None =>
       silent <-
         (if (0 <? getAllAccounts m)%nat
          then acquire EvAcquireTokenSilent (acquireTokenSilent m)
          else ret None) ;;
       match silent with
       | Some t => ret (Some t)
       | None => acquire EvAcquireTokenPopup (acquireTokenPopup m)
       end
   end)%W.

(** [getGraphToken]: the token or [null], the pane afterwards, the log. *)
Definition getGraphToken (host : Host) (pane : Pane)
  : option string * Pane * list Event :=
  match truthy_opt (cachedGraphToken pane) with
  | Some t => (Some t, pane, [])
  | None =>
      if negb (truthy (GRAPH_CLIENT_ID host))
         || negb (truthy (GRAPH_REDIRECT_URI host))
         || negb (truthy (GRAPH_TENANT_ID host))
      then (None, pane, [])
      else
        match (if msalInstance pane then Ok tt else construct (msal host))
        with
        | Throw _ => (None, pane, [])
        | Ok _ =>
            match acquire_chain (msal host) with
            | (Ok (Some t), log) =>
                (Some t, with_token (with_client pane) t, log)
            | (Ok None, log) => (None, with_client pane, log)
            | (Throw _, log) => (None, with_client pane, log)
            end
        end
  end.

End Credentials.

(** ** The attachment delivery pipeline *)
Module Delivery.
Import JsString World Credentials Encoder.
Local Open Scope w_scope.

Definition do_fetch (host : Host) (request : Request) : W Response :=
  emit (EvFetch request) ;;; of_outcome (fetch host request).

Definition read_text (r : Response) : W string :=
  of_option "body stream error" (text r).

Definition read_json (r : Response) : W JsonBody :=
  of_option "invalid JSON" (json r).

(** The [for (const scope of shareScopes)] loop. *)
Fixpoint share_loop (host : Host) (filename itemId graphToken : string)
         (uploaded : JsonBody) (shareScopes : list string)
  : W (option AirtableAttachmentInput) :=
  match shareScopes with
  | [] => ret None
  | scope :: rest =>
      linkResp <- do_fetch host (CreateLink itemId scope graphToken) ;;
      if negb (ok linkResp) then
        read_text linkResp ;;;
        share_loop host filename itemId graphToken uploaded rest
      else
        linkBody <- read_json linkResp ;;
        match truthy_opt (or_else (link_webUrl linkBody) (webUrl uploaded))
        with
        | Some url => ret (Some {| filename := filename; url := url |})
        | None => share_loop host filename itemId graphToken uploaded rest
        end
  end.

Definition shareScopes : list string := ["anonymous"; "organization"].

(** The direct download link: the [try]/[catch] after the upload. *)
Definition direct_download (host : Host) (itemId graphToken : string)
  : W (option string) :=
  try_catch
    (dlResp <- do_fetch host (GetItem itemId graphToken) ;;
     if ok dlResp then
       dlBody <- read_json dlResp ;;
       ret (truthy_opt (downloadUrl dlBody))
     else
       read_text dlResp ;;; ret None)
    (fun _ => ret None).

(** [uploadToOneDriveAndShare] from the item id on: which URL to give. *)
Definition negotiate_url (host : Host) (filename graphToken : string)
           (uploaded : JsonBody) (itemId : string)
  : W (option AirtableAttachmentInput) :=
  direct <- direct_download host itemId graphToken ;;
  match direct with
  | Some dlUrl => ret (Some {| filename := filename; url := dlUrl |})
  | None =>
      shared <- share_loop host filename itemId graphToken uploaded
                           shareScopes ;;
      match shared with
      | Some r => ret (Some r)
      | None =>
          match truthy_opt (webUrl uploaded) with
          | Some w => ret (Some {| filename := filename; url := w |})
          | None => ret None
          end
      end
  end.

(** [uploadToOneDriveAndShare] *)
Definition uploadToOneDriveAndShare (host : Host)
           (filename base64 graphToken : string)
  : W (option AirtableAttachmentInput) :=
  let safeName :=
    if truthy filename then filename else "upload-" +:+ Date_now host in
  sessionResp <- do_fetch host (CreateUploadSession safeName graphToken) ;;
  if negb (ok sessionResp) then read_text sessionResp ;;; ret None
  else
    session <- read_json sessionResp ;;
    buffer <- of_option "InvalidCharacterError" (base64ToArrayBuffer base64) ;;
    uploadResp <- do_fetch host (PutBytes (uploadUrl session) buffer) ;;
    if negb (ok uploadResp) then read_text uploadResp ;;; ret None
    else
      uploaded <- read_json uploadResp ;;
      match truthy_opt (item_id uploaded) with
      | None => ret None
      | Some itemId => negotiate_url host filename graphToken uploaded itemId
      end.

(** The shape the pane gives to an attachment's content. *)
Inductive Content : Type :=
| ContentUrl (value : string)
| ContentBase64 (value : string)
| ContentUnsupported (error : option string).

(** The callback handed to [getAttachmentContentAsync]. *)
Definition classify (result : AsyncResult AttachmentContent) : Content :=
  match result with
  | Succeeded v =>
      match format v with
      | Url => if truthy (content v) then ContentUrl (content v)
               else ContentUnsupported None
      | Base64 => if truthy (content v) then ContentBase64 (content v)
                  else ContentUnsupported None
      | _ => ContentUnsupported None
      end
  | Failed e => ContentUnsupported (Some e)
  end.

Definition acquire_content (host : Host) (attachmentId : string)
  : W Content :=
  emit (EvGetAttachmentContent attachmentId) ;;;
  ret (classify (getAttachmentContentAsync host attachmentId)).

(** The upload of one embedded payload, inside its [try]/[catch]. *)
Definition guarded_upload (host : Host) (filename base64 graphToken : string)
  : W (option AirtableAttachmentInput) :=
  try_catch (uploadToOneDriveAndShare host filename base64 graphToken)
            (fun _ => ret None).

(** The [for (const attachment of selected)] loop; [results] is the
    array being filled. *)
Fixpoint attachment_loop (host : Host) (graphToken : string)
         (selected : list OutlookAttachmentPreview)
         (results : list AirtableAttachmentInput)
  : W (list AirtableAttachmentInput) :=
  match selected with
  | [] => ret results
  | attachment :: rest =>
      content <- acquire_content host (id attachment) ;;
      match content with
      | ContentUrl value =>
          attachment_loop host graphToken rest
            (results ++ [{| filename := name attachment; url := value |}])
      | ContentBase64 value =>
          uploaded <- guarded_upload host (name attachment) value graphToken ;;
          match uploaded with
          | Some u => attachment_loop host graphToken rest (results ++ [u])
          | None => attachment_loop host graphToken rest results
          end
      | ContentUnsupported _ =>
          attachment_loop host graphToken rest results
      end
  end.

(** [prepareAirtableAttachments]: its result, the pane afterwards and
    the calls it made. *)
Definition prepareAirtableAttachments (host : Host) (pane : Pane)
           (selected : list OutlookAttachmentPreview)
  : Outcome (list AirtableAttachmentInput) * Pane * list Event :=
  match selected with
  | [] => (Ok [], pane, [])
  | _ =>
      let '(graphToken, pane', log) := getGraphToken host pane in
      match truthy_opt graphToken with
      | None => (Ok [], pane', log)
      | Some token =>
          let '(r, log') := attachment_loop host token selected [] in
          (r, pane', log ++ log')
      end
  end.

End Delivery.

(** ** Text and selections read from the forms *)
Module Forms.
Import JsString Links Titles.

Definition CR : ascii := "013"%char.
Definition LF : ascii := "010"%char.

(** [text.replace(/\r\n/g, "\n")] *)
Fixpoint replace_crlf (s : string) : string :=
  match s with
  | EmptyString => EmptyString
  | String c s' =>
      match s' with
      | String c' t =>
          if Ascii.eqb c CR && Ascii.eqb c' LF
          then String LF (replace_crlf t)
          else String c (replace_crlf s')
      | EmptyString => String c EmptyString
      end
  end.

Fixpoint newlines (n : nat) : string :=
  match n with
  | O => EmptyString
  | S n' => String LF (newlines n')
  end.

(** [text.replace(/\n{3,}/g, "\n\n")]; [run] counts the line feeds read
    since the last other character. *)
Fixpoint squeeze_newlines (run : nat) (s : string) : string :=
  match s with
  | EmptyString => newlines (Nat.min run 2)
  | String c s' =>
      if Ascii.eqb c LF then squeeze_newlines (S run) s'
      else newlines (Nat.min run 2) +:+ String c (squeeze_newlines 0 s')
  end.

(** [normalizeBodyText] *)
Definition normalizeBodyText (text : string) : string :=
  if negb (truthy text) then ""
  else trim (squeeze_newlines 0 (replace_crlf text)).

(** The class [[\u0000-\u0008\u000B\u000C\u000E-\u001F\u007F]]. *)
Definition is_control (c : ascii) : bool :=
  let n := code c in
  ((n <=? 8) || (n =? 11) || (n =? 12) || (14 <=? n) && (n <=? 31)
   || (n =? 127))%N.

Fixpoint remove_chars (f : ascii -> bool) (s : string) : string :=
  match s with
  | EmptyString => EmptyString
  | String c s' =>
      if f c then remove_chars f s' else String c (remove_chars f s')
  end.

(** [sanitizeForAirtableText] *)
Definition sanitizeForAirtableText (value : string) : string :=
  if negb (truthy value) then ""
  else trim (remove_chars is_control value).

(** [truncateForAirtable] *)
Definition truncateForAirtable (value : string) (max : N) : string :=
  if negb (truthy value) then ""
  else if (max <? N.of_nat (String.length value))%N
       then String.substring 0 (N.to_nat max) value
       else value.

(** The default of [max]. *)
Definition airtable_text_max : N := 50000.

(** [getInputValue]: the element's value, [None] without the element. *)
Definition getInputValue (element : option string) : string :=
  match element with
  | Some value => if truthy value then trim value else ""
  | None => ""
  end.

(** The separators of a list typed into a field: [[,;\n]]. *)
Definition is_list_separator (c : ascii) : bool :=
  (Ascii.eqb c "," || Ascii.eqb c ";" || Ascii.eqb c LF)%char.

Definition cons_head (c : ascii) (pieces : list string) : list string :=
  match pieces with
  | h :: t => String c h :: t
  | [] => [String c EmptyString]
  end.

(** [s.split(/[,;\n]/)]: every separator ends a piece. *)
Fixpoint split_each (s : string) : list string :=
  match s with
  | EmptyString => [EmptyString]
  | String c s' =>
      if is_list_separator c then EmptyString :: split_each s'
      else cons_head c (split_each s')
  end.

(** [s.split(/[;,\n]+/)]: a run of separators ends a piece;
    [in_run] tells that the character before was a separator. *)
Fixpoint split_runs (in_run : bool) (s : string) : list string :=
  match s with
  | EmptyString => [EmptyString]
  | String c s' =>
      if is_list_separator c then
        if in_run then split_runs true s'
        else EmptyString :: split_runs true s'
      else cons_head c (split_runs false s')
  end.

(** [.map((t) => t.trim()).filter(Boolean)] *)
Definition trimmed_tokens (pieces : list string) : list string :=
  List.filter truthy (map trim pieces).

(** [getRecordIdList], from the element of the field. *)
Definition getRecordIdList (element : option string) : list string :=
  let value := getInputValue element in
  if negb (truthy value) then []
  else trimmed_tokens (split_each value).

(** The callback of [tokens.forEach] in [addNotePersonToken]. *)
Definition push_token (notePersonTokens : list string) (token : string)
  : list string :=
  if existsb (fun t => String.eqb (toLowerCase t) (toLowerCase token))
             notePersonTokens
  then notePersonTokens
  else notePersonTokens ++ [token].

(** [addNotePersonToken]: the token list afterwards. *)
Definition addNotePersonToken (notePersonTokens : list string) (raw : string)
  : list string :=
  let tokens := trimmed_tokens (split_runs false raw) in
  match tokens with
  | [] => notePersonTokens
  | _ => fold_left push_token tokens notePersonTokens
  end.

(** A check box of an attachment list. *)
Record Checkbox : Type := { checked : bool; value : string }.

(** [getEligibleAttachments] *)
Definition getEligibleAttachments
           (attachments : list World.OutlookAttachmentPreview)
  : list World.OutlookAttachmentPreview :=
  List.filter (fun att => negb (World.isInline att)) attachments.

(** [getSelectedAttachments], from the check boxes of the class. *)
Definition getSelectedAttachments
           (attachments : list World.OutlookAttachmentPreview)
           (checkboxes : list Checkbox)
  : list World.OutlookAttachmentPreview :=
  let selectedIds := map value (List.filter checked checkboxes) in
  List.filter (fun att => existsb (String.eqb (World.id att)) selectedIds)
              (getEligibleAttachments attachments).

End Forms.

(** ** The record client ([services/airtableClient.ts]) and its
       configuration ([config/airtableConfig.ts]) *)
Module Client.
Import JsString Links Titles.

(** One name per logical module. *)
Record Names : Type := {
  tasks : string;
  events : string;
  documents : string;
  projects : string;
  persons : string;
  notes : string
}.

(** [AirtableEnvironmentConfig] *)
Record AirtableEnvironmentConfig : Type := {
  personalAccessToken : string;
  baseIds : Names;
  tableNames : Names;
  proxyUrl : option string
}.


Definition FALLBACK_BASES : Names :=
  {| tasks := "AIRTABLE_BASE_ID_TASKS";
     events := "AIRTABLE_BASE_ID_EVENTS";
     documents := "AIRTABLE_BASE_ID_DOCUMENTS";
     projects := "AIRTABLE_BASE_ID_TASKS";
     persons := "AIRTABLE_BASE_ID_TASKS";
     notes := "AIRTABLE_BASE_ID_TASKS" |}.

Definition FALLBACK_TABLES : Names :=
  {| tasks := "Tasks&Termine";
     events := "Tasks&Termine";
     documents := "Dokumente und Links";
     projects := "Projects";
     persons := "Personen";
     notes := "Gespr" +:+ String "195" (String "164" "chsnotizen") |}.



Definition AIRTABLE_REST_BASE : string := "https://api.airtable.com/v0".

(** [this.config.proxyUrl && this.config.proxyUrl.trim().length > 0] *)
Definition proxy_configured (config : AirtableEnvironmentConfig) : bool :=
  match proxyUrl config with
  | Some p => truthy p && (0 <? String.length (trim p))%nat
  | None => false
  end.

(** [hasValidToken] *)
Definition hasValidToken (config : AirtableEnvironmentConfig) : bool :=
  if proxy_configured config then true
  else
    let token := trim (personalAccessToken config) in
    truthy token && negb (startsWith token "YOUR_").

(** [s.replace(/\/+$/, "")] *)
Fixpoint strip_slashes (s : string) : string :=
  match s with
  | EmptyString => EmptyString
  | String c s' =>
      let r := strip_slashes s' in
      if Ascii.eqb c "/" && String.eqb r "" then "" else String c r
  end.

(** [getBaseUrl] *)
Definition getBaseUrl (config : AirtableEnvironmentConfig) : string :=
  match proxyUrl config with
  | Some p =>
      if truthy (trim p) then strip_slashes (trim p) else AIRTABLE_REST_BASE
  | None => AIRTABLE_REST_BASE
  end.

(** The headers of a request that the client sets. *)
Record Headers : Type := {
  Authorization : option string;
  Content_Type : option string
}.

(** [buildHeaders] *)
Definition buildHeaders (config : AirtableEnvironmentConfig) : Headers :=
  if proxy_configured config then
    {| Authorization := None; Content_Type := Some "application/json" |}
  else
    {| Authorization := Some ("Bearer " +:+ personalAccessToken config);
       Content_Type := Some "application/json" |}.

(** The value of a field of a new record. *)
Inductive FieldValue : Type :=
| FText (s : string)
| FNull
| FLinks (recordIds : list string)
| FCollaboratorId (collaboratorId : string)
| FCollaboratorEmail (collaboratorEmail : string)
| FAttachments (files : list World.AirtableAttachmentInput).

(** The [fields] object of a new record, in the order of its keys. *)
Definition Fields : Type := list (string * FieldValue).

(** A table URL by its parts, and the metadata URL. The query is the
    [URLSearchParams] of the request; an empty one adds nothing. *)
Inductive Url : Type :=
| TableUrl (base baseId tablePath : string) (query : list (string * string))
| MetaTablesUrl (baseId : string).

Record ClientRequest : Type := {
  method : option string;
  url : Url;
  headers : option Headers;
  body : option Fields
}.

(** [AirtableRecordResponse] *)
Record AirtableRecordResponse : Type := {
  created_id : string;
  createdTime : string
}.

(** A JSON value of a record field, as far as the client looks at it. *)
Inductive JsonValue : Type :=
| JString (s : string)
| JOther.

(** A listed record; its fields in the order [Object.values] gives. *)
Record AirtableRecord : Type := {
  record_id : string;
  record_fields : list (string * JsonValue)
}.

(** A page of a listing. *)
Record Page : Type := {
  records : list AirtableRecord;
  offset : option string
}.

(** A choice of a collaborator field in the metadata of a base. *)
Record Choice : Type := {
  choice_id : option string;
  choice_email : option string;
  choice_name : option string
}.

(** A field in the metadata; [choices] is [options?.choices]. *)
Record MetaField : Type := {
  field_name : string;
  field_type : string;
  choices : option (list Choice)
}.

Record MetaTable : Type := {
  table_name : string;
  table_fields : list MetaField
}.

(** [CollaboratorOption] *)
Record CollaboratorOption : Type := {
  collaborator_id : option string;
  collaborator_email : option string;
  collaborator_name : option string
}.

(** A response; a body reader that rejects, or a body without what the
    client reads from it, is [None]. *)
Record ClientResponse : Type := {
  ok : bool;
  status : N;
  text : option string;
  json_record : option AirtableRecordResponse;
  json_page : option Page;
  json_tables : option (list MetaTable)
}.

Section WithPlatform.
(** [encodeURIComponent] *)
Variable encodeURIComponent : string -> string.
(** [fetch] *)
Variable fetch : ClientRequest -> Outcome ClientResponse.
Variable config : AirtableEnvironmentConfig.

(** [buildTablePath] *)
Definition buildTablePath (nameOrId : string) : string :=
  if startsWith nameOrId "tbl" then nameOrId
  else encodeURIComponent nameOrId.

(** The decimal text of a status in a message. *)
Definition status_text (n : N) : string :=
  DecimalString.NilZero.string_of_uint (N.to_uint n).

(** What a refused request throws; [label] tells the operation. *)
Definition refusal (label : string) (response : ClientResponse)
  : Outcome string :=
  match text response with
  | Some errorBody =>
      Ok (label +:+ status_text (status response) +:+ ": " +:+ errorBody)
  | None => Throw "body stream error"
  end.

(** [createRecord]: its result and the requests it made. *)
Definition createRecord (baseId tableName : string) (fields : Fields)
  : Outcome (option AirtableRecordResponse) * list ClientRequest :=
  if negb (hasValidToken config) then (Ok None, [])
  else
    let request :=
      {| method := Some "POST";
         url := TableUrl (getBaseUrl config) baseId
                         (buildTablePath tableName) [];
         headers := Some (buildHeaders config);
         body := Some fields |} in
    match fetch request with
    | Throw e => (Throw e, [request])
    | Ok response =>
        if negb (ok response) then
          match refusal "Airtable error " response with
          | Ok message => (Throw message, [request])
          | Throw e => (Throw e, [request])
          end
        else
          match json_record response with
          | Some created => (Ok (Some created), [request])
          | None => (Throw "invalid JSON", [request])
          end
    end.

(** One entry of [options.sort]. *)
Record SortEntry : Type := {
  sort_field : string;
  direction : option string
}.

(** The [options] of [listRecords]. *)
Record ListOptions : Type := {
  fields : option (list string);
  filterByFormula : option string;
  sort : option (list SortEntry)
}.

Fixpoint sort_params (index : N) (entries : list SortEntry)
  : list (string * string) :=
  match entries with
  | [] => []
  | entry :: rest =>
      ("sort[" +:+ status_text index +:+ "][field]", sort_field entry)
      :: match truthy_opt (direction entry) with
         | Some d => [("sort[" +:+ status_text index +:+ "][direction]", d)]
         | None => []
         end
      ++ sort_params (index + 1) rest
  end.

(** The [URLSearchParams] of one round. *)
Definition list_params (options : option ListOptions)
           (offset : option string) : list (string * string) :=
  match truthy_opt offset with
  | Some o => [("offset", o)]
  | None => []
  end
  ++ match options with
     | Some o =>
         match fields o with
         | Some fs => map (fun f => ("fields[]", f)) fs
         | None => []
         end
         ++ match truthy_opt (filterByFormula o) with
            | Some formula => [("filterByFormula", formula)]
            | None => []
            end
         ++ match sort o with
            | Some entries => sort_params 0 entries
            | None => []
            end
     | None => []
     end.

Definition list_request (baseId tableName : string)
           (options : option ListOptions) (offset : option string)
  : ClientRequest :=
  {| method := Some "GET";
     url := TableUrl (getBaseUrl config) baseId (buildTablePath tableName)
                     (list_params options offset);
     headers :=
       match truthy_opt (proxyUrl config) with
       | Some _ => None
       | None =>
           Some {| Authorization :=
                     Some ("Bearer " +:+ personalAccessToken config);
                   Content_Type := None |}
       end;
     body := None |}.

(** The [do ... while (offset)] loop of [listRecords]. [fuel] bounds the
    rounds; [None] is a loop that has not ended within them. *)
Fixpoint list_loop (fuel : nat) (baseId tableName : string)
         (options : option ListOptions) (offset : option string)
         (collected : list AirtableRecord)
  : option (Outcome (list AirtableRecord)) * list ClientRequest :=
  match fuel with
  | O => (None, [])
  | S fuel' =>
      let request := list_request baseId tableName options offset in
      match fetch request with
      | Throw e => (Some (Throw e), [request])
      | Ok response =>
          if negb (ok response) then
            match refusal "Airtable list error " response with
            | Ok message => (Some (Throw message), [request])
            | Throw e => (Some (Throw e), [request])
            end
          else
            match json_page response with
            | None => (Some (Throw "invalid JSON"), [request])
            | Some page =>
                let collected' := collected ++ records page in
                match truthy_opt (Client.offset page) with
                | Some next =>
                    let '(r, log) :=
                      list_loop fuel' baseId tableName options (Some next)
                                collected' in
                    (r, request :: log)
                | None => (Some (Ok collected'), [request])
                end
            end
      end
  end.

(** [listRecords] *)
Definition listRecords (fuel : nat) (baseId tableName : string)
           (options : option ListOptions)
  : option (Outcome (list AirtableRecord)) * list ClientRequest :=
  if negb (hasValidToken config) then (Some (Ok []), [])
  else list_loop fuel baseId tableName options None [].

(** [OutlookMessageMetadata]; the received date by its ISO text. *)
Record OutlookMessageMetadata : Type := {
  itemId : string;
  subject : string;
  from : string;
  receivedDate : option string;
  webLink : option string
}.

(** [AirtableTaskPayload] *)
Record AirtableTaskPayload : Type := {
  task_title : string;
  task_projectRecordId : option string;
  task_start : option string;
  task_end : option string;
  internalOwnerEmail : option string;
  internalOwnerId : option string;
  externalAssigneeIds : option (list string);
  priority : option string;
  task_status : option string;
  category : option string;
  task_art : option string;
  description : option string;
  task_attachments : option (list World.AirtableAttachmentInput);
  task_message : OutlookMessageMetadata
}.

(** [AirtableDocumentPayload] *)
Record AirtableDocumentPayload : Type := {
  doc_project : option string;
  doc_projectRecordId : option string;
  doc_type : string;
  label : option string;
  doc_url : option string;
  doc_attachments : option (list World.AirtableAttachmentInput);
  doc_message : OutlookMessageMetadata
}.

(** [AirtableNotePayload] *)
Record AirtableNotePayload : Type := {
  note_title : option string;
  note : option string;
  note_projectRecordId : option string;
  note_art : option string;
  personRecordIds : option (list string);
  note_date : option string;
  note_message : OutlookMessageMetadata
}.

(** [...(value ? { key: value } : {})] *)
Definition when_truthy (key : string) (value : option string) : Fields :=
  match truthy_opt value with
  | Some v => [(key, FText v)]
  | None => []
  end.

(** [value ?? null] *)
Definition text_or_null (value : option string) : FieldValue :=
  match value with
  | Some v => FText v
  | None => FNull
  end.

(** The link to a project, set when the id has the record prefix. *)
Definition project_link (key : string) (projectRecordId : option string)
  : Fields :=
  match truthy_opt projectRecordId with
  | Some p => if startsWith p "rec" then [(key, FLinks [p])] else []
  | None => []
  end.

(** Linked records, set when some id with the record prefix is left. *)
Definition record_links (key : string) (ids : option (list string))
  : Fields :=
  match ids with
  | Some (i :: rest) =>
      match List.filter (fun x => startsWith x "rec") (i :: rest) with
      | [] => []
      | valid => [(key, FLinks valid)]
      end
  | _ => []
  end.

Definition attachment_field (key : string)
           (files : option (list World.AirtableAttachmentInput)) : Fields :=
  match files with
  | Some (f :: rest) => [(key, FAttachments (f :: rest))]
  | _ => []
  end.

(** The [fields] that [createTask] sends. *)
Definition task_fields (payload : AirtableTaskPayload) : Fields :=
  [("fldTO8z4W11jV8OhT",
    FText (if truthy (task_title payload) then task_title payload
           else subject (task_message payload)));
   ("fldux74lImjEo3619", FText (default "" (description payload)))]
  ++ when_truthy "fldRlnk0GJrnwRg6t" (task_status payload)
  ++ when_truthy "fldxLsL8R48p1k5dQ" (priority payload)
  ++ when_truthy "fldZnMF441uknZeB6" (category payload)
  ++ [("fldnat5YVKgTg0JlR", text_or_null (task_start payload));
      ("fldnSnu1YjOSIa8V1", text_or_null (task_end payload));
      ("fldJ9gcK3Twv8Qq5Z", FText (default "Task" (task_art payload)))]
  ++ project_link "fldffhQ9PYUGWbhqe" (task_projectRecordId payload)
  ++ match truthy_opt (internalOwnerId payload) with
     | Some i => [("fldphfDf5RxQ9zOjt", FCollaboratorId i)]
     | None =>
         match truthy_opt (internalOwnerEmail payload) with
         | Some e => [("fldphfDf5RxQ9zOjt", FCollaboratorEmail e)]
         | None => []
         end
     end
  ++ record_links "fldSWTH4tAqe7wPTz" (externalAssigneeIds payload)
  ++ attachment_field "fld1mSTdRf0OAgK71" (task_attachments payload).

(** [createTask] *)
Definition createTask (payload : AirtableTaskPayload)
  : Outcome (option AirtableRecordResponse) * list ClientRequest :=
  createRecord (tasks (baseIds config)) (tasks (tableNames config))
               (task_fields payload).

(** The [fields] that [createDocument] sends. *)
Definition document_fields (payload : AirtableDocumentPayload) : Fields :=
  [("fldetAgRaOKc7Smlr", FText (default "" (label payload)))]
  ++ project_link "fldWYtTP4z7UQl704" (doc_projectRecordId payload)
  ++ (if String.eqb (doc_type payload) "attachment"
      then attachment_field "fldFFlZfxmURDHJJE" (doc_attachments payload)
      else [])
  ++ (if String.eqb (doc_type payload) "link"
      then when_truthy "fldJJxnpWs4OsNHSq" (doc_url payload)
      else []).

(** [createDocument] *)
Definition createDocument (payload : AirtableDocumentPayload)
  : Outcome (option AirtableRecordResponse) * list ClientRequest :=
  createRecord (documents (baseIds config)) (documents (tableNames config))
               (document_fields payload).

(** The [fields] that [createNote] sends. *)
Definition note_fields (payload : AirtableNotePayload) : Fields :=
  [("fldyfl5z48QM8kcRE",
    FText (match note_title payload with
           | Some t => t
           | None => subject (note_message payload)
           end));
   ("fldnRlEsEgAhmGMrQ", FText (default "" (note payload)));
   ("fldMbjwoxt02Rxzj1", FText (default "E-Mail" (note_art payload)));
   ("fld0AEgf6HqaODqKU",
    match note_date payload with
    | Some d => FText d
    | None => text_or_null (receivedDate (note_message payload))
    end)]
  ++ project_link "fldkYXvwccvXE11hR" (note_projectRecordId payload)
  ++ record_links "fldZFkB4H5rUJYTOl" (personRecordIds payload).

(** [createNote] *)
Definition createNote (payload : AirtableNotePayload)
  : Outcome (option AirtableRecordResponse) * list ClientRequest :=
  createRecord (if truthy (notes (baseIds config))
                then notes (baseIds config) else tasks (baseIds config))
               (notes (tableNames config))
               (note_fields payload).

(** [typeof fields[key] === "string" && fields[key].trim()] *)
Definition string_field (fields : list (string * JsonValue)) (key : string)
  : option string :=
  match find (fun kv => String.eqb (fst kv) key) fields with
  | Some (_, JString s) => if truthy (trim s) then Some (trim s) else None
  | _ => None
  end.

(** The first string value that is not blank, trimmed. *)
Fixpoint first_string (values : list (string * JsonValue)) : option string :=
  match values with
  | [] => None
  | (_, JString s) :: rest =>
      if truthy (trim s) then Some (trim s) else first_string rest
  | (_, JOther) :: rest => first_string rest
  end.

(** [pickProjectName] *)
Definition pickProjectName (fields : list (string * JsonValue))
  : option string :=
  match string_field fields "Projekt" with
  | Some n => Some n
  | None =>
      match string_field fields "Name" with
      | Some n => Some n
      | None =>
          match string_field fields "Titel" with
          | Some n => Some n
          | None => first_string fields
          end
      end
  end.

(** [pickEmail] *)
Definition pickEmail (fields : list (string * JsonValue)) : option string :=
  match string_field fields "Email" with
  | Some e => Some e
  | None => string_field fields "email"
  end.

Definition open_projects : string :=
  "AND(NOT({Status}='Abgeschlossen'),NOT({Status}='On Hold'),NOT({Status}='Abbruch'))".

Definition or_base (first second : string) : string :=
  if truthy first then first else second.

Definition lift_records {A : Type} (f : AirtableRecord -> A)
           (r : option (Outcome (list AirtableRecord)))
  : option (Outcome (list A)) :=
  match r with
  | Some (Ok rs) => Some (Ok (map f rs))
  | Some (Throw e) => Some (Throw e)
  | None => None
  end.

(** [fetchProjects] *)
Definition fetchProjects (fuel : nat)
  : option (Outcome (list Resolver.AirtableProjectOption))
    * list ClientRequest :=
  let baseId := or_base (projects (baseIds config)) (tasks (baseIds config)) in
  let '(r, log) :=
    listRecords fuel baseId (projects (tableNames config))
                (Some {| fields := None;
                         filterByFormula := Some open_projects;
                         sort := None |}) in
  (lift_records
     (fun record =>
        {| Resolver.id := record_id record;
           Resolver.name := default (record_id record)
                                    (pickProjectName (record_fields record));
           Resolver.email := None |}) r,
   log).

(** [fetchExternalPersons] *)
Definition fetchExternalPersons (fuel : nat)
  : option (Outcome (list Resolver.AirtableProjectOption))
    * list ClientRequest :=
  let baseId := or_base (persons (baseIds config)) (tasks (baseIds config)) in
  if negb (truthy baseId) || startsWith baseId "AIRTABLE_BASE_ID"
  then (Some (Ok []), [])
  else
    let '(r, log) :=
      listRecords fuel baseId (persons (tableNames config)) None in
    (lift_records
       (fun record =>
          {| Resolver.id := record_id record;
             Resolver.name := default (record_id record)
                                      (pickProjectName (record_fields record));
             Resolver.email := pickEmail (record_fields record) |}) r,
     log).







End WithPlatform.

End Client.

(** ** The proxy function ([unnamed/part_000]) *)
Module Proxy.
Import JsString Titles.

Definition AIRTABLE_BASE_URL : string := "https://api.airtable.com/v0".

(** [s.replace(/^\/+/, "")] *)
Fixpoint strip_leading_slashes (s : string) : string :=
  match s with
  | EmptyString => EmptyString
  | String c s' => if Ascii.eqb c "/" then strip_leading_slashes s' else s
  end.

(** [s.split(c)] for a separator of one character. *)
Fixpoint split_on (c : ascii) (s : string) : list string :=
  match s with
  | EmptyString => [EmptyString]
  | String d s' =>
      if Ascii.eqb d c then EmptyString :: split_on c s'
      else Forms.cons_head d (split_on c s')
  end.

(** [path.split("/")[0]] *)
Definition first_segment (path : string) : string :=
  match split_on "/" path with
  | segment :: _ => segment
  | [] => EmptyString
  end.

(** [s.substring(s.indexOf("?"))] for an [s] that has a "?". *)
Fixpoint from_question (s : string) : string :=
  match s with
  | EmptyString => EmptyString
  | String c s' => if Ascii.eqb c "?" then s else from_question s'
  end.

(** What the function reads from the process and the binding. *)
Record Env : Type := {
  AIRTABLE_PAT : option string;
  AIRTABLE_BASE_ALLOWLIST : option string;
  bindingData_path : option string
}.

(** The incoming request; [body_json] is [JSON.stringify(req.body)] of a
    truthy [req.body]. *)
Record Req : Type := {
  originalUrl : option string;
  method : string;
  rawBody : option string;
  body_json : option string
}.

(** The request sent on. *)
Record Upstream : Type := {
  targetUrl : string;
  init_method : string;
  init_authorization : string;
  init_content_type : string;
  init_body : option string
}.

(** The answer of the service; a body that cannot be read is [None]. *)
Record UpstreamResponse : Type := {
  upstream_status : N;
  upstream_content_type : option string;
  upstream_text : option string
}.

(** [context.res] *)
Record Res : Type := {
  status : N;
  content_type : option string;
  body : string
}.

(** The allowlist: the entries of the variable, trimmed, without the
    empty ones. *)
Definition allowlist_of (env : Env) : list string :=
  List.filter truthy
    (map trim
         (split_on ","
                   (match truthy_opt (AIRTABLE_BASE_ALLOWLIST env) with
                    | Some v => v
                    | None => EmptyString
                    end))).

(** The path of the binding without its leading slashes. *)
Definition path_of (env : Env) : string :=
  strip_leading_slashes
    (match truthy_opt (bindingData_path env) with
     | Some p => p
     | None => EmptyString
     end).

(** The query string of the incoming URL, with its "?". *)
Definition query_of (req : Req) : string :=
  match truthy_opt (originalUrl req) with
  | Some u => if includes u "?" then from_question u else EmptyString
  | None => EmptyString
  end.

(** [init.body] *)
Definition body_of (req : Req) : option string :=
  if negb (String.eqb (method req) "GET")
     && negb (String.eqb (method req) "HEAD")
  then or_else (rawBody req) (body_json req)
  else None.

Section WithPlatform.
(** [fetch]; a thrown value is given by its [String(error)]. *)
Variable fetch : Upstream -> Outcome UpstreamResponse.

(** The exported function: [context.res] and the requests made. *)
Definition handler (env : Env) (req : Req) : Res * list Upstream :=
  match truthy_opt (AIRTABLE_PAT env) with
  | None =>
      ({| status := 500; content_type := None;
          body := "AIRTABLE_PAT is missing" |}, [])
  | Some pat =>
      let path := path_of env in
      if negb (truthy path) then
        ({| status := 400; content_type := None;
            body := "Missing Airtable path" |}, [])
      else
        let allowlist := allowlist_of env in
        if match allowlist with
           | [] => false
           | _ => negb (existsb (String.eqb (first_segment path)) allowlist)
           end
        then
          ({| status := 403; content_type := None;
              body := "Base not allowed" |}, [])
        else
          let upstream :=
            {| targetUrl :=
                 AIRTABLE_BASE_URL +:+ "/" +:+ path +:+ query_of req;
               init_method := method req;
               init_authorization := "Bearer " +:+ pat;
               init_content_type := "application/json";
               init_body := body_of req |} in
          match fetch upstream with
          | Throw e =>
              ({| status := 500; content_type := None; body := e |},
               [upstream])
          | Ok response =>
              match upstream_text response with
              | None =>
                  ({| status := 500; content_type := None;
                      body := "body stream error" |}, [upstream])
              | Some bodyText =>
                  ({| status := upstream_status response;
                      content_type :=
                        Some (match truthy_opt
                                      (upstream_content_type response) with
                              | Some t => t
                              | None => "application/json"
                              end);
                      body := bodyText |}, [upstream])
              end
          end
  end.

End WithPlatform.

End Proxy.

(** ** The submit handlers of the pane *)
Module Submit.
Import JsString Links Titles.

(** The [type] of a status. *)
Inductive StatusType : Type := pending | success | error.

(** The texts that the handlers show: "Wird gespeichert ...",
    "Erfolgreich an Airtable uebertragen." and
    "Fehler beim Speichern: <message>". *)
Inductive StatusMessage : Type :=
| Saving
| Transferred
| SaveFailed (message : string).

(** A call of [setStatus]. *)
Record StatusCall : Type := {
  elementId : string;
  status_message : StatusMessage;
  status_type : StatusType
}.

(** [executeWithStatus] around an action that ended as [action]. *)
Definition executeWithStatus {A : Type} (elementId : string)
           (action : Outcome A) : list StatusCall :=
  {| elementId := elementId; status_message := Saving;
     status_type := pending |}
  :: match action with
     | Ok _ =>
         [{| elementId := elementId; status_message := Transferred;
             status_type := success |}]
     | Throw e =>
         [{| elementId := elementId; status_message := SaveFailed e;
             status_type := error |}]
     end.

(** [input?.value?.trim() ?? ""] *)
Definition trimmed_value (input : option string) : string :=
  match input with
  | Some v => trim v
  | None => EmptyString
  end.

(** [getProjectRecordId] *)
Definition getProjectRecordId
           (projectOptions : list Resolver.AirtableProjectOption)
           (input : option string) : string :=
  let value := trimmed_value input in
  if negb (truthy value) then EmptyString
  else if startsWith value "rec" then value
  else
    match find (fun p => String.eqb (toLowerCase (Resolver.name p))
                                    (toLowerCase value))
               projectOptions with
    | Some m => Resolver.id m
    | None => EmptyString
    end.

(** [c.field && c.field.toLowerCase() === value.toLowerCase()] *)
Definition same_text (field : option string) (value : string) : bool :=
  match truthy_opt field with
  | Some f => String.eqb (toLowerCase f) (toLowerCase value)
  | None => false
  end.

(** [c.id === value] *)
Definition same_id (field : option string) (value : string) : bool :=
  match field with
  | Some f => String.eqb f value
  | None => false
  end.

(** [getSelectedInternalOwnerId] *)
Definition getSelectedInternalOwnerId
           (collaboratorOptions : list Client.CollaboratorOption)
           (input : option string) : option string :=
  let value := trimmed_value input in
  if negb (truthy value) then None
  else
    let found :=
      find (fun c => same_id (Client.collaborator_id c) value
                     || same_text (Client.collaborator_email c) value
                     || same_text (Client.collaborator_name c) value)
           collaboratorOptions in
    match match found with
          | Some c => truthy_opt (Client.collaborator_id c)
          | None => None
          end with
    | Some i => Some i
    | None => if startsWith value "usr" then Some value else None
    end.

(** [getSelectedInternalOwnerEmail] *)
Definition getSelectedInternalOwnerEmail
           (collaboratorOptions : list Client.CollaboratorOption)
           (input : option string) : option string :=
  let value := trimmed_value input in
  if negb (truthy value) then None
  else
    let found :=
      find (fun c => same_text (Client.collaborator_email c) value
                     || same_text (Client.collaborator_name c) value
                     || same_id (Client.collaborator_id c) value)
           collaboratorOptions in
    match match found with
          | Some c => truthy_opt (Client.collaborator_email c)
          | None => None
          end with
    | Some e => Some e
    | None => if includes value "@" then Some value else None
    end.

(** The values of the task form; [None] is an element that is missing. *)
Record TaskForm : Type := {
  task_title : option string;
  task_description : option string;
  task_project_input : option string;
  task_start : option string;
  task_end : option string;
  task_owner_input : option string;
  task_external : option string;
  task_priority : option string;
  task_category : option string;
  task_status_select : option string;
  task_art : option string;
  task_attachment_checkboxes : list Forms.Checkbox
}.



(** The module state that the handlers read. *)
Record State : Type := {
  messageMetadata : option Client.OutlookMessageMetadata;
  attachments : list World.OutlookAttachmentPreview;
  projectOptions : list Resolver.AirtableProjectOption;
  collaboratorOptions : list Client.CollaboratorOption;
  externalOptions : list Resolver.AirtableProjectOption;
  notePersonTokens : list string
}.

(** What a handler did: the calls of [setStatus], the pane's credentials
    afterwards, the calls to the mail host and the file service, and the
    requests to the record service. *)
Record Run : Type := {
  statuses : list StatusCall;
  pane_after : Credentials.Pane;
  events : list World.Event;
  requests : list Client.ClientRequest
}.

(** The text of a form field as the handlers send it. *)
Definition field_text (element : option string) : string :=
  Forms.truncateForAirtable
    (Forms.sanitizeForAirtableText (Forms.getInputValue element))
    Forms.airtable_text_max.

Section WithPlatform.
Variable host : World.Host.
Variable encodeURIComponent : string -> string.
Variable fetch : Client.ClientRequest -> Outcome Client.ClientResponse.
Variable config : Client.AirtableEnvironmentConfig.
(** [new Date(text).toISOString()], which throws on a text that is no
    date. *)
Variable toISOString : string -> Outcome string.

(** [convertDateToIso] *)
Definition convertDateToIso (input : option string) (isDateTime : bool)
  : Outcome (option string) :=
  match truthy_opt input with
  | None => Ok None
  | Some value =>
      match toISOString (if isDateTime then value
                         else value +:+ "T00:00:00") with
      | Ok iso => Ok (Some iso)
      | Throw e => Throw e
      end
  end.

(** The payload of [handleTaskSubmit], its fields evaluated in the order
    of the object literal. *)
Definition task_payload (state : State) (form : TaskForm)
           (metadata : Client.OutlookMessageMetadata)
           (attachmentInputs : list World.AirtableAttachmentInput)
  : Outcome Client.AirtableTaskPayload :=
  match convertDateToIso (task_start form) true with
  | Throw e => Throw e
  | Ok start =>
      match convertDateToIso (task_end form) true with
      | Throw e => Throw e
      | Ok finish =>
          Ok {| Client.task_title :=
                  if truthy (Forms.getInputValue (task_title form))
                  then Forms.getInputValue (task_title form)
                  else Client.subject metadata;
                Client.task_projectRecordId :=
                  Some (getProjectRecordId (projectOptions state)
                                           (task_project_input form));
                Client.task_start := start;
                Client.task_end := finish;
                Client.internalOwnerEmail :=
                  getSelectedInternalOwnerEmail (collaboratorOptions state)
                                                (task_owner_input form);
                Client.internalOwnerId :=
                  getSelectedInternalOwnerId (collaboratorOptions state)
                                             (task_owner_input form);
                Client.externalAssigneeIds :=
                  Some (Resolver.resolveExternalAssignees
                          (externalOptions state)
                          (Forms.getRecordIdList (task_external form)));
                Client.priority :=
                  truthy_opt (Some (Forms.getInputValue
                                      (task_priority form)));
                Client.task_status :=
                  truthy_opt (Some (Forms.getInputValue
                                      (task_status_select form)));
                Client.category :=
                  truthy_opt (Some (Forms.getInputValue
                                      (task_category form)));
                Client.task_art :=
                  Some (if truthy (Forms.getInputValue (task_art form))
                        then Forms.getInputValue (task_art form)
                        else "Task");
                Client.description :=
                  Some (field_text (task_description form));
                Client.task_attachments := Some attachmentInputs;
                Client.task_message := metadata |}
      end
  end.

(** [handleTaskSubmit] *)
Definition handleTaskSubmit (state : State) (pane : Credentials.Pane)
           (form : TaskForm) : Run :=
  match messageMetadata state with
  | None =>
      {| statuses := []; pane_after := pane; events := []; requests := [] |}
  | Some metadata =>
      let '(prepared, pane', log) :=
        Delivery.prepareAirtableAttachments
          host pane
          (Forms.getSelectedAttachments (attachments state)
                                        (task_attachment_checkboxes form)) in
      let '(action, sent) :=
        match prepared with
        | Throw e => (Throw e, [])
        | Ok attachmentInputs =>
            match task_payload state form metadata attachmentInputs with
            | Throw e => (Throw e, [])
            | Ok payload =>
                Client.createTask encodeURIComponent fetch config payload
            end
        end in
      {| statuses := executeWithStatus "task-status" action;
         pane_after := pane';
         events := log;
         requests := sent |}
  end.




End WithPlatform.

End Submit.

(** ** Sample hosts *)
Module Samples.
Import JsString World Credentials Delivery.

Definition no_body : JsonBody :=
  {| uploadUrl := None; item_id := None; webUrl := None;
     downloadUrl := None; link_webUrl := None |}.

Definition ok_json (b : JsonBody) : Outcome Response :=
  Ok {| ok := true; text := Some ""; json := Some b |}.

Definition refused : Outcome Response :=
  Ok {| ok := false; text := Some "forbidden"; json := None |}.

Definition link_body (u : string) : JsonBody :=
  {| uploadUrl := None; item_id := None; webUrl := None;
     downloadUrl := None; link_webUrl := Some u |}.

Definition session_body : JsonBody :=
  {| uploadUrl := Some "https://upload/session"; item_id := None;
     webUrl := None; downloadUrl := None; link_webUrl := None |}.

Definition item_body : JsonBody :=
  {| uploadUrl := None; item_id := Some "item-1";
     webUrl := Some "https://drive/item-1";
     downloadUrl := None; link_webUrl := None |}.

(** A signed-in account: the silent acquisition gives [token-1]. *)
Definition sample_msal : Msal :=
  {| construct := Ok tt;
     handleRedirectPromise := Ok None;
     getAllAccounts := 1;
     acquireTokenSilent := Ok (Some "token-1");
     acquireTokenPopup := Throw "popup blocked" |}.

Definition sample_content (attachmentId : string)
  : AsyncResult AttachmentContent :=
  if String.eqb attachmentId "att-url" then
    Succeeded {| format := Url; content := "https://host/file" |}
  else if String.eqb attachmentId "att-b64" then
    Succeeded {| format := Base64; content := "TWFu" |}
  else if String.eqb attachmentId "att-bad" then
    Succeeded {| format := Base64; content := "!" |}
  else Failed "attachment not found".

(** The upload succeeds, the item lookup fails, and the two sharing
    scopes answer as given. *)
Definition sample_fetch (anonymous organization : Outcome Response)
           (request : Request) : Outcome Response :=
  match request with
  | CreateUploadSession _ _ => ok_json session_body
  | PutBytes _ _ => ok_json item_body
  | GetItem _ _ => Throw "network error"
  | CreateLink _ scope _ =>
      if String.eqb scope "anonymous" then anonymous else organization
  end.

Definition host_with (clientId : string)
           (anonymous organization : Outcome Response) : Host :=
  {| GRAPH_CLIENT_ID := clientId;
     GRAPH_TENANT_ID := "common";
     GRAPH_REDIRECT_URI := "https://addin/redirect";
     msal := sample_msal;
     getAttachmentContentAsync := sample_content;
     fetch := sample_fetch anonymous organization;
     Date_now := "1700000000000" |}.

(** No application identity configured: the broker gives no token. *)
Definition unconfigured : Host := host_with "" refused refused.

(** Both scopes give a link. *)
Definition sharing : Host :=
  host_with "client-id" (ok_json (link_body "https://share/anonymous"))
            (ok_json (link_body "https://share/organization")).

(** The anonymous scope answers OK without a link. *)
Definition linkless : Host :=
  host_with "client-id" (ok_json no_body)
            (ok_json (link_body "https://share/organization")).

Definition fresh : Pane :=
  {| cachedGraphToken := None; msalInstance := false |}.

Definition attachment (attachmentId filename : string)
  : OutlookAttachmentPreview :=
  {| id := attachmentId; name := filename;
     contentType := "application/octet-stream"; size := 3;
     isInline := false |}.

End Samples.

(** * The vocabulary of the statements *)

(** ** Link rules *)
Import JsString Links Body Titles.

(** The image rule as the specification words it: an image URL is dropped
    exactly when the path of the URL holds one of the two markers. *)
Definition path_has_marker (URL_parse : string -> option Url) (url : string)
  : bool :=
  match URL_parse url with
  | Some u => includes (pathname u) "signature" || includes (pathname u) "logo"
  | None => false
  end.

Definition other_rules_silent (url : string) (count : nat) : Prop :=
  includes (toLowerCase url) "safelinks.protection.outlook.com" = false
  /\ includes (toLowerCase url) "cid:" = false
  /\ (count <= 1
      \/ existsb (fun d => includes (toLowerCase url) d) sigDomains = false).

(** ** The encoder, group by group *)
Import Encoder.

(** The sextets and the padding that [encode] writes. *)
Fixpoint groups (l : list N) : list N :=
  match l with
  | [] => []
  | [a] => [a / 4; (a mod 4) * 16]%N
  | [a; b] =>
      let n := ((a * 256 + b) * 4)%N in
      [n / 4096; (n / 64) mod 64; n mod 64]%N
  | a :: b :: c :: t =>
      let n := (a * 65536 + b * 256 + c)%N in
      (n / 262144 :: (n / 4096) mod 64 :: (n / 64) mod 64 :: n mod 64
       :: groups t)%N
  end.

Fixpoint padding (l : list N) : list ascii :=
  match l with
  | [] => []
  | [_] => [pad_char; pad_char]
  | [_; _] => [pad_char]
  | _ :: _ :: _ :: t => padding t
  end.

(** A character that is neither white space nor the padding sign. *)
Definition plain_char (c : ascii) : bool :=
  negb (is_ascii_whitespace c) && negb (Ascii.eqb c pad_char).

(** ** Deliveries *)
Import World Credentials Delivery Samples.





Definition token_of (host : Host) (pane : Pane) : option string :=
  fst (fst (getGraphToken host pane)).

Definition result_of {A B C : Type} (t : A * B * C) : A := fst (fst t).
Definition log_of {A B C : Type} (t : A * B * C) : C := snd t.

Definition is_reference (host : Host) (a : OutlookAttachmentPreview) : Prop :=
  exists value,
    classify (getAttachmentContentAsync host (id a)) = ContentUrl value.

Definition is_payload (host : Host) (a : OutlookAttachmentPreview) : Prop :=
  exists value,
    classify (getAttachmentContentAsync host (id a)) = ContentBase64 value.


Definition is_credential_event (e : Event) : bool :=
  match e with
  | EvHandleRedirect | EvAcquireTokenSilent | EvAcquireTokenPopup => true
  | _ => false
  end.

(** ** The URL of an uploaded file *)

(** The direct download URL that the item lookup yields, if any. *)
Definition direct_link (host : Host) (itemId graphToken : string)
  : option string :=
  match fetch host (GetItem itemId graphToken) with
  | Ok r =>
      if ok r then
        match json r with
        | Some b => truthy_opt (downloadUrl b)
        | None => None
        end
      else None
  | Throw _ => None
  end.

(** The sharing link that a scope yields, if any. *)
Definition share_link (host : Host) (itemId scope graphToken : string)
  : option string :=
  match fetch host (CreateLink itemId scope graphToken) with
  | Ok r =>
      if ok r then
        match json r with
        | Some b => truthy_opt (link_webUrl b)
        | None => None
        end
      else None
  | Throw _ => None
  end.

(** The order as the specification words it: direct URL, anonymous link,
    organization link, plain web URL, nothing. *)
Definition claimed_url (host : Host) (graphToken : string)
           (uploaded : JsonBody) (itemId : string) : option string :=
  match direct_link host itemId graphToken with
  | Some u => Some u
  | None =>
      match share_link host itemId "anonymous" graphToken with
      | Some u => Some u
      | None =>
          match share_link host itemId "organization" graphToken with
          | Some u => Some u
          | None => truthy_opt (webUrl uploaded)
          end
      end
  end.

Definition named (filename : string) (o : option string)
  : option AirtableAttachmentInput :=
  match o with
  | Some u => Some {| filename := filename; url := u |}
  | None => None
  end.

(** What one sharing scope contributes: a URL, nothing, or an exception. *)
Inductive ScopeReply : Type :=
| ReplyUrl (url : string)
| ReplyNext
| ReplyThrow (error : string).

Definition scope_reply (host : Host) (itemId graphToken : string)
           (uploaded : JsonBody) (scope : string) : ScopeReply :=
  match fetch host (CreateLink itemId scope graphToken) with
  | Throw e => ReplyThrow e
  | Ok r =>
      if ok r then
        match json r with
        | None => ReplyThrow "invalid JSON"
        | Some b =>
            match truthy_opt (or_else (link_webUrl b) (webUrl uploaded)) with
            | Some u => ReplyUrl u
            | None => ReplyNext
            end
        end
      else
        match text r with
        | Some _ => ReplyNext
        | None => ReplyThrow "body stream error"
        end
  end.

(** The order the code follows. *)
Definition chosen_url (host : Host) (graphToken : string)
           (uploaded : JsonBody) (itemId : string) : Outcome (option string) :=
  match direct_link host itemId graphToken with
  | Some u => Ok (Some u)
  | None =>
      match scope_reply host itemId graphToken uploaded "anonymous" with
      | ReplyUrl u => Ok (Some u)
      | ReplyThrow e => Throw e
      | ReplyNext =>
          match scope_reply host itemId graphToken uploaded "organization" with
          | ReplyUrl u => Ok (Some u)
          | ReplyThrow e => Throw e
          | ReplyNext => Ok (truthy_opt (webUrl uploaded))
          end
      end
  end.

(** Every sharing request is answered, and an OK answer carries a link. *)
Definition proper_replies (host : Host) (itemId graphToken : string) : Prop :=
  forall scope,
    exists r,
      fetch host (CreateLink itemId scope graphToken) = Ok r
      /\ if ok r
         then exists b u,
             json r = Some b /\ truthy_opt (link_webUrl b) = Some u
         else text r <> None.

(** The upload went through and gave the item [uploaded] with [itemId]. *)
Definition upload_succeeded (host : Host) (filename base64 graphToken : string)
           (uploaded : JsonBody) (itemId : string) : Prop :=
  exists sessionResp session buffer uploadResp,
    fetch host
          (CreateUploadSession
             (if truthy filename then filename
              else "upload-" +:+ Date_now host) graphToken)
    = Ok sessionResp
    /\ ok sessionResp = true
    /\ json sessionResp = Some session
    /\ base64ToArrayBuffer base64 = Some buffer
    /\ fetch host (PutBytes (uploadUrl session) buffer) = Ok uploadResp
    /\ ok uploadResp = true
    /\ json uploadResp = Some uploaded
    /\ truthy_opt (item_id uploaded) = Some itemId.

(** ** Reference resolution *)

(** What one entry pushes onto [ids] in [resolveExternalAssignees]. *)
Definition pushes (externalOptions : list Resolver.AirtableProjectOption)
           (entry r : string) : Prop :=
  (startsWith entry "rec" = true /\ r = entry)
  \/ (startsWith entry "rec" = false
      /\ exists opt,
          find (Resolver.matches_entry entry) externalOptions = Some opt
          /\ Resolver.id opt = r).

(** ** Extracted links *)

(** No white space anywhere in [s]. *)
Definition no_space (s : string) : bool :=
  all_chars (fun c => negb (is_space c)) s.

(** [s] begins with [http://] or [https://], in any letter case. *)
Definition starts_with_scheme (s : string) : bool :=
  match ci_prefix "http" s with
  | Some r =>
      match ci_prefix "s://" r, ci_prefix "://" r with
      | None, None => false
      | _, _ => true
      end
  | None => false
  end.

(** [lower] names one of the social-media domains. *)
Definition is_social (lower : string) : bool :=
  existsb (fun d => includes lower d) sigDomains.

(** The cleaned matches of a body, in order, with their repetitions. *)
Definition cleaned_matches (bodyText : string) : list string :=
  map strip_trailing (match_urls (limitBodyText bodyText 12000)).

(** How often [link] occurs among the cleaned matches. *)
Definition occurrences (bodyText link : string) : nat :=
  count_occ string_dec (cleaned_matches bodyText) link.

(** ** Logs *)



(** The name under which [uploadToOneDriveAndShare] stores a file. *)
Definition safe_name (host : Host) (filename : string) : string :=
  if truthy filename then filename else "upload-" +:+ Date_now host.

(** The requests of a complete upload, in the order they are made. *)
Definition upload_script (host : Host) (filename graphToken : string)
           (uploadTo : option string) (buffer : list byte) (itemId : string)
  : list Event :=
  [EvFetch (CreateUploadSession (safe_name host filename) graphToken);
   EvFetch (PutBytes uploadTo buffer);
   EvFetch (GetItem itemId graphToken);
   EvFetch (CreateLink itemId "anonymous" graphToken);
   EvFetch (CreateLink itemId "organization" graphToken)].

(** ** Link titles *)


(** ** Form texts *)

(** Three line feeds in a row. *)
Definition blank_lines : string := Forms.newlines 3.

(** No character of the class [f] anywhere in [s]. *)
Definition free_of (f : ascii -> bool) (s : string) : bool :=
  all_chars (fun c => negb (f c)) s.

(** A token as the forms hand it on: not empty, without white space around
    it and without a list separator inside. *)
Definition token_ok (t : string) : Prop :=
  truthy t = true /\ trim t = t /\ free_of Forms.is_list_separator t = true.

(** No two tokens are the same up to letter case. *)
Definition ci_distinct (tokens : list string) : Prop :=
  List.NoDup (map toLowerCase tokens).

(** The text of a form field as the submit handlers send it. *)
Definition stored_text (value : string) : string :=
  Forms.truncateForAirtable (Forms.sanitizeForAirtableText value)
                            Forms.airtable_text_max.

(** ** The record client *)



(** The request goes to a table under [base]. *)
Definition goes_to (base : string) (request : Client.ClientRequest) : Prop :=
  match Client.url request with
  | Client.TableUrl b _ _ _ => b = base
  | Client.MetaTablesUrl _ => False
  end.

(** The last character of [s]. *)
Fixpoint last_char (s : string) : option ascii :=
  match s with
  | EmptyString => None
  | String c EmptyString => Some c
  | String _ s' => last_char s'
  end.

(** Every linked-record field holds at least one id, and ids with the
    record prefix only. *)
Definition links_ok (fields : Client.Fields) : Prop :=
  forall key ids,
    In (key, Client.FLinks ids) fields ->
    ids <> [] /\ Forall (fun i => startsWith i "rec" = true) ids.

(** The pages that a server hands out from the cursor [offset] on, each
    page naming the cursor of the next one, up to a page without one. *)
Inductive served (fetch : Client.ClientRequest -> Outcome Client.ClientResponse)
          (request : option string -> Client.ClientRequest)
  : option string -> list Client.Page -> Prop :=
| served_last (offset : option string) (response : Client.ClientResponse)
              (page : Client.Page) :
    fetch (request offset) = Ok response ->
    Client.ok response = true ->
    Client.json_page response = Some page ->
    truthy_opt (Client.offset page) = None ->
    served fetch request offset [page]
| served_more (offset : option string) (response : Client.ClientResponse)
              (page : Client.Page) (next : string)
              (pages : list Client.Page) :
    fetch (request offset) = Ok response ->
    Client.ok response = true ->
    Client.json_page response = Some page ->
    truthy_opt (Client.offset page) = Some next ->
    served fetch request (Some next) pages ->
    served fetch request offset (page :: pages).

(** The cursors of the requests that list [pages] from [offset] on. *)
Definition cursors (offset : option string) (pages : list Client.Page)
  : list (option string) :=
  offset :: map Client.offset (removelast pages).

(** The request is authorised with [token]. *)
Definition bears (token : string) (request : Client.ClientRequest) : Prop :=
  exists h, Client.headers request = Some h
            /\ Client.Authorization h = Some ("Bearer " +:+ token).

(** ** Sample configurations and servers of the record client *)

Definition direct_config : Client.AirtableEnvironmentConfig :=
  {| Client.personalAccessToken := "pat123";
     Client.baseIds := Client.FALLBACK_BASES;
     Client.tableNames := Client.FALLBACK_TABLES;
     Client.proxyUrl := None |}.

Definition blank_proxy_config : Client.AirtableEnvironmentConfig :=
  {| Client.personalAccessToken := "pat123";
     Client.baseIds := Client.FALLBACK_BASES;
     Client.tableNames := Client.FALLBACK_TABLES;
     Client.proxyUrl := Some " " |}.


Definition offline : Client.ClientRequest -> Outcome Client.ClientResponse :=
  fun _ => Throw "offline".

(** A note or task payload as far as the link fields read it. *)
Definition sample_message : Client.OutlookMessageMetadata :=
  {| Client.itemId := "AAMk1";
     Client.subject := "Offerte";
     Client.from := "jane@x.com";
     Client.receivedDate := Some "2024-05-01T08:00:00.000Z";
     Client.webLink := None |}.

Definition sample_note (persons : list string) : Client.AirtableNotePayload :=
  {| Client.note_title := Some "Anruf";
     Client.note := Some "Kurz besprochen";
     Client.note_projectRecordId := Some "Umbau";
     Client.note_art := Some "Telefon";
     Client.personRecordIds := Some persons;
     Client.note_date := None;
     Client.note_message := sample_message |}.

Definition sample_task (externals : list string)
  : Client.AirtableTaskPayload :=
  {| Client.task_title := "";
     Client.task_projectRecordId := Some "rec9";
     Client.task_start := None;
     Client.task_end := None;
     Client.internalOwnerEmail := None;
     Client.internalOwnerId := None;
     Client.externalAssigneeIds := Some externals;
     Client.priority := None;
     Client.task_status := None;
     Client.category := None;
     Client.task_art := None;
     Client.description := None;
     Client.task_attachments := None;
     Client.task_message := sample_message |}.

(** A server that accepts every new record. *)
Definition accepting : Client.ClientRequest -> Outcome Client.ClientResponse :=
  fun _ =>
    Ok {| Client.ok := true;
          Client.status := 200;
          Client.text := None;
          Client.json_record :=
            Some {| Client.created_id := "recNew";
                    Client.createdTime := "2024-05-01T08:00:00.000Z" |};
          Client.json_page := None;
          Client.json_tables := None |}.

(** A server with two pages of projects, the second behind the cursor
    "c1". *)
Definition first_page : Client.Page :=
  {| Client.records :=
       [{| Client.record_id := "rec1";
           Client.record_fields := [("Name", Client.JString " Umbau ")] |}];
     Client.offset := Some "c1" |}.

Definition second_page : Client.Page :=
  {| Client.records :=
       [{| Client.record_id := "rec2";
           Client.record_fields :=
             [("Nr", Client.JOther); ("Ort", Client.JString "Bern")] |}];
     Client.offset := None |}.

Definition has_cursor (request : Client.ClientRequest) : bool :=
  match Client.url request with
  | Client.TableUrl _ _ _ query =>
      existsb (fun kv => String.eqb (fst kv) "offset") query
  | Client.MetaTablesUrl _ => false
  end.

Definition paging : Client.ClientRequest -> Outcome Client.ClientResponse :=
  fun request =>
    Ok {| Client.ok := true;
          Client.status := 200;
          Client.text := None;
          Client.json_record := None;
          Client.json_page :=
            Some (if has_cursor request then second_page else first_page);
          Client.json_tables := None |}.

(** A server whose every page names a further one. *)
Definition looping : Client.ClientRequest -> Outcome Client.ClientResponse :=
  fun _ =>
    Ok {| Client.ok := true;
          Client.status := 200;
          Client.text := None;
          Client.json_record := None;
          Client.json_page := Some first_page;
          Client.json_tables := None |}.

(** ** The proxy function *)

(** No slash anywhere in [s]. *)
Definition no_slash (s : string) : bool :=
  free_of (fun c => Ascii.eqb c "/") s.

Definition sample_env : Proxy.Env :=
  {| Proxy.AIRTABLE_PAT := Some "pat123";
     Proxy.AIRTABLE_BASE_ALLOWLIST := Some "app1, app2,";
     Proxy.bindingData_path := Some "//app2/Projects" |}.

Definition sample_req : Proxy.Req :=
  {| Proxy.originalUrl := Some "https://proxy.example/api/app2/Projects?offset=c1";
     Proxy.method := "GET";
     Proxy.rawBody := Some "{}";
     Proxy.body_json := None |}.

Definition sample_upstream : Proxy.Upstream :=
  {| Proxy.targetUrl :=
       "https://api.airtable.com/v0/app2/Projects?offset=c1";
     Proxy.init_method := "GET";
     Proxy.init_authorization := "Bearer pat123";
     Proxy.init_content_type := "application/json";
     Proxy.init_body := None |}.

Definition unreachable : Proxy.Upstream -> Outcome Proxy.UpstreamResponse :=
  fun _ => Throw "TypeError: fetch failed".

(** ** The submit handlers *)

(** The two calls of [setStatus] of an action that went through. *)
Definition reported_saved (elementId : string) : list Submit.StatusCall :=
  [{| Submit.elementId := elementId;
      Submit.status_message := Submit.Saving;
      Submit.status_type := Submit.pending |};
   {| Submit.elementId := elementId;
      Submit.status_message := Submit.Transferred;
      Submit.status_type := Submit.success |}].

(** The two calls of [setStatus] of an action that threw [message]. *)
Definition reported_failed (elementId message : string)
  : list Submit.StatusCall :=
  [{| Submit.elementId := elementId;
      Submit.status_message := Submit.Saving;
      Submit.status_type := Submit.pending |};
   {| Submit.elementId := elementId;
      Submit.status_message := Submit.SaveFailed message;
      Submit.status_type := Submit.error |}].

(** The field of the attachments of a task. *)
Definition task_files_field : string := "fld1mSTdRf0OAgK71".

(** The fields have no entry under [key]. *)
Definition lacks (key : string) (fields : Client.Fields) : Prop :=
  forall value, ~ In (key, value) fields.

Definition sample_state : Submit.State :=
  {| Submit.messageMetadata := Some sample_message;
     Submit.attachments :=
       [attachment "att-b64" "a.bin"; attachment "att-url" "b.bin"];
     Submit.projectOptions := [];
     Submit.collaboratorOptions := [];
     Submit.externalOptions := [];
     Submit.notePersonTokens := [] |}.

Definition sample_task_form (start : option string) : Submit.TaskForm :=
  {| Submit.task_title := Some " Offerte pruefen ";
     Submit.task_description := Some "Bitte bis Freitag";
     Submit.task_project_input := Some "rec9";
     Submit.task_start := start;
     Submit.task_end := None;
     Submit.task_owner_input := None;
     Submit.task_external := Some "rec1, Jane Doe";
     Submit.task_priority := Some "";
     Submit.task_category := None;
     Submit.task_status_select := Some "Offen";
     Submit.task_art := None;
     Submit.task_attachment_checkboxes :=
       [{| Forms.checked := true; Forms.value := "att-b64" |};
        {| Forms.checked := false; Forms.value := "att-url" |}] |}.


(** A clock that knows one date. *)
Definition sample_clock (text : string) : Outcome string :=
  if String.eqb text "2024-05-01T08:00" then Ok "2024-05-01T06:00:00.000Z"
  else Throw "Invalid time value".

(** ** Proof automation *)

(** Linear arithmetic with division and remainder by constants. *)
Ltac divmod_lia := zify; Z.to_euclidean_division_equations; lia.

(** * Properties *)

Import JsString Links Body Titles.

(** ** Link extraction *)

(** C4: link extraction on the body
    [see http://a.com/x and http://a.com/x.] finds two matches, strips the
    trailing period of the second one, and returns the single entry
    [http://a.com/x]. *)
Theorem getLinksFromBody_example :
  let body := "see http://a.com/x and http://a.com/x." in
  match_urls (limitBodyText body 12000) = ["http://a.com/x"; "http://a.com/x."]
  /\ map strip_trailing (match_urls (limitBodyText body 12000))
     = ["http://a.com/x"; "http://a.com/x"]
  /\ linksOfBody body = ["http://a.com/x"]
  /\ getLinksFromBody {| getBodyAsync := Some (Succeeded body);
                         compose_body_getAsync := None |}
     = Ok ["http://a.com/x"].
Proof.
  repeat split; vm_compute; reflexivity.
Qed.

(** C7, as stated, fails: [http://logo.example.com/photo.png] has the path
    [/photo.png], which holds neither marker, and is dropped all the same
    because the host name holds [logo]. *)
Lemma filterLink_path_counterexample :
  ~ (forall url count,
        is_image_url url = true ->
        (filterLink url count = false
         <-> path_has_marker plain_url_parse url = true)).
Proof.
  intros claim.
  specialize (claim "http://logo.example.com/photo.png" 1%nat).
  assert (Himg : is_image_url "http://logo.example.com/photo.png" = true)
    by (vm_compute; reflexivity).
  destruct (claim Himg) as [dropped _].
  assert (Hdrop : filterLink "http://logo.example.com/photo.png" 1 = false)
    by (vm_compute; reflexivity).
  specialize (dropped Hdrop).
  vm_compute in dropped. discriminate dropped.
Qed.

(** C7, amended: for a URL whose lowercased text ends in an image
    extension, a marker anywhere in the lowercased URL (host name
    included) drops it; and when no other exclusion rule applies, it is
    dropped exactly when the lowercased URL holds a marker. *)
Theorem filterLink_image_rule (url : string) (count : nat) :
  is_image_url (toLowerCase url) = true ->
  (includes (toLowerCase url) "signature" = true
   \/ includes (toLowerCase url) "logo" = true ->
   filterLink url count = false)
  /\ (other_rules_silent url count ->
      (filterLink url count = false
       <-> includes (toLowerCase url) "signature" = true
           \/ includes (toLowerCase url) "logo" = true)).
Proof.
  intros Himg. unfold filterLink. rewrite Himg. split.
  - intros Hmark.
    destruct (includes (toLowerCase url) "safelinks.protection.outlook.com");
      [reflexivity|].
    destruct (includes (toLowerCase url) "cid:"); [reflexivity|].
    destruct Hmark as [-> | ->]; simpl; [reflexivity|].
    rewrite orb_true_r. reflexivity.
  - intros (Hsafe & Hcid & Hsocial). rewrite Hsafe, Hcid.
    destruct (includes (toLowerCase url) "signature") eqn:Hs; cbn [orb andb].
    { split; [left|]; reflexivity. }
    destruct (includes (toLowerCase url) "logo") eqn:Hl; cbn [orb andb].
    { split; [right|]; reflexivity. }
    assert (Hkeep : ((1 <? count)%nat
                     && existsb (fun d => includes (toLowerCase url) d)
                                sigDomains) = false).
    { destruct Hsocial as [Hc | He].
      - apply Nat.ltb_ge in Hc. rewrite Hc. reflexivity.
      - rewrite He. apply andb_false_r. }
    rewrite Hkeep. split; [discriminate|]. intros [H | H]; discriminate H.
Qed.

Lemma filterLink_image_rule_witness :
  filterLink "http://a.com/img/Logo.PNG" 3 = false
  /\ (filterLink "http://a.com/img/photo.png" 1 = false
      <-> includes (toLowerCase "http://a.com/img/photo.png") "signature" = true
          \/ includes (toLowerCase "http://a.com/img/photo.png") "logo" = true).
Proof.
  split.
  - apply (proj1 (filterLink_image_rule "http://a.com/img/Logo.PNG" 3 eq_refl)).
    right. reflexivity.
  - apply (proj2 (filterLink_image_rule "http://a.com/img/photo.png" 1
                                        eq_refl)).
    repeat split; try reflexivity. left. apply le_n.
Defined.

(** ** Link titles *)

Lemma append_empty_r (s : string) : s +:+ "" = s.
Proof.
  induction s as [|c s IH]; [reflexivity|].
  change (String c (s +:+ "") = String c s). rewrite IH. reflexivity.
Qed.




(** ** Reference resolution *)

Section SetOfStrings.

Lemma seen_spec (x : string) (seen : list string) :
  existsb (String.eqb x) seen = true <-> In x seen.
Proof.
  rewrite existsb_exists. split.
  - intros (y & Hy & Heq). apply String.eqb_eq in Heq. subst y. exact Hy.
  - intros Hx. exists x. split; [exact Hx | apply String.eqb_refl].
Qed.

Lemma uniq_from_In (a : list string) :
  forall seen x, In x (uniq_from seen a) -> In x a /\ ~ In x seen.
Proof.
  induction a as [|y a IH]; intros seen x; simpl; [tauto|].
  destruct (existsb (String.eqb y) seen) eqn:Hseen.
  - intros Hx. destruct (IH _ _ Hx) as [Ha Hn]. tauto.
  - intros [-> | Hx].
    + split; [tauto|]. intros Hin. apply seen_spec in Hin. congruence.
    + destruct (IH _ _ Hx) as [Ha Hn]. split; [tauto|].
      intros Hin. apply Hn. right. exact Hin.
Qed.

Lemma uniq_from_NoDup (a : list string) :
  forall seen, List.NoDup (uniq_from seen a).
Proof.
  induction a as [|y a IH]; intros seen; simpl; [constructor|].
  destruct (existsb (String.eqb y) seen); [apply IH|].
  constructor; [|apply IH].
  intros Hin. apply uniq_from_In in Hin. destruct Hin as [_ Hn].
  apply Hn. left. reflexivity.
Qed.

Lemma array_from_set_NoDup (a : list string) :
  List.NoDup (array_from_set a).
Proof. apply uniq_from_NoDup. Qed.

End SetOfStrings.

Import Resolver.


(** ** The content encoder *)

Import Encoder.

Section Triples.
Context {A : Type} (P : list A -> Prop).
Hypothesis P0 : P [].
Hypothesis P1 : forall a, P [a].
Hypothesis P2 : forall a b, P [a; b].
Hypothesis P3 : forall a b c t, P t -> P (a :: b :: c :: t).

(** Induction three elements at a time. *)
Lemma list_ind3 : forall l, P l.
Proof.
  assert (H : forall l,
             P l /\ (forall a, P (a :: l)) /\ (forall a b, P (a :: b :: l))).
  { induction l as [|x l (Hl & Hl1 & Hl2)]; repeat split; auto. }
  intros l. apply H.
Qed.
End Triples.

Section Base64.

Lemma encode_split (l : list N) :
  encode l = map enc_char (groups l) ++ padding l.
Proof.
  induction l as [| | |a b c t IH] using list_ind3; try reflexivity.
  cbn [encode groups padding map app]. rewrite IH. reflexivity.
Qed.

Lemma enc_char_alphabet (n : N) : In (enc_char n) alphabet.
Proof.
  unfold enc_char.
  destruct (List.nth_in_or_default (N.to_nat n) alphabet "/"%char)
    as [H | ->]; [exact H|].
  apply List.in_rev. left. reflexivity.
Qed.

Lemma enc_char_plain (n : N) : plain_char (enc_char n) = true.
Proof.
  assert (Hall : forallb plain_char alphabet = true)
    by (vm_compute; reflexivity).
  rewrite List.forallb_forall in Hall. apply Hall, enc_char_alphabet.
Qed.

Lemma dec_enc (n : N) : (n < 64)%N -> dec_char (enc_char n) = Some n.
Proof.
  intros Hn.
  assert (Hall : forallb
                   (fun k => match dec_char (enc_char (N.of_nat k)) with
                             | Some m => N.eqb m (N.of_nat k)
                             | None => false
                             end) (seq 0 64) = true)
    by (vm_compute; reflexivity).
  rewrite List.forallb_forall in Hall.
  specialize (Hall (N.to_nat n)). rewrite N2Nat.id in Hall.
  assert (Hin : In (N.to_nat n) (seq 0 64)) by (apply List.in_seq; lia).
  specialize (Hall Hin).
  destruct (dec_char (enc_char n)) as [m|]; [|discriminate Hall].
  apply N.eqb_eq in Hall. subst m. reflexivity.
Qed.

Lemma sextets_enc (ss : list N) :
  Forall (fun n => (n < 64)%N) ss -> sextets (map enc_char ss) = Some ss.
Proof.
  induction 1 as [|n ss Hn _ IH]; [reflexivity|].
  cbn [map sextets]. rewrite (dec_enc n Hn), IH. reflexivity.
Qed.

Lemma groups_bounded (l : list N) :
  Forall (fun n => (n < 256)%N) l -> Forall (fun n => (n < 64)%N) (groups l).
Proof.
  induction l as [|a|a b|a b c t IH] using list_ind3; intros Hl.
  - constructor.
  - inversion_clear Hl as [|? ? Ha _]. cbn [groups].
    repeat constructor; divmod_lia.
  - inversion_clear Hl as [|? ? Ha Hl']. inversion_clear Hl' as [|? ? Hb _].
    cbn [groups]. repeat constructor; divmod_lia.
  - inversion_clear Hl as [|? ? Ha Hl']. inversion_clear Hl' as [|? ? Hb Hl].
    inversion_clear Hl as [|? ? Hc Ht]. cbn [groups].
    repeat (constructor; [divmod_lia|]). apply IH, Ht.
Qed.

Lemma recombine24 (n : N) :
  ((((n / 262144 * 64 + (n / 4096) mod 64) * 64 + (n / 64) mod 64) * 64
    + n mod 64) = n)%N.
Proof. divmod_lia. Qed.

Lemma split24 (a b c : N) :
  (a < 256 -> b < 256 -> c < 256 ->
   let m := a * 65536 + b * 256 + c in
   m / 65536 = a /\ (m / 256) mod 256 = b /\ m mod 256 = c)%N.
Proof. intros Ha Hb Hc m. subst m. divmod_lia. Qed.

Lemma decode_groups (l : list N) :
  Forall (fun n => (n < 256)%N) l -> decode (groups l) = l.
Proof.
  induction l as [|a|a b|a b c t IH] using list_ind3; intros Hl.
  - reflexivity.
  - inversion_clear Hl as [|? ? Ha _]. cbn [groups decode].
    f_equal. divmod_lia.
  - inversion_clear Hl as [|? ? Ha Hl']. inversion_clear Hl' as [|? ? Hb _].
    cbn [groups decode].
    assert ((((a * 256 + b) * 4 / 4096 * 64
              + ((a * 256 + b) * 4 / 64) mod 64) * 64
             + ((a * 256 + b) * 4) mod 64) / 4 = a * 256 + b)%N as ->
        by divmod_lia.
    f_equal; [|f_equal]; divmod_lia.
  - inversion_clear Hl as [|? ? Ha Hl']. inversion_clear Hl' as [|? ? Hb Hl].
    inversion_clear Hl as [|? ? Hc Ht]. cbn [groups decode].
    rewrite recombine24.
    destruct (split24 a b c Ha Hb Hc) as (-> & -> & ->).
    rewrite (IH Ht). reflexivity.
Qed.

Lemma mod4_step (n : nat) : (S (S (S (S n))) mod 4 = n mod 4)%nat.
Proof.
  replace (S (S (S (S n)))) with (n + 1 * 4)%nat by lia.
  apply Nat.Div0.mod_add.
Qed.

Lemma encode_length (l : list N) : (List.length (encode l) mod 4 = 0)%nat.
Proof.
  induction l as [| | |a b c t IH] using list_ind3; try reflexivity.
  cbn [encode List.length]. rewrite mod4_step. exact IH.
Qed.

Lemma groups_length (l : list N) : (List.length (groups l) mod 4 <> 1)%nat.
Proof.
  induction l as [| | |a b c t IH] using list_ind3;
    try (cbn; discriminate).
  cbn [groups List.length]. rewrite mod4_step. exact IH.
Qed.

Lemma padding_cases (l : list N) :
  padding l = [] \/ padding l = [pad_char]
  \/ padding l = [pad_char; pad_char].
Proof.
  induction l as [| | |a b c t IH] using list_ind3; cbn [padding]; auto.
Qed.

Lemma remove_padding_body (body pad : list ascii) :
  (List.length (body ++ pad) mod 4 = 0)%nat ->
  Forall (fun c => Ascii.eqb c pad_char = false) body ->
  pad = [] \/ pad = [pad_char] \/ pad = [pad_char; pad_char] ->
  remove_padding (body ++ pad) = body.
Proof.
  intros Hlen Hbody Hpad. unfold remove_padding. rewrite Hlen.
  cbn [Nat.eqb]. rewrite List.rev_app_distr.
  pose proof (List.Forall_rev Hbody) as Hrev.
  destruct Hpad as [-> | [-> | ->]]; cbn [rev app].
  - rewrite List.app_nil_r.
    destruct (rev body) as [|p [|q r]] eqn:E; [reflexivity| |];
      inversion_clear Hrev as [|? ? Hp _]; rewrite Hp; reflexivity.
  - destruct (rev body) as [|q r] eqn:E.
    + apply (f_equal (@rev ascii)) in E.
      rewrite List.rev_involutive in E. rewrite E. reflexivity.
    + inversion_clear Hrev as [|? ? Hq _].
      change (Ascii.eqb pad_char pad_char) with true. cbv iota.
      rewrite Hq. change (rev (q :: r) = body).
      rewrite <- E. apply List.rev_involutive.
  - change (Ascii.eqb pad_char pad_char) with true. cbv iota.
    apply List.rev_involutive.
Qed.

Lemma filter_all {A} (f : A -> bool) (l : list A) :
  Forall (fun x => f x = true) l -> List.filter f l = l.
Proof.
  induction 1 as [|x l Hx _ IH]; [reflexivity|].
  cbn [List.filter]. rewrite Hx, IH. reflexivity.
Qed.

Lemma codes_bounded (cs : list ascii) :
  Forall (fun n => (n < 256)%N) (map code cs).
Proof.
  induction cs as [|c cs IH]; constructor;
    [apply N_ascii_bounded | exact IH].
Qed.

Lemma chars_of_codes (cs : list ascii) : map ascii_of_N (map code cs) = cs.
Proof.
  induction cs as [|c cs IH]; [reflexivity|].
  cbn [map]. unfold code at 1. rewrite ascii_N_embedding, IH. reflexivity.
Qed.

Lemma encode_no_space (l : list N) :
  Forall (fun c => negb (is_ascii_whitespace c) = true) (encode l).
Proof.
  rewrite encode_split. apply List.Forall_app. split.
  - apply List.Forall_map, List.Forall_forall. intros n _.
    pose proof (enc_char_plain n) as H.
    apply andb_true_iff in H. apply H.
  - destruct (padding_cases l) as [-> | [-> | ->]];
      repeat constructor.
Qed.

Lemma body_no_pad (l : list N) :
  Forall (fun c => Ascii.eqb c pad_char = false) (map enc_char (groups l)).
Proof.
  apply List.Forall_map, List.Forall_forall. intros n _.
  pose proof (enc_char_plain n) as H.
  apply andb_true_iff in H. apply negb_true_iff, H.
Qed.

(** Decoding what [btoa] wrote gives the binary string back. *)
Lemma atob_btoa (binary : string) : atob (btoa binary) = Some binary.
Proof.
  unfold atob, btoa. rewrite list_ascii_of_string_of_list_ascii.
  set (codes := map code (list_ascii_of_string binary)).
  rewrite (filter_all _ _ (encode_no_space codes)).
  assert (Hrm : remove_padding (encode codes) = map enc_char (groups codes)).
  { pose proof (encode_length codes) as Hlen. rewrite encode_split in *.
    apply remove_padding_body;
      [exact Hlen | apply body_no_pad | apply padding_cases]. }
  rewrite Hrm, List.length_map.
  destruct (Nat.eqb_spec (List.length (groups codes) mod 4) 1) as [H|_];
    [exfalso; exact (groups_length codes H)|].
  rewrite sextets_enc by apply groups_bounded, codes_bounded.
  rewrite decode_groups by apply codes_bounded.
  unfold codes. rewrite chars_of_codes, string_of_list_ascii_of_string.
  reflexivity.
Qed.

Lemma append_assoc (a b c : string) : (a +:+ b) +:+ c = a +:+ (b +:+ c).
Proof.
  induction a as [|x a IH]; [reflexivity|].
  change (String x ((a +:+ b) +:+ c) = String x (a +:+ (b +:+ c))).
  rewrite IH. reflexivity.
Qed.

Lemma fromCharCode_app (a b : list byte) :
  fromCharCode (a ++ b) = fromCharCode a +:+ fromCharCode b.
Proof.
  unfold fromCharCode. induction a as [|x a IH]; [reflexivity|].
  cbn [map app string_of_list_ascii]. rewrite IH. reflexivity.
Qed.

(** The chunked loop writes the whole rest of the buffer, whatever the
    positive chunk size, as soon as the rounds allowed cover it. *)
Lemma chunk_loop_all (fuel : nat) :
  forall (bytes : list byte) (chunk offset : N) (binary : string),
    (0 < chunk)%N ->
    (List.length bytes <= N.to_nat offset + fuel)%nat ->
    chunk_loop fuel bytes chunk offset binary
    = binary +:+ fromCharCode (skipn (N.to_nat offset) bytes).
Proof.
  induction fuel as [|fuel IH]; intros bytes chunk offset binary Hc Hf.
  - cbn [chunk_loop]. rewrite List.skipn_all2 by lia.
    symmetry. apply append_empty_r.
  - cbn [chunk_loop].
    destruct (N.ltb_spec offset (N.of_nat (List.length bytes))) as [Hlt|Hge].
    + rewrite IH by lia. unfold subarray.
      replace (N.to_nat (offset + chunk - offset)) with (N.to_nat chunk)
        by lia.
      replace (N.to_nat (offset + chunk))
        with (N.to_nat chunk + N.to_nat offset)%nat by lia.
      rewrite <- List.skipn_skipn, append_assoc, <- fromCharCode_app.
      rewrite List.firstn_skipn. reflexivity.
    + rewrite List.skipn_all2 by lia. symmetry. apply append_empty_r.
Qed.

End Base64.

(** C10: decoding the encoding of a byte buffer gives the buffer back,
    whatever its length (so also beyond the chunk size of 0x8000 bytes). *)
Theorem base64_roundtrip (b : list byte) :
  base64ToArrayBuffer (arrayBufferToBase64 b) = Some b.
Proof.
  unfold base64ToArrayBuffer, arrayBufferToBase64.
  rewrite atob_btoa.
  rewrite chunk_loop_all by (unfold chunkSize; lia).
  change (skipn (N.to_nat 0) b) with b.
  change ("" +:+ fromCharCode b) with (fromCharCode b).
  unfold fromCharCode. rewrite list_ascii_of_string_of_list_ascii.
  rewrite List.map_map. f_equal.
  rewrite <- (List.map_id b) at 2. apply List.map_ext.
  intros x. apply byte_of_ascii_of_byte.
Qed.

(** ** The delivery pipeline *)

Import World Credentials Delivery Samples.

Section Monad.
Context {A B : Type}.



End Monad.

Section Broker.
Variable host : Host.
Variable pane : Pane.

Lemma truthy_opt_Some (o : option string) (t : string) :
  truthy_opt o = Some t -> o = Some t /\ truthy t = true.
Proof.
  destruct o as [s|]; cbn; [|discriminate].
  destruct (truthy s) eqn:Hs; [|discriminate].
  intros [= <-]. split; [reflexivity | exact Hs].
Qed.

(** The broker only ever hands out a truthy token. *)
Lemma getGraphToken_truthy :
  truthy_opt (token_of host pane) = token_of host pane.
Proof.
  unfold token_of, getGraphToken.
  destruct (truthy_opt (cachedGraphToken pane)) as [t|] eqn:Hc.
  { cbn [fst]. apply truthy_opt_Some in Hc. destruct Hc as [_ Ht].
    cbn. rewrite Ht. reflexivity. }
  destruct (negb (truthy (GRAPH_CLIENT_ID host))
            || negb (truthy (GRAPH_REDIRECT_URI host))
            || negb (truthy (GRAPH_TENANT_ID host))); [reflexivity|].
  destruct (if msalInstance pane then Ok tt else construct (msal host));
    [|reflexivity].
  unfold acquire_chain, acquire, bind, emit, of_outcome, ret.
  destruct (handleRedirectPromise (msal host)) as [r|e]; [|reflexivity].
  destruct (truthy_opt r) as [t|] eqn:Hr.
  { cbn. apply truthy_opt_Some in Hr. destruct Hr as [_ ->]. reflexivity. }
  destruct (0 <? getAllAccounts (msal host))%nat.
  - destruct (acquireTokenSilent (msal host)) as [r'|e]; [|reflexivity].
    destruct (truthy_opt r') as [t|] eqn:Hr'.
    { cbn. apply truthy_opt_Some in Hr'. destruct Hr' as [_ ->].
      reflexivity. }
    destruct (acquireTokenPopup (msal host)) as [r''|e]; [|reflexivity].
    destruct (truthy_opt r'') as [t|] eqn:Hr''; [|reflexivity].
    cbn. apply truthy_opt_Some in Hr''. destruct Hr'' as [_ ->].
    reflexivity.
  - destruct (acquireTokenPopup (msal host)) as [r''|e]; [|reflexivity].
    destruct (truthy_opt r'') as [t|] eqn:Hr''; [|reflexivity].
    cbn. apply truthy_opt_Some in Hr''. destruct Hr'' as [_ ->].
    reflexivity.
Qed.

(** The broker talks to the identity provider only. *)
Lemma getGraphToken_log :
  Forall (fun e => is_credential_event e = true)
         (snd (getGraphToken host pane)).
Proof.
  unfold getGraphToken.
  destruct (truthy_opt (cachedGraphToken pane)); [constructor|].
  destruct (negb (truthy (GRAPH_CLIENT_ID host))
            || negb (truthy (GRAPH_REDIRECT_URI host))
            || negb (truthy (GRAPH_TENANT_ID host))); [constructor|].
  destruct (if msalInstance pane then Ok tt else construct (msal host));
    [|constructor].
  unfold acquire_chain, acquire, bind, emit, of_outcome, ret.
  destruct (handleRedirectPromise (msal host)) as [r|e];
    [|repeat constructor].
  destruct (truthy_opt r); [repeat constructor|].
  destruct (0 <? getAllAccounts (msal host))%nat.
  - destruct (acquireTokenSilent (msal host)) as [r'|e];
      [|repeat constructor].
    destruct (truthy_opt r'); [repeat constructor|].
    destruct (acquireTokenPopup (msal host)) as [r''|e];
      [|repeat constructor].
    destruct (truthy_opt r''); repeat constructor.
  - destruct (acquireTokenPopup (msal host)) as [r''|e];
      [|repeat constructor].
    destruct (truthy_opt r''); repeat constructor.
Qed.

(** Without a token the batch ends right after the broker's answer. *)
Lemma prepare_no_token (selected : list OutlookAttachmentPreview) :
  token_of host pane = None ->
  result_of (prepareAirtableAttachments host pane selected) = Ok []
  /\ forall attachmentId,
      ~ In (EvGetAttachmentContent attachmentId)
           (log_of (prepareAirtableAttachments host pane selected)).
Proof.
  unfold token_of, result_of, log_of, prepareAirtableAttachments.
  intros Htok. destruct selected as [|a rest].
  { split; [reflexivity|]. intros attachmentId []. }
  pose proof getGraphToken_log as Hlog.
  destruct (getGraphToken host pane) as [[tok pane'] log].
  cbn [fst snd] in Htok, Hlog. subst tok. cbn [truthy_opt fst snd].
  split; [reflexivity|]. intros attachmentId Hin.
  rewrite List.Forall_forall in Hlog. specialize (Hlog _ Hin).
  discriminate Hlog.
Qed.

End Broker.

(** C1: for a non-empty selection, when the broker returns no token and
    at least one selected attachment has embedded-payload content, the
    batch yields the empty list. *)
Theorem no_token_empty_batch (host : Host) (pane : Pane)
        (selected : list OutlookAttachmentPreview) :
  selected <> [] ->
  token_of host pane = None ->
  Exists (is_payload host) selected ->
  result_of (prepareAirtableAttachments host pane selected) = Ok [].
Proof.
  intros _ Htok _. apply (prepare_no_token host pane selected Htok).
Qed.

Lemma no_token_empty_batch_witness :
  result_of (prepareAirtableAttachments
               unconfigured fresh
               [attachment "att-url" "a.pdf"; attachment "att-b64" "b.bin"])
  = Ok [].
Proof.
  apply (no_token_empty_batch
           unconfigured fresh
           [attachment "att-url" "a.pdf"; attachment "att-b64" "b.bin"]).
  - discriminate.
  - reflexivity.
  - apply List.Exists_cons_tl, List.Exists_cons_hd.
    exists "TWFu". reflexivity.
Defined.

(** C9: when the broker returns no token and the selection is not empty,
    the batch yields the empty list even if every selected attachment is
    an opaque reference; the token is checked before any content is
    acquired, so the log holds the broker's calls and no acquisition. *)
Theorem no_token_drops_references (host : Host) (pane : Pane)
        (selected : list OutlookAttachmentPreview) :
  selected <> [] ->
  token_of host pane = None ->
  Forall (is_reference host) selected ->
  result_of (prepareAirtableAttachments host pane selected) = Ok []
  /\ log_of (prepareAirtableAttachments host pane selected)
     = snd (getGraphToken host pane)
  /\ forall attachmentId,
      ~ In (EvGetAttachmentContent attachmentId)
           (log_of (prepareAirtableAttachments host pane selected)).
Proof.
  intros Hsel Htok _.
  destruct (prepare_no_token host pane selected Htok) as [Hres Hlog].
  split; [exact Hres|]. split; [|exact Hlog].
  unfold log_of, prepareAirtableAttachments, token_of in *.
  destruct selected as [|a rest]; [contradiction|].
  destruct (getGraphToken host pane) as [[tok pane'] log].
  cbn [fst] in Htok. subst tok. reflexivity.
Qed.

Lemma no_token_drops_references_witness :
  result_of (prepareAirtableAttachments
               unconfigured fresh
               [attachment "att-url" "a.pdf"; attachment "att-url" "b.pdf"])
  = Ok []
  /\ log_of (prepareAirtableAttachments
               unconfigured fresh
               [attachment "att-url" "a.pdf"; attachment "att-url" "b.pdf"])
     = snd (getGraphToken unconfigured fresh)
  /\ forall attachmentId,
      ~ In (EvGetAttachmentContent attachmentId)
           (log_of (prepareAirtableAttachments
                      unconfigured fresh
                      [attachment "att-url" "a.pdf";
                       attachment "att-url" "b.pdf"])).
Proof.
  apply (no_token_drops_references
           unconfigured fresh
           [attachment "att-url" "a.pdf"; attachment "att-url" "b.pdf"]).
  - discriminate.
  - reflexivity.
  - repeat constructor; exists "https://host/file"; reflexivity.
Defined.

Section Loop.
Variable host : Host.
Variable token : string.






End Loop.







(** ** The URL of an uploaded file *)

Section Negotiation.
Variable host : Host.
Variables filename graphToken : string.
Variable uploaded : JsonBody.
Variable itemId : string.

(** A successful upload adds its two requests and then negotiates. *)
Lemma upload_run (base64 : string) :
  upload_succeeded host filename base64 graphToken uploaded itemId ->
  fst (uploadToOneDriveAndShare host filename base64 graphToken)
  = fst (negotiate_url host filename graphToken uploaded itemId)
  /\ exists session upload,
      snd (uploadToOneDriveAndShare host filename base64 graphToken)
      = EvFetch session :: EvFetch upload
        :: snd (negotiate_url host filename graphToken uploaded itemId)
      /\ (forall scope, session <> CreateLink itemId scope graphToken)
      /\ (forall scope, upload <> CreateLink itemId scope graphToken).
Proof.
  intros (sessionResp & session & buffer & uploadResp
          & Hs & Hsok & Hsj & Hb & Hu & Huok & Huj & Hid).
  unfold uploadToOneDriveAndShare, do_fetch, read_json, read_text,
    of_option, of_outcome, bind, emit, ret, throw.
  rewrite Hs. cbv beta iota. rewrite Hsok. cbn [negb]. cbv beta iota.
  rewrite Hsj. cbv beta iota. rewrite Hb. cbv beta iota.
  rewrite Hu. cbv beta iota. rewrite Huok. cbn [negb]. cbv beta iota.
  rewrite Huj. cbv beta iota. rewrite Hid.
  destruct (negotiate_url host filename graphToken uploaded itemId)
    as [r log].
  cbn [fst snd app]. split; [reflexivity|].
  eexists _, _. split; [reflexivity|]. split; intros scope; discriminate.
Qed.

Lemma do_fetch_run (request : Request) :
  do_fetch host request = (fetch host request, [EvFetch request]).
Proof.
  unfold do_fetch, bind, emit, of_outcome.
  destruct (fetch host request); reflexivity.
Qed.

Lemma direct_download_run :
  direct_download host itemId graphToken
  = (Ok (direct_link host itemId graphToken),
     [EvFetch (GetItem itemId graphToken)]).
Proof.
  unfold direct_download, direct_link. rewrite do_fetch_run.
  unfold try_catch, bind, read_json, read_text, of_option, ret, throw.
  destruct (fetch host (GetItem itemId graphToken)) as [r|e];
    [|reflexivity].
  destruct (ok r); [destruct (json r) | destruct (text r)]; reflexivity.
Qed.

Lemma share_loop_step (scope : string) (rest : list string) :
  share_loop host filename itemId graphToken uploaded (scope :: rest)
  = match scope_reply host itemId graphToken uploaded scope with
    | ReplyUrl u =>
        (Ok (Some {| World.filename := filename; url := u |}),
         [EvFetch (CreateLink itemId scope graphToken)])
    | ReplyThrow e =>
        (Throw e, [EvFetch (CreateLink itemId scope graphToken)])
    | ReplyNext =>
        (fst (share_loop host filename itemId graphToken uploaded rest),
         EvFetch (CreateLink itemId scope graphToken)
         :: snd (share_loop host filename itemId graphToken uploaded rest))
    end.
Proof.
  cbn [share_loop]. rewrite do_fetch_run.
  unfold scope_reply, bind, read_json, read_text, of_option, ret, throw.
  destruct (fetch host (CreateLink itemId scope graphToken)) as [r|e];
    [|reflexivity].
  destruct (ok r); cbn [negb].
  - destruct (json r) as [b|]; [|reflexivity].
    destruct (truthy_opt (or_else (link_webUrl b) (webUrl uploaded)));
      [reflexivity|].
    destruct (share_loop host filename itemId graphToken uploaded rest).
    reflexivity.
  - destruct (text r); [|reflexivity].
    destruct (share_loop host filename itemId graphToken uploaded rest).
    reflexivity.
Qed.

(** The whole negotiation, result and requests, by cases. *)
Lemma negotiate_url_run :
  negotiate_url host filename graphToken uploaded itemId
  = match direct_link host itemId graphToken with
    | Some u =>
        (Ok (Some {| World.filename := filename; url := u |}),
         [EvFetch (GetItem itemId graphToken)])
    | None =>
        match scope_reply host itemId graphToken uploaded "anonymous" with
        | ReplyUrl u =>
            (Ok (Some {| World.filename := filename; url := u |}),
             [EvFetch (GetItem itemId graphToken);
              EvFetch (CreateLink itemId "anonymous" graphToken)])
        | ReplyThrow e =>
            (Throw e,
             [EvFetch (GetItem itemId graphToken);
              EvFetch (CreateLink itemId "anonymous" graphToken)])
        | ReplyNext =>
            (match scope_reply host itemId graphToken uploaded
                               "organization" with
             | ReplyUrl u =>
                 Ok (Some {| World.filename := filename; url := u |})
             | ReplyThrow e => Throw e
             | ReplyNext => Ok (named filename (truthy_opt (webUrl uploaded)))
             end,
             [EvFetch (GetItem itemId graphToken);
              EvFetch (CreateLink itemId "anonymous" graphToken);
              EvFetch (CreateLink itemId "organization" graphToken)])
        end
    end.
Proof.
  unfold negotiate_url, shareScopes. rewrite direct_download_run.
  unfold bind at 1.
  destruct (direct_link host itemId graphToken) as [u|]; [reflexivity|].
  rewrite !share_loop_step.
  destruct (scope_reply host itemId graphToken uploaded "anonymous");
    try reflexivity.
  destruct (scope_reply host itemId graphToken uploaded "organization");
    try reflexivity.
  cbn. destruct (truthy_opt (webUrl uploaded)); reflexivity.
Qed.

Lemma negotiate_url_chosen :
  fst (negotiate_url host filename graphToken uploaded itemId)
  = match chosen_url host graphToken uploaded itemId with
    | Ok o => Ok (named filename o)
    | Throw e => Throw e
    end.
Proof.
  rewrite negotiate_url_run. unfold chosen_url.
  destruct (direct_link host itemId graphToken) as [u|]; [reflexivity|].
  destruct (scope_reply host itemId graphToken uploaded "anonymous");
    try reflexivity.
  destruct (scope_reply host itemId graphToken uploaded "organization");
    reflexivity.
Qed.

(** A scope that yields a link gives that link as its URL. *)
Lemma share_link_reply (scope u : string) :
  share_link host itemId scope graphToken = Some u ->
  scope_reply host itemId graphToken uploaded scope = ReplyUrl u.
Proof.
  unfold share_link, scope_reply.
  destruct (fetch host (CreateLink itemId scope graphToken)) as [r|e];
    [|discriminate].
  destruct (ok r); [|discriminate].
  destruct (json r) as [b|]; [|discriminate].
  intros Hlink. unfold or_else. rewrite Hlink.
  apply truthy_opt_Some in Hlink. destruct Hlink as [_ Ht].
  cbn. rewrite Ht. reflexivity.
Qed.

(** With proper answers a scope without a link is a refused scope. *)
Lemma proper_reply (scope : string) :
  proper_replies host itemId graphToken ->
  scope_reply host itemId graphToken uploaded scope
  = match share_link host itemId scope graphToken with
    | Some u => ReplyUrl u
    | None => ReplyNext
    end.
Proof.
  intros Hproper. destruct (Hproper scope) as (r & Hr & Hshape).
  destruct (share_link host itemId scope graphToken) as [u|] eqn:Hlink.
  { apply share_link_reply, Hlink. }
  unfold share_link, scope_reply in *. rewrite Hr in *.
  destruct (ok r).
  - destruct Hshape as (b & u & Hb & Hu). rewrite Hb in Hlink. congruence.
  - destruct (text r); [reflexivity | contradiction].
Qed.

End Negotiation.

(** C3, as stated, fails: when the anonymous scope answers OK without a
    link, the code returns the plain web URL of the uploaded item at once
    and never asks for the organization scope, which would yield a link. *)
Lemma share_order_counterexample :
  ~ (forall host filename base64 graphToken uploaded itemId,
        upload_succeeded host filename base64 graphToken uploaded itemId ->
        fst (uploadToOneDriveAndShare host filename base64 graphToken)
        = Ok (named filename (claimed_url host graphToken uploaded itemId))).
Proof.
  intros claim.
  specialize (claim linkless "b.bin" "TWFu" "token-1" item_body "item-1").
  assert (Hup : upload_succeeded linkless "b.bin" "TWFu" "token-1"
                                 item_body "item-1").
  { eexists _, _, _, _. repeat split; reflexivity. }
  specialize (claim Hup). vm_compute in claim. discriminate claim.
Qed.

(** C3, amended: after a successful upload the URL is chosen in a fixed
    order: the direct download URL when the item lookup yields one, and
    then no sharing request is made; else the scopes [anonymous] and then
    [organization], where a refused request moves on to the next scope
    and an OK answer gives its link or, when it carries none, the plain
    web URL of the uploaded item, the first URL winning and later scopes
    not being tried; else the plain web URL; else nothing. A sharing
    request that throws ends the upload with that exception. When the
    direct URL is missing and the anonymous scope yields a link, that
    link is the result; and whenever every sharing request is answered
    and every OK answer carries a link, the order is the claimed one. *)
Theorem upload_url_order (host : Host)
        (filename base64 graphToken : string)
        (uploaded : JsonBody) (itemId : string) :
  upload_succeeded host filename base64 graphToken uploaded itemId ->
  fst (uploadToOneDriveAndShare host filename base64 graphToken)
  = match chosen_url host graphToken uploaded itemId with
    | Ok o => Ok (named filename o)
    | Throw e => Throw e
    end
  /\ (forall u,
         direct_link host itemId graphToken = Some u ->
         fst (uploadToOneDriveAndShare host filename base64 graphToken)
         = Ok (Some {| filename := filename; url := u |})
         /\ forall scope,
             ~ In (EvFetch (CreateLink itemId scope graphToken))
                  (snd (uploadToOneDriveAndShare host filename base64
                                                 graphToken)))
  /\ (forall u,
         direct_link host itemId graphToken = None ->
         scope_reply host itemId graphToken uploaded "anonymous" = ReplyUrl u ->
         fst (uploadToOneDriveAndShare host filename base64 graphToken)
         = Ok (Some {| filename := filename; url := u |})
         /\ ~ In (EvFetch (CreateLink itemId "organization" graphToken))
                 (snd (uploadToOneDriveAndShare host filename base64
                                                graphToken)))
  /\ (forall u,
         direct_link host itemId graphToken = None ->
         share_link host itemId "anonymous" graphToken = Some u ->
         fst (uploadToOneDriveAndShare host filename base64 graphToken)
         = Ok (Some {| filename := filename; url := u |}))
  /\ (proper_replies host itemId graphToken ->
      fst (uploadToOneDriveAndShare host filename base64 graphToken)
      = Ok (named filename (claimed_url host graphToken uploaded itemId))).
Proof.
  intros Hup.
  destruct (upload_run host filename graphToken uploaded itemId base64 Hup)
    as (Hfst & session & upload & Hsnd & Hs & Hu).
  rewrite Hfst, Hsnd. clear Hfst Hsnd Hup.
  split; [apply negotiate_url_chosen|].
  rewrite negotiate_url_run. split; [|split; [|split]].
  - intros u ->. split; [reflexivity|].
    intros scope [H | [H | [H | []]]]; try discriminate H.
    + injection H as H. exact (Hs scope H).
    + injection H as H. exact (Hu scope H).
  - intros u -> ->. split; [reflexivity|].
    intros [H | [H | [H | [H | []]]]]; try discriminate H.
    + injection H as H. exact (Hs _ H).
    + injection H as H. exact (Hu _ H).
  - intros u -> Hlink.
    rewrite (share_link_reply host graphToken uploaded itemId _ _ Hlink).
    reflexivity.
  - intros Hproper. unfold claimed_url.
    destruct (direct_link host itemId graphToken) as [u|]; [reflexivity|].
    rewrite !(proper_reply host graphToken uploaded itemId _ Hproper).
    destruct (share_link host itemId "anonymous" graphToken);
      [reflexivity|].
    destruct (share_link host itemId "organization" graphToken);
      reflexivity.
Qed.

Lemma upload_url_order_witness :
  fst (uploadToOneDriveAndShare sharing "b.bin" "TWFu" "token-1")
  = Ok (Some {| filename := "b.bin"; url := "https://share/anonymous" |})
  /\ ~ In (EvFetch (CreateLink "item-1" "organization" "token-1"))
          (snd (uploadToOneDriveAndShare sharing "b.bin" "TWFu" "token-1")).
Proof.
  assert (Hup : upload_succeeded sharing "b.bin" "TWFu" "token-1"
                                 item_body "item-1").
  { eexists _, _, _, _. repeat split; reflexivity. }
  destruct (upload_url_order sharing "b.bin" "TWFu" "token-1"
                             item_body "item-1" Hup)
    as (_ & _ & Hfirst & _ & _).
  exact (Hfirst "https://share/anonymous" eq_refl eq_refl).
Defined.


(** * Further properties *)

(** ** Reference resolution, continued *)

Import Resolver.

Section Resolution.
Variable externalOptions : list AirtableProjectOption.

Lemma uniq_from_keeps (a : list string) :
  forall seen x, In x a -> ~ In x seen -> In x (uniq_from seen a).
Proof.
  induction a as [|y a IH]; intros seen x Hin Hnew; [destruct Hin|].
  cbn [uniq_from].
  destruct (existsb (String.eqb y) seen) eqn:Hseen.
  - apply IH; [|exact Hnew]. destruct Hin as [-> | Hin]; [|exact Hin].
    apply seen_spec in Hseen. contradiction.
  - destruct (String.eqb_spec y x) as [-> | Hne]; [left; reflexivity|].
    right. apply IH.
    + destruct Hin as [Heq | Hin]; [contradiction | exact Hin].
    + intros [Heq | Hin']; [contradiction | exact (Hnew Hin')].
Qed.

Lemma uniq_from_fixed (a : list string) :
  forall seen,
    List.NoDup a -> (forall x, In x a -> ~ In x seen) -> uniq_from seen a = a.
Proof.
  induction a as [|y a IH]; intros seen Hnd Hnew; [reflexivity|].
  cbn [uniq_from]. inversion_clear Hnd as [|? ? Hy Ha].
  destruct (existsb (String.eqb y) seen) eqn:Hseen.
  - apply seen_spec in Hseen. exfalso. apply (Hnew y); [left; reflexivity|].
    exact Hseen.
  - f_equal. apply IH; [exact Ha|].
    intros x Hx [<- | Hin]; [contradiction|].
    apply (Hnew x); [right; exact Hx | exact Hin].
Qed.

Lemma push_entry_rec (l : list string) :
  forall ids,
    Forall (fun e => startsWith e "rec" = true) l ->
    fold_left (push_entry externalOptions) l ids = ids ++ l.
Proof.
  induction l as [|e l IH]; intros ids Hl.
  { cbn. rewrite List.app_nil_r. reflexivity. }
  inversion_clear Hl as [|? ? He Hl']. cbn [fold_left].
  unfold push_entry at 2. rewrite He, IH by exact Hl'.
  rewrite <- List.app_assoc. reflexivity.
Qed.

Lemma push_entry_In (l : list string) :
  forall ids r,
    In r (fold_left (push_entry externalOptions) l ids)
    <-> In r ids \/ exists e, In e l /\ pushes externalOptions e r.
Proof.
  induction l as [|e l IH]; intros ids r; cbn [fold_left].
  { split; [tauto|]. intros [H | (e & [] & _)]. exact H. }
  rewrite IH. unfold push_entry at 1. unfold pushes.
  destruct (startsWith e "rec") eqn:Hrec.
  - rewrite List.in_app_iff. cbn [In]. split.
    + intros [[H | [<- | []]] | (e' & He' & Hp)].
      * left. exact H.
      * right. exists e. split; [left; reflexivity|]. left. rewrite Hrec. auto.
      * right. exists e'. split; [right; exact He' | exact Hp].
    + intros [H | (e' & [<- | He'] & Hp)].
      * left. left. exact H.
      * destruct Hp as [[_ ->] | [Hf _]]; [left; right; left; reflexivity|].
        congruence.
      * right. exists e'. split; assumption.
  - destruct (find (matches_entry e) externalOptions) as [opt|] eqn:Hfind.
    + rewrite List.in_app_iff. cbn [In]. split.
      * intros [[H | [<- | []]] | (e' & He' & Hp)].
        -- left. exact H.
        -- right. exists e. split; [left; reflexivity|]. right.
           rewrite Hrec, Hfind. split; [reflexivity|]. exists opt. auto.
        -- right. exists e'. split; [right; exact He' | exact Hp].
      * intros [H | (e' & [<- | He'] & Hp)].
        -- left. left. exact H.
        -- destruct Hp as [[Ht _] | (_ & opt' & Hf & <-)]; [congruence|].
           rewrite Hfind in Hf. injection Hf as <-.
           left. right. left. reflexivity.
        -- right. exists e'. split; assumption.
    + split.
      * intros [H | (e' & He' & Hp)]; [left; exact H|].
        right. exists e'. split; [right; exact He' | exact Hp].
      * intros [H | (e' & [<- | He'] & Hp)].
        -- left. exact H.
        -- destruct Hp as [[Ht _] | (_ & opt' & Hf & _)]; [congruence|].
           rewrite Hfind in Hf. discriminate Hf.
        -- right. exists e'. split; assumption.
Qed.

Lemma rec_prefix_truthy (s : string) :
  startsWith s "rec" = true -> truthy s = true.
Proof. destruct s; [discriminate | reflexivity]. Qed.

End Resolution.

(** X1: resolving is idempotent: the ids that come out of
    [resolveExternalAssignees] resolve to themselves, in the same order,
    whatever the option set. *)
Theorem resolveExternalAssignees_idempotent
        (externalOptions : list AirtableProjectOption)
        (rawEntries : list string) :
  resolveExternalAssignees
    externalOptions (resolveExternalAssignees externalOptions rawEntries)
  = resolveExternalAssignees externalOptions rawEntries.
Proof.
  set (r := resolveExternalAssignees externalOptions rawEntries).
  assert (Hnd : List.NoDup r).
  { unfold r, resolveExternalAssignees. destruct rawEntries; [constructor|].
    apply List.NoDup_filter, array_from_set_NoDup. }
  assert (Hrec : Forall (fun i => startsWith i "rec" = true) r).
  { unfold r, resolveExternalAssignees. destruct rawEntries; [constructor|].
    apply List.Forall_forall. intros i Hi. apply List.filter_In in Hi.
    destruct Hi as [_ Hi]. apply andb_true_iff in Hi. apply Hi. }
  destruct r as [|i r'] eqn:Hr; [reflexivity|].
  unfold resolveExternalAssignees at 1.
  rewrite (push_entry_rec externalOptions _ [] Hrec). cbn [app].
  unfold array_from_set. rewrite uniq_from_fixed;
    [|exact Hnd | intros x _ []].
  apply filter_all. apply List.Forall_forall. intros x Hx.
  rewrite List.Forall_forall in Hrec. specialize (Hrec x Hx).
  rewrite Hrec, (rec_prefix_truthy x Hrec). reflexivity.
Qed.

(** X2: the result of [resolveExternalAssignees] holds exactly the ids with
    the [rec] prefix that are either an input entry taken verbatim or the
    id of the first option that matches an entry without the prefix; so
    every entry with the prefix is kept and an unmatched entry adds
    nothing. *)
Theorem resolveExternalAssignees_exact
        (externalOptions : list AirtableProjectOption)
        (rawEntries : list string) (r : string) :
  In r (resolveExternalAssignees externalOptions rawEntries)
  <-> startsWith r "rec" = true
      /\ exists entry,
          In entry rawEntries
          /\ (entry = r
              \/ (startsWith entry "rec" = false
                  /\ exists opt,
                      find (matches_entry entry) externalOptions = Some opt
                      /\ Resolver.id opt = r)).
Proof.
  unfold resolveExternalAssignees.
  destruct rawEntries as [|e0 rest] eqn:Hraw.
  { split; [intros [] | intros (_ & e & [] & _)]. }
  rewrite <- Hraw. clear Hraw.
  rewrite List.filter_In. unfold array_from_set. split.
  - intros (Hin & Hp). apply andb_true_iff in Hp. destruct Hp as [_ Hrec].
    split; [exact Hrec|].
    apply uniq_from_In in Hin. destruct Hin as [Hin _].
    apply push_entry_In in Hin. destruct Hin as [[] | (e & He & Hp)].
    exists e. split; [exact He|].
    destruct Hp as [[_ ->] | Hp]; [left; reflexivity | right; exact Hp].
  - intros (Hrec & e & He & Hp). split.
    + apply uniq_from_keeps; [|intros []].
      apply push_entry_In. right. exists e. split; [exact He|].
      destruct Hp as [-> | Hp]; [left; split; [exact Hrec | reflexivity]|].
      right. exact Hp.
    + rewrite Hrec, (rec_prefix_truthy r Hrec). reflexivity.
Qed.

(** ** Link extraction, continued *)

Import JsString Links Body Titles.

Section Scanning.

Lemma strip_trailing_fixed (s : string) :
  strip_trailing (strip_trailing s) = strip_trailing s.
Proof.
  induction s as [|c s IH]; [reflexivity|]. cbn [strip_trailing].
  destruct (is_trailing_punct c && String.eqb (strip_trailing s) "")
    eqn:Hc; [reflexivity|].
  cbn [strip_trailing]. rewrite IH, Hc. reflexivity.
Qed.

Lemma strip_trailing_chars (f : ascii -> bool) (s : string) :
  all_chars f s = true -> all_chars f (strip_trailing s) = true.
Proof.
  induction s as [|c s IH]; [reflexivity|]. cbn [strip_trailing all_chars].
  intros H. apply andb_true_iff in H. destruct H as [Hc Hs].
  destruct (is_trailing_punct c && String.eqb (strip_trailing s) "");
    [reflexivity|].
  cbn [all_chars]. rewrite Hc, (IH Hs). reflexivity.
Qed.

(** A white-space character stays one in lower case, and conversely. *)
Lemma lower_char_space (c : ascii) :
  is_space (lower_char c) = is_space c.
Proof.
  destruct c as [[] [] [] [] [] [] [] []]; vm_compute; reflexivity.
Qed.

Lemma ci_eq_space (p c : ascii) :
  ci_eq p c = true -> is_space c = is_space p.
Proof.
  unfold ci_eq. intros H. apply Ascii.eqb_eq in H.
  rewrite <- (lower_char_space c), <- (lower_char_space p), H. reflexivity.
Qed.

Lemma all_chars_snoc (f : ascii -> bool) (m : string) (c : ascii) :
  all_chars f m = true -> f c = true ->
  all_chars f (m +:+ String c EmptyString) = true.
Proof.
  induction m as [|x m IH]; intros Hm Hc.
  { change (all_chars f (String c EmptyString) = true).
    cbn [all_chars]. rewrite Hc. reflexivity. }
  cbn [all_chars] in Hm. apply andb_true_iff in Hm. destruct Hm as [Hx Hm].
  change (all_chars f (String x (m +:+ String c EmptyString)) = true).
  cbn [all_chars]. rewrite Hx, (IH Hm Hc). reflexivity.
Qed.

Lemma url_start_not_space (c : ascii) (s : string) :
  url_starts_here (String c s) = true -> is_space c = false.
Proof.
  unfold url_starts_here. cbn [ci_prefix].
  destruct (ci_eq "h" c) eqn:Hc; [|discriminate].
  intros _. rewrite (ci_eq_space _ _ Hc). reflexivity.
Qed.

Lemma scan_urls_no_space (s : string) :
  forall cur,
    match cur with Some m => no_space m = true | None => True end ->
    Forall (fun m => no_space m = true) (scan_urls cur s).
Proof.
  induction s as [|c s IH]; intros cur Hcur; cbn [scan_urls].
  { destruct cur; repeat constructor. exact Hcur. }
  destruct cur as [m|].
  - destruct (is_space c) eqn:Hc.
    + constructor; [exact Hcur | apply IH; exact I].
    + apply IH. apply all_chars_snoc; [exact Hcur|]. rewrite Hc. reflexivity.
  - destruct (url_starts_here (String c s)) eqn:Hu; [|apply IH; exact I].
    apply IH. unfold no_space. cbn [all_chars].
    rewrite (url_start_not_space c s Hu). reflexivity.
Qed.

End Scanning.

Section Schemes.

Lemma append_cons (c : ascii) (a b : string) :
  String c a +:+ b = String c (a +:+ b).
Proof. reflexivity. Qed.

(** A pattern without white space cannot match across a white space. *)
Lemma ci_prefix_before_space (p : string) :
  forall m c s r,
    no_space p = true -> is_space c = true ->
    ci_prefix p (m +:+ String c s) = Some r ->
    exists r', ci_prefix p m = Some r' /\ r = r' +:+ String c s.
Proof.
  induction p as [|x p IH]; intros m c s r Hp Hc Hm.
  { cbn [ci_prefix] in *. injection Hm as <-. eexists. split; reflexivity. }
  unfold no_space in Hp. cbn [all_chars] in Hp.
  apply andb_true_iff in Hp. destruct Hp as [Hx Hp].
  apply negb_true_iff in Hx.
  destruct m as [|y m].
  - change (ci_prefix (String x p) (String c s) = Some r) in Hm.
    cbn [ci_prefix] in Hm. destruct (ci_eq x c) eqn:Hxc; [|discriminate].
    apply ci_eq_space in Hxc. congruence.
  - rewrite append_cons in Hm. cbn [ci_prefix] in *.
    destruct (ci_eq x y); [|discriminate].
    apply (IH m c s r Hp Hc Hm).
Qed.

Lemma ci_prefix_split (p : string) :
  forall s r,
    ci_prefix p s = Some r ->
    exists a, s = a +:+ r /\ forall r2, ci_prefix p (a +:+ r2) = Some r2.
Proof.
  induction p as [|x p IH]; intros s r Hs.
  { cbn [ci_prefix] in Hs. injection Hs as <-.
    exists EmptyString. split; reflexivity. }
  destruct s as [|y s]; [discriminate|]. cbn [ci_prefix] in Hs.
  destruct (ci_eq x y) eqn:Hxy; [|discriminate].
  destruct (IH s r Hs) as (a & -> & Ha).
  exists (String y a). split; [reflexivity|].
  intros r2. rewrite append_cons. cbn [ci_prefix]. rewrite Hxy. apply Ha.
Qed.

Lemma url_start_scheme (m : string) :
  url_starts_here m = true -> starts_with_scheme m = true.
Proof.
  unfold url_starts_here, starts_with_scheme.
  destruct (ci_prefix "http" m) as [r|]; [|discriminate].
  destruct (ci_prefix "s://" r); [reflexivity|].
  destruct (ci_prefix "://" r); [reflexivity | discriminate].
Qed.

Lemma scheme_before_space (m : string) (c : ascii) (s : string) :
  is_space c = true ->
  url_starts_here (m +:+ String c s) = true ->
  starts_with_scheme m = true.
Proof.
  intros Hc. unfold url_starts_here, starts_with_scheme.
  destruct (ci_prefix "http" (m +:+ String c s)) as [r|] eqn:H1;
    [|discriminate].
  destruct (ci_prefix_before_space "http" m c s r eq_refl Hc H1)
    as (r1 & -> & ->).
  destruct (ci_prefix "s://" (r1 +:+ String c s)) as [r2|] eqn:H2.
  { destruct (ci_prefix_before_space "s://" r1 c s r2 eq_refl Hc H2)
      as (r2' & -> & _). reflexivity. }
  destruct (ci_prefix "://" (r1 +:+ String c s)) as [r3|] eqn:H3;
    [|discriminate].
  destruct (ci_prefix_before_space "://" r1 c s r3 eq_refl Hc H3)
    as (r3' & -> & _).
  destruct (ci_prefix "s://" r1); reflexivity.
Qed.

Lemma scan_urls_scheme (s : string) :
  forall cur,
    match cur with
    | Some m => url_starts_here (m +:+ s) = true
    | None => True
    end ->
    Forall (fun m => starts_with_scheme m = true) (scan_urls cur s).
Proof.
  induction s as [|c s IH]; intros cur Hcur; cbn [scan_urls].
  { destruct cur as [m|]; repeat constructor.
    rewrite append_empty_r in Hcur. apply url_start_scheme, Hcur. }
  destruct cur as [m|].
  - destruct (is_space c) eqn:Hc.
    + constructor; [exact (scheme_before_space m c s Hc Hcur)|].
      apply IH. exact I.
    + apply IH. rewrite append_assoc. exact Hcur.
  - destruct (url_starts_here (String c s)) eqn:Hu; [|apply IH; exact I].
    apply IH. exact Hu.
Qed.

(** Cleaning stops at the first character from the right that is not one
    of the three punctuation signs. *)
Lemma strip_trailing_through (a : string) (c : ascii) (b : string) :
  is_trailing_punct c = false ->
  strip_trailing (a +:+ String c b) = a +:+ String c (strip_trailing b).
Proof.
  intros Hc. induction a as [|x a IH].
  { change (strip_trailing (String c b) = String c (strip_trailing b)).
    cbn [strip_trailing]. rewrite Hc. reflexivity. }
  rewrite !append_cons. cbn [strip_trailing]. rewrite IH.
  replace (String.eqb (a +:+ String c (strip_trailing b)) "") with false;
    [rewrite andb_false_r; reflexivity|].
  destruct a; reflexivity.
Qed.

Lemma ci_eq_slash (c : ascii) : ci_eq "/" c = true -> c = "/"%char.
Proof.
  destruct c as [[] [] [] [] [] [] [] []]; vm_compute;
    intros H; try discriminate H; reflexivity.
Qed.

Lemma ci_prefix_slashes (r r2 : string) :
  ci_prefix "://" r = Some r2 ->
  exists x, ci_eq ":" x = true /\ r = String x (String "/" (String "/" r2)).
Proof.
  destruct r as [|x [|y [|z r]]]; cbn [ci_prefix]; try discriminate.
  - destruct (ci_eq ":" x); discriminate.
  - destruct (ci_eq ":" x); [|discriminate]. destruct (ci_eq "/" y); discriminate.
  - destruct (ci_eq ":" x) eqn:Hx; [|discriminate].
    destruct (ci_eq "/" y) eqn:Hy; [|discriminate].
    destruct (ci_eq "/" z) eqn:Hz; [|discriminate].
    intros [= <-]. apply ci_eq_slash in Hy, Hz. subst y z.
    exists x. split; [exact Hx | reflexivity].
Qed.

Lemma strip_trailing_scheme (m : string) :
  starts_with_scheme m = true -> starts_with_scheme (strip_trailing m) = true.
Proof.
  unfold starts_with_scheme at 1.
  destruct (ci_prefix "http" m) as [r|] eqn:H1; [|discriminate].
  destruct (ci_prefix_split "http" m r H1) as (a & -> & Ha).
  destruct (ci_prefix "s://" r) as [r2|] eqn:H2.
  - intros _. destruct r as [|s r]; [discriminate|]. cbn [ci_prefix] in H2.
    destruct (ci_eq "s" s) eqn:Hs; [|discriminate].
    destruct (ci_prefix_slashes r r2 H2) as (x & Hx & ->).
    replace (a +:+ String s (String x (String "/" (String "/" r2))))
      with ((a +:+ String s (String x (String "/" EmptyString)))
            +:+ String "/" r2)
      by (rewrite append_assoc; reflexivity).
    rewrite strip_trailing_through by reflexivity.
    rewrite append_assoc. unfold starts_with_scheme. rewrite Ha.
    change (String s (String x (String "/" EmptyString))
            +:+ String "/" (strip_trailing r2))
      with (String s (String x (String "/" (String "/" (strip_trailing r2))))).
    cbn [ci_prefix]. rewrite Hs, Hx. reflexivity.
  - destruct (ci_prefix "://" r) as [r3|] eqn:H3; [|discriminate].
    intros _. destruct (ci_prefix_slashes r r3 H3) as (x & Hx & ->).
    replace (a +:+ String x (String "/" (String "/" r3)))
      with ((a +:+ String x (String "/" EmptyString)) +:+ String "/" r3)
      by (rewrite append_assoc; reflexivity).
    rewrite strip_trailing_through by reflexivity.
    rewrite append_assoc. unfold starts_with_scheme. rewrite Ha.
    change (String x (String "/" EmptyString)
            +:+ String "/" (strip_trailing r3))
      with (String x (String "/" (String "/" (strip_trailing r3)))).
    cbn [ci_prefix]. rewrite Hx.
    destruct (ci_eq "s" x); reflexivity.
Qed.

End Schemes.

Lemma filterLink_kept (url : string) (count : nat) :
  filterLink url count = true ->
  includes (toLowerCase url) "safelinks.protection.outlook.com" = false
  /\ includes (toLowerCase url) "cid:" = false
  /\ (is_social (toLowerCase url) = true -> count <= 1).
Proof.
  unfold filterLink, is_social.
  destruct (includes (toLowerCase url) "safelinks.protection.outlook.com");
    [discriminate|].
  destruct (includes (toLowerCase url) "cid:"); [discriminate|].
  destruct (is_image_url (toLowerCase url)
            && (includes (toLowerCase url) "signature"
                || includes (toLowerCase url) "logo")); [discriminate|].
  destruct (1 <? count)%nat eqn:Hc.
  - destruct (existsb (fun d => includes (toLowerCase url) d) sigDomains);
      [discriminate|]. intros _. repeat split. discriminate.
  - intros _. repeat split. intros _. apply Nat.ltb_ge, Hc.
Qed.

(** X3: every link that [getLinksFromBody] returns begins with [http://]
    or [https://] (in any letter case), holds no white space, does not end
    with a closing parenthesis, a period or a comma, names neither the
    safelinks domain nor a [cid:] reference, and occurs once in the
    result. *)
Theorem linksOfBody_clean (bodyText : string) :
  List.NoDup (linksOfBody bodyText)
  /\ forall link,
      In link (linksOfBody bodyText) ->
      starts_with_scheme link = true
      /\ no_space link = true
      /\ strip_trailing link = link
      /\ includes (toLowerCase link) "safelinks.protection.outlook.com" = false
      /\ includes (toLowerCase link) "cid:" = false.
Proof.
  unfold linksOfBody. split; [apply array_from_set_NoDup|].
  intros link Hin. unfold array_from_set in Hin.
  apply uniq_from_In in Hin. destruct Hin as [Hin _].
  apply List.filter_In in Hin. destruct Hin as [Hin Hkeep].
  apply List.in_map_iff in Hin. destruct Hin as (m & <- & Hm).
  pose proof (scan_urls_scheme (limitBodyText bodyText 12000) None I) as Hs.
  pose proof (scan_urls_no_space (limitBodyText bodyText 12000) None I) as Hn.
  rewrite List.Forall_forall in Hs, Hn. unfold match_urls in Hm.
  destruct (filterLink_kept _ _ Hkeep) as (Hsafe & Hcid & _).
  repeat split.
  - apply strip_trailing_scheme, Hs, Hm.
  - apply strip_trailing_chars, Hn, Hm.
  - apply strip_trailing_fixed.
  - exact Hsafe.
  - exact Hcid.
Qed.

Section Counting.

(** The counting object of [getLinksFromBody] holds, for every cleaned
    URL, the number of matches that clean to it. *)
Lemma count_matches_lookup (matches : list string) :
  forall (counts : gmap string nat) (k : string),
    default 0%nat (fold_left count_step matches counts !! k)
    = (default 0%nat (counts !! k)
       + count_occ string_dec (map strip_trailing matches) k)%nat.
Proof.
  induction matches as [|m matches IH]; intros counts k.
  { cbn. lia. }
  cbn [fold_left map]. rewrite IH. unfold count_step.
  destruct (string_dec (strip_trailing m) k) as [Heq | Hne].
  - rewrite Heq, lookup_insert_eq, List.count_occ_cons_eq by reflexivity.
    cbn [default]. unfold Datatypes.id. lia.
  - rewrite lookup_insert_ne, List.count_occ_cons_neq by exact Hne.
    reflexivity.
Qed.

Lemma count_or_one_occurrences (bodyText link : string) :
  In link (cleaned_matches bodyText) ->
  count_or_one (count_matches (match_urls (limitBodyText bodyText 12000))) link
  = occurrences bodyText link.
Proof.
  intros Hin. unfold count_or_one, count_matches, occurrences.
  pose proof (count_matches_lookup
                (match_urls (limitBodyText bodyText 12000)) ∅ link) as Hc.
  rewrite lookup_empty in Hc. cbn [default] in Hc.
  apply (List.count_occ_In string_dec) in Hin.
  unfold cleaned_matches in *.
  destruct (fold_left count_step (match_urls (limitBodyText bodyText 12000)) ∅
              !! link) as [[|n]|];
    cbn [default] in Hc; unfold Datatypes.id in Hc; lia.
Qed.

End Counting.

(** X4: a cleaned match is returned by [getLinksFromBody] exactly when
    [filterLink] keeps it at the number of times it occurs among the
    cleaned matches of the scanned text; so a returned link that names a
    social-media domain occurs there exactly once. *)
Theorem linksOfBody_occurrences (bodyText link : string) :
  (In link (linksOfBody bodyText)
   <-> In link (cleaned_matches bodyText)
       /\ filterLink link (occurrences bodyText link) = true)
  /\ (In link (linksOfBody bodyText) ->
      is_social (toLowerCase link) = true ->
      occurrences bodyText link = 1%nat).
Proof.
  assert (Hiff : In link (linksOfBody bodyText)
                 <-> In link (cleaned_matches bodyText)
                     /\ filterLink link (occurrences bodyText link) = true).
  { unfold linksOfBody, array_from_set. split.
    - intros Hin. apply uniq_from_In in Hin. destruct Hin as [Hin _].
      apply List.filter_In in Hin. destruct Hin as [Hin Hkeep].
      split; [exact Hin|].
      rewrite <- (count_or_one_occurrences bodyText link Hin). exact Hkeep.
    - intros [Hin Hkeep]. apply uniq_from_keeps; [|intros []].
      apply List.filter_In. split; [exact Hin|].
      rewrite (count_or_one_occurrences bodyText link Hin). exact Hkeep. }
  split; [exact Hiff|].
  intros Hin Hsocial. apply Hiff in Hin. destruct Hin as [Hin Hkeep].
  destruct (filterLink_kept _ _ Hkeep) as (_ & _ & Hle).
  specialize (Hle Hsocial).
  apply (List.count_occ_In string_dec) in Hin.
  unfold occurrences in *. lia.
Qed.

Lemma linksOfBody_occurrences_witness :
  occurrences "a https://linkedin.com/in/x, b" "https://linkedin.com/in/x"
  = 1%nat.
Proof.
  apply (proj2 (linksOfBody_occurrences
                  "a https://linkedin.com/in/x, b"
                  "https://linkedin.com/in/x")).
  - vm_compute. left. reflexivity.
  - vm_compute. reflexivity.
Defined.

(** ** The credential broker, continued *)

Import World Credentials Delivery Samples.

Lemma getGraphToken_cached (host : Host) (pane : Pane) (t : string) :
  truthy_opt (cachedGraphToken pane) = Some t ->
  getGraphToken host pane = (Some t, pane, []).
Proof. intros Hc. unfold getGraphToken. rewrite Hc. reflexivity. Qed.

(** X5: the broker memoizes. A token it hands out is not empty and is
    cached in the pane, and every later call, whatever the identity
    provider would answer then, returns that token without any call to
    the provider; a call that yields no token leaves the cache as it
    was. *)
Theorem getGraphToken_memoizes (host : Host) (pane : Pane) :
  (forall t pane' log,
      getGraphToken host pane = (Some t, pane', log) ->
      truthy t = true
      /\ cachedGraphToken pane' = Some t
      /\ forall host', getGraphToken host' pane' = (Some t, pane', []))
  /\ (forall pane' log,
         getGraphToken host pane = (None, pane', log) ->
         cachedGraphToken pane' = cachedGraphToken pane).
Proof.
  split.
  - intros t pane' log H.
    assert (Ht : truthy t = true).
    { pose proof (getGraphToken_truthy host pane) as Htr.
      unfold token_of in Htr. rewrite H in Htr. cbn [fst] in Htr.
      apply truthy_opt_Some in Htr. apply Htr. }
    split; [exact Ht|].
    assert (Hc : truthy_opt (cachedGraphToken pane') = Some t).
    { unfold getGraphToken in H.
      destruct (truthy_opt (cachedGraphToken pane)) as [t0|] eqn:Hc0.
      { injection H as <- <- _. exact Hc0. }
      destruct (negb (truthy (GRAPH_CLIENT_ID host))
                || negb (truthy (GRAPH_REDIRECT_URI host))
                || negb (truthy (GRAPH_TENANT_ID host))); [discriminate|].
      destruct (if msalInstance pane then Ok tt else construct (msal host));
        [|discriminate].
      destruct (acquire_chain (msal host)) as [[[t'|]|e] log'];
        try discriminate.
      injection H as <- <- _. cbn. rewrite Ht. reflexivity. }
    split.
    + apply truthy_opt_Some in Hc. apply Hc.
    + intros host'. apply getGraphToken_cached, Hc.
  - intros pane' log H. unfold getGraphToken in H.
    destruct (truthy_opt (cachedGraphToken pane)) as [t0|]; [discriminate|].
    destruct (negb (truthy (GRAPH_CLIENT_ID host))
              || negb (truthy (GRAPH_REDIRECT_URI host))
              || negb (truthy (GRAPH_TENANT_ID host))).
    { injection H as <- _. reflexivity. }
    destruct (if msalInstance pane then Ok tt else construct (msal host)).
    + destruct (acquire_chain (msal host)) as [[[t'|]|e] log'];
        try discriminate; injection H as <- _; reflexivity.
    + injection H as <- _. reflexivity.
Qed.

Lemma getGraphToken_memoizes_witness :
  getGraphToken unconfigured
                {| cachedGraphToken := Some "token-1"; msalInstance := true |}
  = (Some "token-1",
     {| cachedGraphToken := Some "token-1"; msalInstance := true |}, []).
Proof.
  exact (proj2 (proj2 (proj1 (getGraphToken_memoizes sharing fresh)
                             "token-1" _ _ eq_refl))
               unconfigured).
Defined.

(** ** The delivery pipeline, continued *)

Section Uploads.
Variable host : Host.
Variables filename base64 graphToken : string.

(** An upload either stops early, with no record and one or two requests
    made, or hands over to the negotiation of the URL. *)
Lemma upload_cases :
  (exists r uploadTo buffer,
      (forall a, r <> Ok (Some a))
      /\ fst (uploadToOneDriveAndShare host filename base64 graphToken) = r
      /\ (snd (uploadToOneDriveAndShare host filename base64 graphToken)
          = firstn 1 (upload_script host filename graphToken uploadTo buffer "")
          \/ snd (uploadToOneDriveAndShare host filename base64 graphToken)
             = firstn 2 (upload_script host filename graphToken uploadTo
                                       buffer "")))
  \/ (exists uploaded itemId uploadTo buffer,
         uploadToOneDriveAndShare host filename base64 graphToken
         = (fst (negotiate_url host filename graphToken uploaded itemId),
            firstn 2 (upload_script host filename graphToken uploadTo buffer
                                    itemId)
            ++ snd (negotiate_url host filename graphToken uploaded itemId))).
Proof.
  unfold uploadToOneDriveAndShare, upload_script, safe_name.
  rewrite !do_fetch_run.
  unfold read_json, read_text, of_option, of_outcome, bind, emit, ret, throw.
  set (S := CreateUploadSession
              (if truthy filename then filename
               else "upload-" +:+ Date_now host) graphToken).
  destruct (fetch host S) as [sessionResp|e].
  2:{ left. exists (Throw e), None, []. cbn.
      split; [discriminate|]. split; [reflexivity | left; reflexivity]. }
  destruct (ok sessionResp); cbn [negb]; cbv beta iota.
  2:{ left. destruct (text sessionResp).
      - exists (Ok None), None, []. cbn.
        split; [discriminate|]. split; [reflexivity | left; reflexivity].
      - exists (Throw "body stream error"), None, []. cbn.
        split; [discriminate|]. split; [reflexivity | left; reflexivity]. }
  destruct (json sessionResp) as [session|].
  2:{ left. exists (Throw "invalid JSON"), None, []. cbn.
      split; [discriminate|]. split; [reflexivity | left; reflexivity]. }
  destruct (base64ToArrayBuffer base64) as [buffer|].
  2:{ left. exists (Throw "InvalidCharacterError"), None, []. cbn.
      split; [discriminate|]. split; [reflexivity | left; reflexivity]. }
  rewrite do_fetch_run.
  destruct (fetch host (PutBytes (uploadUrl session) buffer))
    as [uploadResp|e].
  2:{ left. exists (Throw e), (uploadUrl session), buffer. cbn.
      split; [discriminate|]. split; [reflexivity | right; reflexivity]. }
  destruct (ok uploadResp); cbn [negb]; cbv beta iota.
  2:{ left. destruct (text uploadResp).
      - exists (Ok None), (uploadUrl session), buffer. cbn.
        split; [discriminate|]. split; [reflexivity | right; reflexivity].
      - exists (Throw "body stream error"), (uploadUrl session), buffer. cbn.
        split; [discriminate|]. split; [reflexivity | right; reflexivity]. }
  destruct (json uploadResp) as [uploaded|].
  2:{ left. exists (Throw "invalid JSON"), (uploadUrl session), buffer. cbn.
      split; [discriminate|]. split; [reflexivity | right; reflexivity]. }
  destruct (truthy_opt (item_id uploaded)) as [itemId|].
  2:{ left. exists (Ok None), (uploadUrl session), buffer. cbn.
      split; [discriminate|]. split; [reflexivity | right; reflexivity]. }
  right. exists uploaded, itemId, (uploadUrl session), buffer.
  destruct (negotiate_url host filename graphToken uploaded itemId).
  reflexivity.
Qed.

End Uploads.

Section UploadResults.
Variable host : Host.
Variables filename graphToken : string.




Lemma negotiate_url_log (uploaded : JsonBody) (itemId : string) :
  exists rest,
    [EvFetch (GetItem itemId graphToken);
     EvFetch (CreateLink itemId "anonymous" graphToken);
     EvFetch (CreateLink itemId "organization" graphToken)]
    = snd (negotiate_url host filename graphToken uploaded itemId) ++ rest.
Proof.
  rewrite negotiate_url_run.
  destruct (direct_link host itemId graphToken);
    [eexists; reflexivity|].
  destruct (scope_reply host itemId graphToken uploaded "anonymous");
    eexists; reflexivity.
Qed.


Lemma upload_log (base64 : string) :
  exists uploadTo buffer itemId rest,
    upload_script host filename graphToken uploadTo buffer itemId
    = snd (uploadToOneDriveAndShare host filename base64 graphToken) ++ rest.
Proof.
  destruct (upload_cases host filename base64 graphToken)
    as [(r & u & b & _ & _ & [-> | ->]) | (uploaded & itemId & u & b & ->)].
  - exists u, b, "". eexists. symmetry. apply List.firstn_skipn.
  - exists u, b, "". eexists. symmetry. apply List.firstn_skipn.
  - exists u, b, itemId. cbn [snd].
    destruct (negotiate_url_log uploaded itemId) as (rest & Hrest).
    exists rest. unfold upload_script. cbn [firstn].
    rewrite <- List.app_assoc, <- Hrest. reflexivity.
Qed.

End UploadResults.

(** X6: an upload makes its requests in one fixed order and stops
    somewhere along it: upload session, byte upload, item lookup,
    anonymous link, organization link. So it makes at least one and at
    most five requests, none of them twice. *)
Theorem upload_requests_in_order (host : Host)
        (filename base64 graphToken : string) :
  exists uploadTo buffer itemId rest,
    upload_script host filename graphToken uploadTo buffer itemId
    = snd (uploadToOneDriveAndShare host filename base64 graphToken) ++ rest
    /\ List.NoDup
         (snd (uploadToOneDriveAndShare host filename base64 graphToken))
    /\ (1 <= List.length
               (snd (uploadToOneDriveAndShare host filename base64
                                              graphToken)) <= 5)%nat.
Proof.
  destruct (upload_log host filename graphToken base64)
    as (u & b & i & rest & Hlog).
  exists u, b, i, rest. split; [exact Hlog|]. split.
  { apply (List.NoDup_app_remove_r _ rest). rewrite <- Hlog.
    unfold upload_script.
    repeat (constructor; [cbn [In]; intuition discriminate|]).
    constructor. }
  pose proof (f_equal (@List.length Event) Hlog) as Hlen.
  rewrite List.length_app in Hlen. cbn [upload_script List.length] in Hlen.
  split; [|lia].
  destruct (upload_cases host filename base64 graphToken)
    as [(r & u' & b' & _ & _ & [-> | ->]) | (up & i' & u' & b' & ->)];
    cbn; lia.
Qed.

Section Batches.
Variable host : Host.






End Batches.



(** ** Link titles, continued *)

Import JsString Links Body Titles.

Section TitleCache.
Variable title_lookup : string -> option string.



End TitleCache.



(** ** The content encoder, continued *)

Import Encoder.

Section WireText.

Lemma string_of_list_length (l : list ascii) :
  String.length (string_of_list_ascii l) = List.length l.
Proof.
  induction l as [|c l IH]; [reflexivity|]. cbn. rewrite IH. reflexivity.
Qed.

Lemma encode_length_exact (l : list N) :
  List.length (encode l) = (4 * ((List.length l + 2) / 3))%nat.
Proof.
  induction l as [| | |a b c t IH] using list_ind3; try reflexivity.
  cbn [encode List.length]. rewrite IH.
  replace (S (S (S (List.length t))) + 2)%nat
    with ((List.length t + 2) + 1 * 3)%nat by lia.
  rewrite Nat.div_add by discriminate. lia.
Qed.

Lemma encode_wire (l : list N) :
  Forall (fun c => c = pad_char \/ In c alphabet) (encode l).
Proof.
  rewrite encode_split. apply List.Forall_app. split.
  - apply List.Forall_map, List.Forall_forall. intros n _.
    right. apply enc_char_alphabet.
  - destruct (padding_cases l) as [-> | [-> | ->]];
      repeat constructor.
Qed.

Lemma chunk_loop_whole (b : list byte) (chunk : N) :
  (0 < chunk)%N ->
  chunk_loop (List.length b) b chunk 0 "" = fromCharCode b.
Proof.
  intros Hc. rewrite chunk_loop_all by (try exact Hc; lia). reflexivity.
Qed.

End WireText.

(** X10: the wire text of a buffer of [n] bytes has [4 * ceil (n / 3)]
    characters, each one a letter of the base64 alphabet or the padding
    sign; and the chunk size of the encoding loop does not show in it:
    any positive chunk size gives the same text. *)
Theorem arrayBufferToBase64_wire (b : list byte) :
  String.length (arrayBufferToBase64 b)
  = (4 * ((List.length b + 2) / 3))%nat
  /\ Forall (fun c => c = pad_char \/ In c alphabet)
            (list_ascii_of_string (arrayBufferToBase64 b))
  /\ forall chunk,
      (0 < chunk)%N ->
      btoa (chunk_loop (List.length b) b chunk 0 "") = arrayBufferToBase64 b.
Proof.
  unfold arrayBufferToBase64.
  rewrite (chunk_loop_whole b chunkSize) by reflexivity.
  unfold btoa, fromCharCode.
  rewrite list_ascii_of_string_of_list_ascii. split; [|split].
  - rewrite string_of_list_length, encode_length_exact, !List.length_map.
    reflexivity.
  - rewrite list_ascii_of_string_of_list_ascii. apply encode_wire.
  - intros chunk Hc. rewrite (chunk_loop_whole b chunk Hc).
    unfold fromCharCode. rewrite list_ascii_of_string_of_list_ascii.
    reflexivity.
Qed.

Lemma arrayBufferToBase64_wire_witness :
  btoa (chunk_loop 5 [x48; x65; x6c; x6c; x6f] 2 0 "")
  = arrayBufferToBase64 [x48; x65; x6c; x6c; x6f].
Proof.
  apply (proj2 (proj2 (arrayBufferToBase64_wire [x48; x65; x6c; x6c; x6f]))).
  reflexivity.
Defined.

(** ** Form texts *)

Import JsString Links Titles Forms.

Section Trimming.

Lemma trim_end_fixed (s : string) : trim_end (trim_end s) = trim_end s.
Proof.
  induction s as [|c s IH]; [reflexivity|]. cbn [trim_end].
  destruct (is_space c && String.eqb (trim_end s) "") eqn:Hc; [reflexivity|].
  cbn [trim_end]. rewrite IH, Hc. reflexivity.
Qed.

Lemma trim_start_head (s : string) :
  nonspace_first (trim_start s) = true \/ trim_start s = "".
Proof.
  induction s as [|c s IH]; [right; reflexivity|]. cbn [trim_start].
  destruct (is_space c) eqn:Hc; [exact IH|].
  left. cbn. rewrite Hc. reflexivity.
Qed.

Lemma trim_end_head (s : string) :
  nonspace_first s = true -> nonspace_first (trim_end s) = true.
Proof.
  destruct s as [|c s]; [discriminate|]. cbn [nonspace_first trim_end].
  intros Hc. apply negb_true_iff in Hc. rewrite Hc. cbn. rewrite Hc.
  reflexivity.
Qed.

Lemma trim_start_nonspace (s : string) :
  nonspace_first s = true -> trim_start s = s.
Proof.
  destruct s as [|c s]; [discriminate|]. cbn [nonspace_first trim_start].
  intros Hc. apply negb_true_iff in Hc. rewrite Hc. reflexivity.
Qed.

(** Trimming twice is trimming once. *)
Lemma trim_fixed (s : string) : trim (trim s) = trim s.
Proof.
  unfold trim.
  destruct (trim_start_head s) as [Hh | ->]; [|reflexivity].
  rewrite (trim_start_nonspace _ (trim_end_head _ Hh)).
  apply trim_end_fixed.
Qed.

Lemma trim_end_chars (f : ascii -> bool) (s : string) :
  all_chars f s = true -> all_chars f (trim_end s) = true.
Proof.
  induction s as [|c s IH]; [reflexivity|]. cbn [trim_end all_chars].
  intros H. apply andb_true_iff in H. destruct H as [Hc Hs].
  destruct (is_space c && String.eqb (trim_end s) ""); [reflexivity|].
  cbn [all_chars]. rewrite Hc, (IH Hs). reflexivity.
Qed.

Lemma trim_start_chars (f : ascii -> bool) (s : string) :
  all_chars f s = true -> all_chars f (trim_start s) = true.
Proof.
  induction s as [|c s IH]; [reflexivity|]. cbn [trim_start].
  intros H. destruct (is_space c); [|exact H].
  cbn [all_chars] in H. apply andb_true_iff in H. apply IH, H.
Qed.

Lemma trim_chars (f : ascii -> bool) (s : string) :
  all_chars f s = true -> all_chars f (trim s) = true.
Proof. intros H. apply trim_end_chars, trim_start_chars, H. Qed.

Lemma prefix_trim_end (s : string) :
  forall p, String.prefix p (trim_end s) = true -> String.prefix p s = true.
Proof.
  induction s as [|c s IH]; intros p; [trivial|]. cbn [trim_end].
  destruct (is_space c && String.eqb (trim_end s) "").
  - destruct p; [reflexivity | discriminate].
  - destruct p as [|x p]; [reflexivity|]. cbn [String.prefix].
    destruct (ascii_dec x c); [apply IH | discriminate].
Qed.

Lemma includes_trim_end (p s : string) :
  includes (trim_end s) p = true -> includes s p = true.
Proof.
  induction s as [|c s IH]; [trivial|]. intros H.
  cbn [includes]. apply orb_true_iff.
  cbn [trim_end] in H.
  destruct (is_space c && String.eqb (trim_end s) "") eqn:Hc.
  - cbn [includes] in H. rewrite orb_false_r in H.
    destruct p; [left; reflexivity | discriminate].
  - cbn [includes] in H. apply orb_true_iff in H. destruct H as [H | H].
    + left. apply (prefix_trim_end (String c s)). cbn [trim_end].
      rewrite Hc. exact H.
    + right. apply IH, H.
Qed.

Lemma includes_trim_start (p s : string) :
  includes (trim_start s) p = true -> includes s p = true.
Proof.
  induction s as [|c s IH]; [trivial|]. cbn [trim_start].
  destruct (is_space c); [|trivial].
  intros H. cbn [includes]. rewrite (IH H). apply orb_true_r.
Qed.

Lemma includes_trim (p s : string) :
  includes (trim s) p = true -> includes s p = true.
Proof. intros H. apply includes_trim_start, includes_trim_end, H. Qed.

End Trimming.

Section Squeezing.

Lemma prefix_lf_other (p : string) (c : ascii) (r : string) :
  Ascii.eqb c LF = false -> String.prefix (String LF p) (String c r) = false.
Proof.
  intros Hc. cbn [String.prefix].
  destruct (ascii_dec LF c) as [<- | _]; [|reflexivity].
  rewrite Ascii.eqb_refl in Hc. discriminate Hc.
Qed.

Lemma prefix_lf_lf (p r : string) :
  String.prefix (String LF p) (String LF r) = String.prefix p r.
Proof.
  cbn [String.prefix]. destruct (ascii_dec LF LF); [reflexivity|].
  contradiction.
Qed.

(** At most two line feeds before another character add no blank run. *)
Lemma includes_after_newlines (k : nat) (c : ascii) (r : string) :
  (k <= 2)%nat -> Ascii.eqb c LF = false ->
  includes (newlines k +:+ String c r) blank_lines = includes r blank_lines.
Proof.
  intros Hk Hc. unfold blank_lines.
  destruct k as [|[|[|k]]]; [| | |lia].
  - change (newlines 0 +:+ String c r) with (String c r).
    cbn [includes newlines]. rewrite prefix_lf_other by exact Hc.
    reflexivity.
  - change (newlines 1 +:+ String c r) with (String LF (String c r)).
    cbn [includes newlines].
    rewrite prefix_lf_lf, !prefix_lf_other by exact Hc. reflexivity.
  - change (newlines 2 +:+ String c r)
      with (String LF (String LF (String c r))).
    cbn [includes newlines].
    rewrite !prefix_lf_lf, !prefix_lf_other by exact Hc. reflexivity.
Qed.

Lemma squeeze_newlines_no_blank (s : string) :
  forall run, includes (squeeze_newlines run s) blank_lines = false.
Proof.
  induction s as [|c s IH]; intros run; cbn [squeeze_newlines].
  - assert (Hk : (Nat.min run 2 = 0 \/ Nat.min run 2 = 1 \/ Nat.min run 2 = 2)
                 %nat) by lia.
    destruct Hk as [-> | [-> | ->]]; vm_compute; reflexivity.
  - destruct (Ascii.eqb c LF) eqn:Hc; [apply IH|].
    rewrite includes_after_newlines; [apply IH | lia | exact Hc].
Qed.

End Squeezing.

(** X11: a normalized body never holds three line feeds in a row, so at
    most one blank line separates two lines, and it neither begins nor
    ends with white space. *)
Theorem normalizeBodyText_tidy (text : string) :
  includes (normalizeBodyText text) blank_lines = false
  /\ trim (normalizeBodyText text) = normalizeBodyText text.
Proof.
  unfold normalizeBodyText.
  destruct (negb (truthy text)); [split; reflexivity|]. split.
  - destruct (includes (trim (squeeze_newlines 0 (replace_crlf text)))
                       blank_lines) eqn:H; [|reflexivity].
    apply includes_trim in H.
    rewrite squeeze_newlines_no_blank in H. discriminate H.
  - apply trim_fixed.
Qed.

Section Sanitizing.

Lemma remove_chars_free (f : ascii -> bool) (s : string) :
  free_of f (remove_chars f s) = true.
Proof.
  unfold free_of. induction s as [|c s IH]; [reflexivity|].
  cbn [remove_chars]. destruct (f c) eqn:Hc; [exact IH|].
  cbn [all_chars]. rewrite Hc, IH. reflexivity.
Qed.

Lemma remove_chars_fixed (f : ascii -> bool) (s : string) :
  free_of f s = true -> remove_chars f s = s.
Proof.
  unfold free_of. induction s as [|c s IH]; [reflexivity|].
  cbn [all_chars remove_chars]. intros H. apply andb_true_iff in H.
  destruct H as [Hc Hs]. apply negb_true_iff in Hc.
  rewrite Hc, (IH Hs). reflexivity.
Qed.

Lemma sanitize_free (value : string) :
  free_of is_control (sanitizeForAirtableText value) = true.
Proof.
  unfold sanitizeForAirtableText.
  destruct (negb (truthy value)); [reflexivity|].
  apply trim_chars, remove_chars_free.
Qed.

Lemma substring_chars (f : ascii -> bool) (n : nat) :
  forall s, all_chars f s = true ->
            all_chars f (String.substring 0 n s) = true.
Proof.
  induction n as [|n IH]; intros s Hs; [destruct s; reflexivity|].
  destruct s as [|c s]; [reflexivity|].
  cbn [all_chars] in Hs. apply andb_true_iff in Hs.
  cbn [String.substring all_chars].
  rewrite (proj1 Hs), (IH s (proj2 Hs)). reflexivity.
Qed.

Lemma substring_length (n : nat) :
  forall s, (String.length (String.substring 0 n s) <= n)%nat.
Proof.
  induction n as [|n IH]; intros s; [destruct s; apply le_n|].
  destruct s as [|c s]; [apply Nat.le_0_l|].
  cbn [String.substring String.length]. apply le_n_S, IH.
Qed.

Lemma substring_prefix (n : nat) :
  forall s, String.prefix (String.substring 0 n s) s = true.
Proof.
  induction n as [|n IH]; intros s; [destruct s; reflexivity|].
  destruct s as [|c s]; [reflexivity|].
  cbn [String.substring String.prefix].
  destruct (ascii_dec c c); [apply IH | contradiction].
Qed.

Lemma prefix_refl (s : string) : String.prefix s s = true.
Proof.
  induction s as [|c s IH]; [reflexivity|]. cbn [String.prefix].
  destruct (ascii_dec c c); [exact IH | contradiction].
Qed.

End Sanitizing.

(** X12: the text of a form field as it is sent ([truncateForAirtable] of
    [sanitizeForAirtableText]) holds none of the control characters
    U+0000..U+0008, U+000B, U+000C, U+000E..U+001F and U+007F, has at most
    50000 characters and is a prefix of the sanitized text; and
    sanitizing is idempotent. *)
Theorem stored_text_clean (value : string) :
  free_of is_control (stored_text value) = true
  /\ (N.of_nat (String.length (stored_text value)) <= airtable_text_max)%N
  /\ String.prefix (stored_text value) (sanitizeForAirtableText value) = true
  /\ sanitizeForAirtableText (sanitizeForAirtableText value)
     = sanitizeForAirtableText value.
Proof.
  unfold stored_text, truncateForAirtable.
  pose proof (sanitize_free value) as Hfree.
  set (clean := sanitizeForAirtableText value) in *.
  split; [|split; [|split]].
  - destruct (negb (truthy clean)); [reflexivity|].
    destruct (airtable_text_max <? N.of_nat (String.length clean))%N;
      [|exact Hfree].
    apply substring_chars, Hfree.
  - destruct (negb (truthy clean)); [cbn; lia|].
    destruct (N.ltb_spec airtable_text_max (N.of_nat (String.length clean)))
      as [Hlong | Hshort]; [|exact Hshort].
    pose proof (substring_length (N.to_nat airtable_text_max) clean). lia.
  - destruct (negb (truthy clean)); [destruct clean; reflexivity|].
    destruct (airtable_text_max <? N.of_nat (String.length clean))%N;
      [apply substring_prefix | apply prefix_refl].
  - unfold sanitizeForAirtableText at 1.
    destruct (negb (truthy clean)) eqn:Hempty.
    + apply negb_true_iff in Hempty. unfold truthy in Hempty.
      apply negb_false_iff, String.eqb_eq in Hempty. symmetry. exact Hempty.
    + rewrite (remove_chars_fixed _ _ Hfree).
      unfold clean, sanitizeForAirtableText.
      destruct (negb (truthy value)); [reflexivity | apply trim_fixed].
Qed.

Section Tokens.

Lemma cons_head_free (c : ascii) (pieces : list string) :
  is_list_separator c = false ->
  Forall (fun p => free_of is_list_separator p = true) pieces ->
  Forall (fun p => free_of is_list_separator p = true) (cons_head c pieces).
Proof.
  intros Hc Hp. unfold cons_head, free_of in *.
  destruct Hp as [|h t Hh Ht]; constructor; try constructor.
  - cbn [all_chars]. rewrite Hc. reflexivity.
  - cbn [all_chars]. rewrite Hc, Hh. reflexivity.
  - exact Ht.
Qed.

Lemma split_each_free (s : string) :
  Forall (fun p => free_of is_list_separator p = true) (split_each s).
Proof.
  induction s as [|c s IH]; [repeat constructor|]. cbn [split_each].
  destruct (is_list_separator c) eqn:Hc.
  - constructor; [reflexivity | exact IH].
  - apply cons_head_free; assumption.
Qed.

Lemma split_runs_free (s : string) :
  forall in_run,
    Forall (fun p => free_of is_list_separator p = true)
           (split_runs in_run s).
Proof.
  induction s as [|c s IH]; intros in_run; [repeat constructor|].
  cbn [split_runs]. destruct (is_list_separator c) eqn:Hc.
  - destruct in_run; [apply IH|]. constructor; [reflexivity | apply IH].
  - apply cons_head_free; [exact Hc | apply IH].
Qed.

Lemma trimmed_tokens_ok (pieces : list string) :
  Forall (fun p => free_of is_list_separator p = true) pieces ->
  Forall token_ok (trimmed_tokens pieces).
Proof.
  intros Hp. unfold trimmed_tokens. apply List.Forall_forall. intros t Ht.
  apply List.filter_In in Ht. destruct Ht as [Hin Htruthy].
  apply List.in_map_iff in Hin. destruct Hin as (p & <- & Hin).
  rewrite List.Forall_forall in Hp.
  split; [exact Htruthy|]. split; [apply trim_fixed|].
  apply trim_chars, Hp, Hin.
Qed.

Lemma trimmed_tokens_cons (x : string) (t : list string) :
  trimmed_tokens (x :: t)
  = (if truthy (trim x) then [trim x] else []) ++ trimmed_tokens t.
Proof.
  unfold trimmed_tokens. cbn [map List.filter].
  destruct (truthy (trim x)); reflexivity.
Qed.

(** The two ways of splitting differ in empty pieces only. *)
Lemma split_agree (s : string) :
  (exists h t1 t2,
      split_each s = h :: t1 /\ split_runs false s = h :: t2
      /\ trimmed_tokens t1 = trimmed_tokens t2)
  /\ trimmed_tokens (split_runs true s) = trimmed_tokens (split_each s).
Proof.
  induction s as [|c s ((h & t1 & t2 & He & Hr & Ht) & Hrun)].
  { split; [exists EmptyString, [], [] |]; repeat split. }
  cbn [split_each split_runs]. destruct (is_list_separator c).
  - split.
    + exists EmptyString, (split_each s), (split_runs true s).
      repeat split. symmetry. exact Hrun.
    + rewrite Hrun. rewrite (trimmed_tokens_cons "" (split_each s)).
      reflexivity.
  - rewrite He, Hr. cbn [cons_head]. split.
    + exists (String c h), t1, t2. repeat split. exact Ht.
    + rewrite !trimmed_tokens_cons, Ht. reflexivity.
Qed.

Lemma nodup_snoc {A : Type} (l : list A) (x : A) :
  List.NoDup l -> ~ In x l -> List.NoDup (l ++ [x]).
Proof.
  intros Hl Hx. induction Hl as [|y l Hy Hl IH].
  - repeat constructor. intros [].
  - cbn [app]. constructor.
    + rewrite List.in_app_iff. cbn [In]. intros [H | [H | []]].
      * exact (Hy H).
      * apply Hx. left. symmetry. exact H.
    + apply IH. intros H. apply Hx. right. exact H.
Qed.

Lemma push_token_distinct (tokens : list string) (token : string) :
  ci_distinct tokens -> ci_distinct (push_token tokens token).
Proof.
  unfold ci_distinct, push_token. intros Hd.
  destruct (existsb (fun t => String.eqb (toLowerCase t) (toLowerCase token))
                    tokens) eqn:He; [exact Hd|].
  rewrite List.map_app. cbn [map]. apply nodup_snoc; [exact Hd|].
  intros Hin. apply List.in_map_iff in Hin. destruct Hin as (t & Ht & Hin).
  assert (Hex : existsb (fun t => String.eqb (toLowerCase t)
                                             (toLowerCase token)) tokens
                = true).
  { apply List.existsb_exists. exists t. split; [exact Hin|].
    apply String.eqb_eq, Ht. }
  congruence.
Qed.

Lemma push_tokens_grow (added : list string) :
  forall tokens,
    ci_distinct tokens ->
    Forall token_ok added ->
    ci_distinct (fold_left push_token added tokens)
    /\ exists kept,
        fold_left push_token added tokens = tokens ++ kept
        /\ Forall token_ok kept.
Proof.
  induction added as [|t added IH]; intros tokens Hd Hok.
  { split; [exact Hd|]. exists []. split; [|constructor].
    cbn. rewrite List.app_nil_r. reflexivity. }
  inversion_clear Hok as [|? ? Ht Hok'].
  cbn [fold_left].
  destruct (IH (push_token tokens t) (push_token_distinct tokens t Hd) Hok')
    as (Hd' & kept & Hfold & Hkept).
  split; [exact Hd'|]. rewrite Hfold. unfold push_token.
  destruct (existsb (fun t0 => String.eqb (toLowerCase t0) (toLowerCase t))
                    tokens).
  - exists kept. split; [reflexivity | exact Hkept].
  - exists (t :: kept). split.
    + rewrite <- List.app_assoc. reflexivity.
    + constructor; assumption.
Qed.

End Tokens.

(** X13: the tokens that [getRecordIdList] reads from a field are never
    empty, carry no white space around them and hold no comma, semicolon
    or line feed; a field that is missing, empty or blank gives no token
    at all. *)
Theorem getRecordIdList_tokens (element : option string) :
  Forall token_ok (getRecordIdList element)
  /\ (match element with
      | Some value => trim value = ""
      | None => True
      end -> getRecordIdList element = []).
Proof.
  unfold getRecordIdList. split.
  - destruct (negb (truthy (getInputValue element))); [constructor|].
    apply trimmed_tokens_ok, split_each_free.
  - intros Hblank.
    assert (Hv : getInputValue element = "").
    { destruct element as [value|]; [|reflexivity]. cbn.
      destruct (truthy value); [exact Hblank | reflexivity]. }
    rewrite Hv. reflexivity.
Qed.

Lemma getRecordIdList_tokens_witness :
  getRecordIdList (Some "   ") = [].
Proof.
  apply (proj2 (getRecordIdList_tokens (Some "   "))). reflexivity.
Defined.

(** X14: adding person tokens only ever appends: the tokens already chosen
    stay in place, what is appended are well-formed tokens, and a list
    without two tokens equal up to letter case stays such a list. *)
Theorem addNotePersonToken_grows (notePersonTokens : list string)
        (raw : string) :
  ci_distinct notePersonTokens ->
  ci_distinct (addNotePersonToken notePersonTokens raw)
  /\ exists added,
      addNotePersonToken notePersonTokens raw = notePersonTokens ++ added
      /\ Forall token_ok added.
Proof.
  intros Hd. unfold addNotePersonToken.
  pose proof (trimmed_tokens_ok _ (split_runs_free raw false)) as Hok.
  destruct (trimmed_tokens (split_runs false raw)) as [|t ts] eqn:Ht.
  - split; [exact Hd|]. exists []. split; [|constructor].
    rewrite List.app_nil_r. reflexivity.
  - apply push_tokens_grow; assumption.
Qed.

Lemma addNotePersonToken_grows_witness :
  ci_distinct (addNotePersonToken ["Jane"] "jane; Bob,,bob")
  /\ exists added,
      addNotePersonToken ["Jane"] "jane; Bob,,bob" = ["Jane"] ++ added
      /\ Forall token_ok added.
Proof.
  apply (addNotePersonToken_grows ["Jane"] "jane; Bob,,bob").
  unfold ci_distinct. cbn [map]. repeat constructor. intros [].
Defined.

(** X15: the two places where a list of persons is read split it alike:
    splitting at every separator ([getRecordIdList]) and splitting at runs
    of separators ([addNotePersonToken]) give the same tokens, in the
    same order. *)
Theorem tokenizers_agree (s : string) :
  trimmed_tokens (split_runs false s) = trimmed_tokens (split_each s).
Proof.
  destruct (split_agree s) as ((h & t1 & t2 & -> & -> & Ht) & _).
  rewrite !trimmed_tokens_cons, Ht. reflexivity.
Qed.

(** ** The record client *)

Import Client.

Section ClientRequests.
Variable encodeURIComponent : string -> string.
Variable fetch : ClientRequest -> Outcome ClientResponse.
Variable config : AirtableEnvironmentConfig.

Lemma createRecord_log (baseId tableName : string) (fields : Fields) :
  snd (createRecord encodeURIComponent fetch config baseId tableName fields)
  = []
  \/ snd (createRecord encodeURIComponent fetch config baseId tableName fields)
     = [{| method := Some "POST";
           url := TableUrl (getBaseUrl config) baseId
                           (buildTablePath encodeURIComponent tableName) [];
           headers := Some (buildHeaders config);
           body := Some fields |}].
Proof.
  unfold createRecord.
  destruct (negb (hasValidToken config)); [left; reflexivity|]. right.
  destruct (fetch _) as [response|e]; [|reflexivity].
  destruct (negb (ok response)).
  - destruct (refusal "Airtable error " response); reflexivity.
  - destruct (json_record response); reflexivity.
Qed.


Lemma list_loop_log (fuel : nat) (baseId tableName : string)
      (options : option ListOptions) :
  forall offset collected,
    Forall (fun r => exists o,
                r = list_request encodeURIComponent config baseId tableName
                                 options o)
           (snd (list_loop encodeURIComponent fetch config fuel baseId
                           tableName options offset collected)).
Proof.
  induction fuel as [|fuel IH]; intros offset collected; [constructor|].
  cbn [list_loop].
  destruct (fetch _) as [response|e]; [|repeat econstructor].
  destruct (negb (ok response)).
  { destruct (refusal "Airtable list error " response);
      repeat econstructor. }
  destruct (json_page response) as [page|]; [|repeat econstructor].
  destruct (truthy_opt (Client.offset page)) as [next|];
    [|repeat econstructor].
  specialize (IH (Some next) (collected ++ records page)).
  destruct (list_loop encodeURIComponent fetch config fuel baseId tableName
                      options (Some next) (collected ++ records page))
    as [r log].
  cbn [snd] in *. constructor; [eexists; reflexivity | exact IH].
Qed.

Lemma listRecords_log (fuel : nat) (baseId tableName : string)
      (options : option ListOptions) :
  Forall (fun r => exists o,
              r = list_request encodeURIComponent config baseId tableName
                               options o)
         (snd (listRecords encodeURIComponent fetch config fuel baseId
                           tableName options)).
Proof.
  unfold listRecords. destruct (negb (hasValidToken config)); [constructor|].
  apply list_loop_log.
Qed.

End ClientRequests.

Lemma strip_slashes_last (s : string) :
  last_char (strip_slashes s) <> Some "/"%char.
Proof.
  induction s as [|c s IH]; [discriminate|]. cbn [strip_slashes].
  destruct (Ascii.eqb c "/" && String.eqb (strip_slashes s) "") eqn:Hc;
    [discriminate|].
  cbn [last_char]. destruct (strip_slashes s) as [|d r] eqn:Hr.
  - cbn in Hc. rewrite andb_true_r in Hc. apply Ascii.eqb_neq in Hc.
    congruence.
  - exact IH.
Qed.

Lemma getBaseUrl_last (config : AirtableEnvironmentConfig) :
  last_char (getBaseUrl config) <> Some "/"%char.
Proof.
  unfold getBaseUrl. destruct (proxyUrl config) as [p|]; [|discriminate].
  destruct (truthy (trim p)); [apply strip_slashes_last | discriminate].
Qed.




Section ClientModes.
Variable encodeURIComponent : string -> string.
Variable fetch : ClientRequest -> Outcome ClientResponse.
Variable config : AirtableEnvironmentConfig.


Lemma created_request (baseId tableName : string) (fields : Fields)
      (r : ClientRequest) :
  In r (snd (createRecord encodeURIComponent fetch config baseId tableName
                          fields)) ->
  r = {| method := Some "POST";
         url := TableUrl (getBaseUrl config) baseId
                         (buildTablePath encodeURIComponent tableName) [];
         headers := Some (buildHeaders config);
         body := Some fields |}.
Proof.
  destruct (createRecord_log encodeURIComponent fetch config baseId tableName
                             fields) as [E | E]; rewrite E; cbn [In];
    [intros [] | intros [H|[]]].
  symmetry. exact H.
Qed.

Lemma listed_request (fuel : nat) (baseId tableName : string)
      (options : option ListOptions) (r : ClientRequest) :
  In r (snd (listRecords encodeURIComponent fetch config fuel baseId
                         tableName options)) ->
  exists o, r = list_request encodeURIComponent config baseId tableName
                             options o.
Proof.
  intros H.
  pose proof (listRecords_log encodeURIComponent fetch config fuel baseId
                              tableName options) as Hall.
  rewrite List.Forall_forall in Hall. exact (Hall r H).
Qed.

End ClientModes.



Lemma falsy_empty (s : string) : truthy s = false -> s = "".
Proof. destruct s; [reflexivity | discriminate]. Qed.

(** X18: without a proxy every request is authorised and goes to the
    service itself. When the proxy URL is unset or empty, each request
    that creating a task, a document or a note, or listing records makes
    carries [Authorization: Bearer <token>] with the configured token and
    has the REST base of the service as the base of its URL. *)
Theorem direct_requests_carry_token
        (encodeURIComponent : string -> string)
        (fetch : ClientRequest -> Outcome ClientResponse)
        (config : AirtableEnvironmentConfig) (r : ClientRequest) :
  truthy_opt (proxyUrl config) = None ->
  ((exists payload,
       In r (snd (createTask encodeURIComponent fetch config payload)))
   \/ (exists payload,
          In r (snd (createDocument encodeURIComponent fetch config payload)))
   \/ (exists payload,
          In r (snd (createNote encodeURIComponent fetch config payload)))
   \/ (exists fuel baseId tableName options,
          In r (snd (listRecords encodeURIComponent fetch config fuel
                                 baseId tableName options)))) ->
  bears (personalAccessToken config) r /\ goes_to AIRTABLE_REST_BASE r.
Proof.
  intros Hnone.
  assert (Hbase : getBaseUrl config = AIRTABLE_REST_BASE).
  { unfold getBaseUrl. destruct (proxyUrl config) as [p|]; [|reflexivity].
    cbn [truthy_opt] in Hnone. destruct (truthy p) eqn:Hp; [discriminate|].
    apply falsy_empty in Hp. subst p. reflexivity. }
  assert (Hoff : proxy_configured config = false).
  { unfold proxy_configured. destruct (proxyUrl config) as [p|]; [|reflexivity].
    cbn [truthy_opt] in Hnone. destruct (truthy p); [discriminate|].
    reflexivity. }
  intros [(payload & H) | [(payload & H) | [(payload & H)
          | (fuel & baseId & tableName & options & H)]]].
  1-3: apply created_request in H; subst r;
    unfold bears, goes_to, buildHeaders; cbn [headers url];
    rewrite Hoff, Hbase; split; [eexists; split; reflexivity | reflexivity].
  apply listed_request in H as (o & ->).
  unfold bears, goes_to, list_request. cbn [headers url].
  rewrite Hnone, Hbase.
  split; [eexists; split; reflexivity | reflexivity].
Qed.

Lemma direct_requests_carry_token_witness :
  bears "pat123"
        (list_request (fun s => s) direct_config "app1" "Projects" None None)
  /\ goes_to AIRTABLE_REST_BASE
             (list_request (fun s => s) direct_config "app1" "Projects" None
                           None).
Proof.
  exact (direct_requests_carry_token
           (fun s => s) offline direct_config
           (list_request (fun s => s) direct_config "app1" "Projects" None
                         None)
           eq_refl
           (or_intror
              (or_intror
                 (or_intror
                    (ex_intro _ 1%nat
                       (ex_intro _ "app1"
                          (ex_intro _ "Projects"
                             (ex_intro _ None (or_introl eq_refl))))))))).
Defined.

(** X19: a proxy URL of white space only splits the two kinds of request.
    With such a URL a created task is sent to the service itself with the
    bearer token, but a listing request goes to the same service with no
    headers at all, hence without the token. *)
Theorem blank_proxy_lists_unauthorised
        (encodeURIComponent : string -> string)
        (fetch : ClientRequest -> Outcome ClientResponse)
        (config : AirtableEnvironmentConfig) (p : string) :
  proxyUrl config = Some p ->
  truthy p = true ->
  trim p = "" ->
  (forall payload r,
      In r (snd (createTask encodeURIComponent fetch config payload)) ->
      bears (personalAccessToken config) r /\ goes_to AIRTABLE_REST_BASE r)
  /\ (forall fuel baseId tableName options r,
         In r (snd (listRecords encodeURIComponent fetch config fuel baseId
                                tableName options)) ->
         headers r = None /\ goes_to AIRTABLE_REST_BASE r).
Proof.
  intros Hp Htruthy Hblank.
  assert (Hbase : getBaseUrl config = AIRTABLE_REST_BASE).
  { unfold getBaseUrl. rewrite Hp, Hblank. reflexivity. }
  assert (Hoff : proxy_configured config = false).
  { unfold proxy_configured. rewrite Hp, Hblank. apply andb_false_r. }
  split.
  - intros payload r H. apply created_request in H. subst r.
    unfold bears, goes_to, buildHeaders. cbn [headers url].
    rewrite Hoff, Hbase. split; [eexists; split; reflexivity | reflexivity].
  - intros fuel baseId tableName options r H.
    apply listed_request in H as (o & ->).
    unfold goes_to, list_request. cbn [headers url].
    rewrite Hp, Hbase. cbn [truthy_opt]. rewrite Htruthy.
    split; reflexivity.
Qed.

Lemma blank_proxy_lists_unauthorised_witness :
  snd (listRecords (fun s => s) offline blank_proxy_config 1 "app1"
                   "Projects" None)
  = [list_request (fun s => s) blank_proxy_config "app1" "Projects" None
                  None]
  /\ headers (list_request (fun s => s) blank_proxy_config "app1" "Projects"
                           None None) = None.
Proof.
  split; [reflexivity|].
  exact (proj1 (proj2 (blank_proxy_lists_unauthorised
                         (fun s => s) offline blank_proxy_config " "
                         eq_refl eq_refl eq_refl)
                      1%nat "app1" "Projects" None _ (or_introl eq_refl))).
Defined.

Section LinkFields.

Lemma links_ok_app (a b : Fields) :
  links_ok a -> links_ok b -> links_ok (a ++ b).
Proof.
  intros Ha Hb key ids H. apply List.in_app_iff in H as [H|H].
  - exact (Ha key ids H).
  - exact (Hb key ids H).
Qed.

Lemma links_ok_none (fs : Fields) :
  Forall (fun kv => forall ids, snd kv <> FLinks ids) fs -> links_ok fs.
Proof.
  intros Hall key ids H. rewrite List.Forall_forall in Hall.
  exfalso. exact (Hall _ H ids eq_refl).
Qed.

Lemma when_truthy_links (key : string) (value : option string) :
  links_ok (when_truthy key value).
Proof.
  unfold when_truthy. destruct (truthy_opt value);
    apply links_ok_none; repeat constructor; discriminate.
Qed.

Lemma attachment_field_links (key : string)
      (files : option (list World.AirtableAttachmentInput)) :
  links_ok (attachment_field key files).
Proof.
  unfold attachment_field. destruct files as [[|f rest]|];
    apply links_ok_none; repeat constructor; discriminate.
Qed.

Lemma project_link_links (key : string) (projectRecordId : option string) :
  links_ok (project_link key projectRecordId).
Proof.
  unfold project_link. destruct (truthy_opt projectRecordId) as [p|];
    [|intros ? ? []].
  destruct (startsWith p "rec") eqn:Hrec; [|intros ? ? []].
  intros k ids [H|[]]. injection H as _ <-.
  split; [discriminate | repeat constructor; exact Hrec].
Qed.

Lemma record_links_links (key : string) (ids : option (list string)) :
  links_ok (record_links key ids).
Proof.
  unfold record_links. destruct ids as [[|i rest]|]; try (intros ? ? []).
  destruct (List.filter (fun x => startsWith x "rec") (i :: rest))
    as [|v valid] eqn:Hf; [intros ? ? []|].
  intros k sent [H|[]]. injection H as _ <-.
  split; [discriminate|]. rewrite <- Hf. apply List.Forall_forall.
  intros x Hx. apply List.filter_In in Hx. exact (proj2 Hx).
Qed.

Lemma task_fields_links (payload : AirtableTaskPayload) :
  links_ok (task_fields payload).
Proof.
  unfold task_fields.
  repeat apply links_ok_app;
    try apply when_truthy_links; try apply project_link_links;
    try apply record_links_links; try apply attachment_field_links.
  - apply links_ok_none. repeat constructor; discriminate.
  - apply links_ok_none. repeat constructor; try discriminate.
    + cbn [snd]. unfold text_or_null.
      destruct (task_start payload); discriminate.
    + cbn [snd]. unfold text_or_null.
      destruct (task_end payload); discriminate.
  - destruct (truthy_opt (internalOwnerId payload));
      [|destruct (truthy_opt (internalOwnerEmail payload))];
      apply links_ok_none; repeat constructor; discriminate.
Qed.

Lemma document_fields_links (payload : AirtableDocumentPayload) :
  links_ok (document_fields payload).
Proof.
  unfold document_fields.
  repeat apply links_ok_app; try apply project_link_links.
  - apply links_ok_none. repeat constructor; discriminate.
  - destruct (String.eqb (doc_type payload) "attachment");
      [apply attachment_field_links | intros ? ? []].
  - destruct (String.eqb (doc_type payload) "link");
      [apply when_truthy_links | intros ? ? []].
Qed.

Lemma note_fields_links (payload : AirtableNotePayload) :
  links_ok (note_fields payload).
Proof.
  unfold note_fields.
  repeat apply links_ok_app;
    try apply project_link_links; try apply record_links_links.
  apply links_ok_none. repeat constructor; try discriminate.
  cbn [snd]. destruct (note_date payload); [discriminate|].
  unfold text_or_null.
  destruct (receivedDate (note_message payload)); discriminate.
Qed.

End LinkFields.

(** X20: no request for a new record carries a malformed link. In the
    body of every request that creating a task, a document or a note
    makes, each linked-record field (project, external assignees,
    persons) holds at least one id and only ids that start with "rec":
    a field that would be empty is left out, and other ids are dropped. *)
Theorem created_links_are_record_ids
        (encodeURIComponent : string -> string)
        (fetch : ClientRequest -> Outcome ClientResponse)
        (config : AirtableEnvironmentConfig)
        (r : ClientRequest) (sent : Fields) :
  ((exists payload,
       In r (snd (createTask encodeURIComponent fetch config payload)))
   \/ (exists payload,
          In r (snd (createDocument encodeURIComponent fetch config payload)))
   \/ (exists payload,
          In r (snd (createNote encodeURIComponent fetch config payload)))) ->
  body r = Some sent ->
  links_ok sent.
Proof.
  intros [(payload & H) | [(payload & H) | (payload & H)]] Hbody;
    apply created_request in H; subst r; cbn [body] in Hbody;
    injection Hbody as <-.
  - apply task_fields_links.
  - apply document_fields_links.
  - apply note_fields_links.
Qed.

Lemma created_links_are_record_ids_witness :
  links_ok (note_fields (sample_note ["rec1"; "Jane Doe"; "rec2"])).
Proof.
  refine (created_links_are_record_ids
            (fun s => s) accepting direct_config
            {| method := Some "POST";
               url := TableUrl AIRTABLE_REST_BASE "AIRTABLE_BASE_ID_TASKS"
                               (notes FALLBACK_TABLES) [];
               headers := Some (buildHeaders direct_config);
               body := Some (note_fields
                               (sample_note ["rec1"; "Jane Doe"; "rec2"])) |}
            _
            (or_intror
               (or_intror
                  (ex_intro _ (sample_note ["rec1"; "Jane Doe"; "rec2"])
                            (or_introl _))))
            eq_refl).
  vm_compute. reflexivity.
Defined.

Lemma resolved_ids_rec (externalOptions : list AirtableProjectOption)
      (rawEntries : list string) :
  Forall (fun i => startsWith i "rec" = true)
         (resolveExternalAssignees externalOptions rawEntries).
Proof.
  unfold resolveExternalAssignees. destruct rawEntries as [|e rest];
    [constructor|].
  apply List.Forall_forall. intros x Hx. apply List.filter_In in Hx.
  destruct Hx as [_ Hx]. apply andb_true_iff in Hx. exact (proj2 Hx).
Qed.

Lemma record_links_all (key : string) (ids : list string) :
  ids <> [] ->
  Forall (fun i => startsWith i "rec" = true) ids ->
  record_links key (Some ids) = [(key, FLinks ids)].
Proof.
  intros Hne Hall. unfold record_links.
  destruct ids as [|i rest]; [congruence|].
  rewrite (filter_all (fun x => startsWith x "rec") (i :: rest) Hall).
  reflexivity.
Qed.

(** X21: what the assignee resolver produces reaches the record
    unchanged. When the external assignees of a task, or the persons of a
    note, are the ids that [resolveExternalAssignees] returns and there is
    at least one, the fields sent hold exactly that list, in its order,
    under the field of the external assignees, respectively of the
    persons: the client's own filter drops none of them. *)
Theorem resolved_ids_sent_unchanged
        (externalOptions : list AirtableProjectOption)
        (rawEntries : list string) :
  resolveExternalAssignees externalOptions rawEntries <> [] ->
  (forall payload,
      externalAssigneeIds payload
      = Some (resolveExternalAssignees externalOptions rawEntries) ->
      In ("fldSWTH4tAqe7wPTz",
          FLinks (resolveExternalAssignees externalOptions rawEntries))
         (task_fields payload))
  /\ (forall payload,
         personRecordIds payload
         = Some (resolveExternalAssignees externalOptions rawEntries) ->
         In ("fldZFkB4H5rUJYTOl",
             FLinks (resolveExternalAssignees externalOptions rawEntries))
            (note_fields payload)).
Proof.
  intros Hne.
  pose proof (resolved_ids_rec externalOptions rawEntries) as Hall.
  split; intros payload Hids.
  - unfold task_fields. rewrite Hids, (record_links_all _ _ Hne Hall).
    rewrite !List.in_app_iff. do 7 right. left. left. reflexivity.
  - unfold note_fields. rewrite Hids, (record_links_all _ _ Hne Hall).
    rewrite !List.in_app_iff. do 2 right. left. reflexivity.
Qed.

Lemma resolved_ids_sent_unchanged_witness :
  In ("fldSWTH4tAqe7wPTz", FLinks ["rec1"])
     (task_fields (sample_task ["rec1"])).
Proof.
  refine (proj1 (resolved_ids_sent_unchanged
                   [{| Resolver.id := "rec1"; Resolver.name := "Jane Doe";
                       Resolver.email := Some "jane@x.com" |}]
                   ["Jane Doe"; "rec1"] _)
                (sample_task ["rec1"]) eq_refl).
  vm_compute. discriminate.
Defined.

Section Listing.
Variable encodeURIComponent : string -> string.
Variable fetch : ClientRequest -> Outcome ClientResponse.
Variable config : AirtableEnvironmentConfig.
Variables baseId tableName : string.
Variable options : option ListOptions.

Lemma served_nonempty (offset : option string) (pages : list Page) :
  served fetch (list_request encodeURIComponent config baseId tableName options)
         offset pages -> pages <> [].
Proof. destruct 1; discriminate. Qed.

Lemma truthy_opt_Some_eq (o : option string) (v : string) :
  truthy_opt o = Some v -> o = Some v.
Proof.
  destruct o as [s|]; [|discriminate]. cbn [truthy_opt].
  destruct (truthy s); [|discriminate]. intros H. exact H.
Qed.

Lemma list_loop_served (offset : option string) (pages : list Page) :
  served fetch (list_request encodeURIComponent config baseId tableName options)
         offset pages ->
  forall fuel collected,
    (length pages <= fuel)%nat ->
    list_loop encodeURIComponent fetch config fuel baseId tableName options
              offset collected
    = (Some (Ok (collected ++ flat_map records pages)),
       map (list_request encodeURIComponent config baseId tableName options)
           (cursors offset pages)).
Proof.
  induction 1 as [offset response page Hfetch Hok Hjson Hlast
                 |offset response page next pages Hfetch Hok Hjson Hnext
                         Hrest IH];
    intros fuel collected Hfuel.
  - destruct fuel as [|fuel]; [cbn in Hfuel; lia|].
    cbn [list_loop]. rewrite Hfetch, Hok. cbn [negb].
    rewrite Hjson, Hlast. cbn [flat_map]. rewrite List.app_nil_r.
    reflexivity.
  - destruct fuel as [|fuel]; [cbn in Hfuel; lia|].
    cbn [list_loop]. rewrite Hfetch, Hok. cbn [negb].
    rewrite Hjson, Hnext.
    rewrite (IH fuel (collected ++ records page))
      by (cbn [length] in Hfuel; lia).
    cbn [flat_map]. rewrite List.app_assoc.
    unfold cursors. cbn [map].
    pose proof (served_nonempty _ _ Hrest) as Hne.
    destruct pages as [|q pages]; [congruence|].
    change (removelast (page :: q :: pages))
      with (page :: removelast (q :: pages)).
    cbn [map]. rewrite (truthy_opt_Some_eq _ _ Hnext). reflexivity.
Qed.

Lemma list_loop_endless :
  (forall offset,
      exists response page next,
        fetch (list_request encodeURIComponent config baseId tableName
                          options offset) = Ok response
        /\ ok response = true
        /\ json_page response = Some page
        /\ truthy_opt (Client.offset page) = Some next) ->
  forall fuel offset collected,
    fst (list_loop encodeURIComponent fetch config fuel baseId tableName
                   options offset collected) = None
    /\ length (snd (list_loop encodeURIComponent fetch config fuel baseId
                              tableName options offset collected)) = fuel.
Proof.
  intros Hmore. induction fuel as [|fuel IH]; intros offset collected;
    [split; reflexivity|].
  cbn [list_loop].
  destruct (Hmore offset) as (response & page & next & Hf & Hok & Hj & Hn).
  rewrite Hf, Hok. cbn [negb]. rewrite Hj, Hn.
  specialize (IH (Some next) (collected ++ records page)).
  destruct (list_loop encodeURIComponent fetch config fuel baseId tableName
                      options (Some next) (collected ++ records page))
    as [r log].
  cbn [fst snd length] in *. destruct IH as [-> ->]. split; reflexivity.
Qed.

End Listing.

(** X22: listing follows the cursor to the last page. When the server
    hands out a finite chain of pages, each page but the last naming the
    cursor of the next one, [listRecords] ends (as many rounds as there
    are pages suffice) and returns the records of all pages in their
    order; it makes one request per page, the first without a cursor and
    each later one with the cursor that the page before named. *)
Theorem listRecords_follows_cursor
        (encodeURIComponent : string -> string)
        (fetch : ClientRequest -> Outcome ClientResponse)
        (config : AirtableEnvironmentConfig)
        (baseId tableName : string) (options : option ListOptions)
        (pages : list Page) (fuel : nat) :
  hasValidToken config = true ->
  served fetch (list_request encodeURIComponent config baseId tableName
                             options) None pages ->
  (length pages <= fuel)%nat ->
  listRecords encodeURIComponent fetch config fuel baseId tableName options
  = (Some (Ok (flat_map records pages)),
     map (list_request encodeURIComponent config baseId tableName options)
         (cursors None pages)).
Proof.
  intros Hvalid Hserved Hfuel. unfold listRecords. rewrite Hvalid.
  cbn [negb].
  exact (list_loop_served encodeURIComponent fetch config baseId tableName
                          options None pages Hserved fuel [] Hfuel).
Qed.

Lemma listRecords_follows_cursor_witness :
  listRecords (fun s => s) paging direct_config 2 "app1" "Projects" None
  = (Some (Ok (records first_page ++ records second_page ++ [])),
     [list_request (fun s => s) direct_config "app1" "Projects" None None;
      list_request (fun s => s) direct_config "app1" "Projects" None
                   (Some "c1")]).
Proof.
  refine (listRecords_follows_cursor
            (fun s => s) paging direct_config "app1" "Projects" None
            [first_page; second_page] 2 eq_refl _ (le_n 2)).
  eapply served_more; [reflexivity | reflexivity | reflexivity
                       | reflexivity |].
  eapply served_last; reflexivity.
Defined.

(** X23: nothing bounds the rounds of a listing. When every answer of
    the server is a page that names a further cursor, [listRecords] never
    returns: however many rounds it is given, it has no result yet and has
    made one request in each round. *)
Theorem listRecords_unbounded
        (encodeURIComponent : string -> string)
        (fetch : ClientRequest -> Outcome ClientResponse)
        (config : AirtableEnvironmentConfig)
        (baseId tableName : string) (options : option ListOptions)
        (fuel : nat) :
  hasValidToken config = true ->
  (forall offset,
      exists response page next,
        fetch (list_request encodeURIComponent config baseId tableName
                            options offset) = Ok response
        /\ ok response = true
        /\ json_page response = Some page
        /\ truthy_opt (Client.offset page) = Some next) ->
  fst (listRecords encodeURIComponent fetch config fuel baseId tableName
                   options) = None
  /\ length (snd (listRecords encodeURIComponent fetch config fuel baseId
                              tableName options)) = fuel.
Proof.
  intros Hvalid Hmore. unfold listRecords. rewrite Hvalid. cbn [negb].
  exact (list_loop_endless encodeURIComponent fetch config baseId tableName
                           options Hmore fuel None []).
Qed.

Lemma listRecords_unbounded_witness :
  fst (listRecords (fun s => s) looping direct_config 40 "app1" "Projects"
                   None) = None
  /\ length (snd (listRecords (fun s => s) looping direct_config 40 "app1"
                              "Projects" None)) = 40%nat.
Proof.
  refine (listRecords_unbounded
            (fun s => s) looping direct_config "app1" "Projects" None 40
            eq_refl _).
  intros offset. eexists _, first_page, "c1".
  repeat split; reflexivity.
Defined.

Section Picking.

Lemma string_field_In (fields : list (string * JsonValue))
      (key n : string) :
  string_field fields key = Some n ->
  exists s, In (key, JString s) fields /\ n = trim s /\ truthy n = true.
Proof.
  unfold string_field.
  destruct (find (fun kv => String.eqb (fst kv) key) fields)
    as [[k [s|]]|] eqn:Hfind; try discriminate.
  apply List.find_some in Hfind as [Hin Hkey]. cbn [fst] in Hkey.
  apply String.eqb_eq in Hkey. subst k.
  destruct (truthy (trim s)) eqn:Ht; [|discriminate].
  intros H. injection H as <-. exists s. auto.
Qed.

Lemma first_string_In (fields : list (string * JsonValue)) (n : string) :
  first_string fields = Some n ->
  exists k s, In (k, JString s) fields /\ n = trim s /\ truthy n = true.
Proof.
  induction fields as [|[k [s|]] rest IH]; cbn [first_string];
    [discriminate| |].
  - destruct (truthy (trim s)) eqn:Ht.
    + intros H. injection H as <-. exists k, s.
      split; [left; reflexivity | auto].
    + intros H. destruct (IH H) as (k' & s' & Hin & Hn).
      exists k', s'. split; [right; exact Hin | exact Hn].
  - intros H. destruct (IH H) as (k' & s' & Hin & Hn).
    exists k', s'. split; [right; exact Hin | exact Hn].
Qed.

Lemma first_string_None (fields : list (string * JsonValue)) :
  first_string fields = None <->
  forall k s, In (k, JString s) fields -> trim s = "".
Proof.
  induction fields as [|[k [s|]] rest IH]; cbn [first_string].
  - split; [intros _ ? ? [] | reflexivity].
  - destruct (truthy (trim s)) eqn:Ht.
    + split; [discriminate|]. intros H.
      rewrite (H k s (or_introl eq_refl)) in Ht. discriminate.
    + rewrite IH. split.
      * intros H k' s' [E|Hin]; [|exact (H k' s' Hin)].
        injection E as _ <-. apply falsy_empty. exact Ht.
      * intros H k' s' Hin. exact (H k' s' (or_intror Hin)).
  - rewrite IH. split.
    + intros H k' s' [E|Hin]; [discriminate | exact (H k' s' Hin)].
    + intros H k' s' Hin. exact (H k' s' (or_intror Hin)).
Qed.

Lemma string_field_blank (fields : list (string * JsonValue))
      (key : string) :
  (forall k s, In (k, JString s) fields -> trim s = "") ->
  string_field fields key = None.
Proof.
  intros Hblank. destruct (string_field fields key) as [n|] eqn:H;
    [|reflexivity].
  apply string_field_In in H as (s & Hin & -> & Ht).
  rewrite (Hblank _ _ Hin) in Ht. discriminate.
Qed.

End Picking.

(** X24: the name picked for a listed record is never blank. When
    [pickProjectName] gives a name, that name is the trimmed text of one
    of the record's string fields, it is not empty and has no white space
    at either end; it gives none exactly when every string field of the
    record is blank. *)
Theorem pickProjectName_nonblank (fields : list (string * JsonValue)) :
  (forall n,
      pickProjectName fields = Some n ->
      truthy n = true
      /\ trim n = n
      /\ exists k s, In (k, JString s) fields /\ n = trim s)
  /\ (pickProjectName fields = None <->
      forall k s, In (k, JString s) fields -> trim s = "").
Proof.
  split.
  - intros n H.
    assert (Hsrc : exists k s, In (k, JString s) fields /\ n = trim s
                               /\ truthy n = true).
    { unfold pickProjectName in H.
      destruct (string_field fields "Projekt") as [a|] eqn:Ha.
      { injection H as <-. apply string_field_In in Ha as (s & Hs).
        eauto. }
      destruct (string_field fields "Name") as [b|] eqn:Hb.
      { injection H as <-. apply string_field_In in Hb as (s & Hs).
        eauto. }
      destruct (string_field fields "Titel") as [c|] eqn:Hc.
      { injection H as <-. apply string_field_In in Hc as (s & Hs).
        eauto. }
      apply first_string_In. exact H. }
    destruct Hsrc as (k & s & Hin & -> & Ht).
    split; [exact Ht|]. split; [apply trim_fixed | eauto].
  - split.
    + intros H. apply first_string_None. unfold pickProjectName in H.
      destruct (string_field fields "Projekt"); [discriminate|].
      destruct (string_field fields "Name"); [discriminate|].
      destruct (string_field fields "Titel"); [discriminate|]. exact H.
    + intros Hblank. unfold pickProjectName.
      rewrite !string_field_blank by exact Hblank.
      apply first_string_None. exact Hblank.
Qed.



Section ProxyPaths.

Lemma strip_leading_slashes_head (s : string) :
  startsWith (Proxy.strip_leading_slashes s) "/" = false.
Proof.
  induction s as [|c s IH]; [reflexivity|]. cbn [Proxy.strip_leading_slashes].
  destruct (Ascii.eqb c "/") eqn:Hc; [exact IH|].
  unfold startsWith. cbn [String.prefix].
  destruct (ascii_dec "/" c) as [E|_]; [|reflexivity].
  subst c. discriminate.
Qed.

Lemma split_on_head (c : ascii) (s : string) :
  exists h t, Proxy.split_on c s = h :: t
              /\ free_of (fun d => Ascii.eqb d c) h = true.
Proof.
  induction s as [|d s (h & t & IH & Hfree)]; cbn [Proxy.split_on].
  - exists EmptyString, []. split; reflexivity.
  - destruct (Ascii.eqb d c) eqn:Hd.
    + exists EmptyString, (Proxy.split_on c s). split; reflexivity.
    + rewrite IH. cbn [Forms.cons_head]. exists (String d h), t.
      split; [reflexivity|]. unfold free_of in *. cbn [all_chars].
      rewrite Hd, Hfree. reflexivity.
Qed.

Lemma first_segment_no_slash (path : string) :
  no_slash (Proxy.first_segment path) = true.
Proof.
  unfold no_slash, Proxy.first_segment.
  destruct (split_on_head "/" path) as (h & t & -> & Hfree). exact Hfree.
Qed.

End ProxyPaths.

(** X27: the proxy forwards a request only with its own token, to the
    service, and for an allowed base. Whenever the proxy function calls
    the service it does so once; the token of its environment is set and
    is the bearer token of the call; the URL is the base URL of the
    service, one slash, the bound path without its leading slashes (which
    is not empty) and the query string of the incoming URL; a request
    with method GET or HEAD is sent on without a body; and when the
    allowlist has entries, the first segment of the path, which holds no
    slash, is one of them. *)
Theorem proxy_forwards_only_allowed
        (fetch : Proxy.Upstream -> Outcome Proxy.UpstreamResponse)
        (env : Proxy.Env) (req : Proxy.Req) (upstream : Proxy.Upstream) :
  In upstream (snd (Proxy.handler fetch env req)) ->
  snd (Proxy.handler fetch env req) = [upstream]
  /\ (exists pat,
         truthy_opt (Proxy.AIRTABLE_PAT env) = Some pat
         /\ Proxy.init_authorization upstream = "Bearer " +:+ pat)
  /\ Proxy.targetUrl upstream
     = Proxy.AIRTABLE_BASE_URL +:+ "/" +:+ Proxy.path_of env
       +:+ Proxy.query_of req
  /\ truthy (Proxy.path_of env) = true
  /\ startsWith (Proxy.path_of env) "/" = false
  /\ no_slash (Proxy.first_segment (Proxy.path_of env)) = true
  /\ (Proxy.allowlist_of env = []
      \/ In (Proxy.first_segment (Proxy.path_of env))
            (Proxy.allowlist_of env))
  /\ (Proxy.method req = "GET" \/ Proxy.method req = "HEAD" ->
      Proxy.init_body upstream = None).
Proof.
  unfold Proxy.handler.
  destruct (truthy_opt (Proxy.AIRTABLE_PAT env)) as [pat|]; [|intros []].
  destruct (truthy (Proxy.path_of env)) eqn:Hpath; cbn [negb]; [|intros []].
  set (blocked := match Proxy.allowlist_of env with
                  | [] => false
                  | _ => _
                  end).
  destruct blocked eqn:Hblocked; [intros []|].
  assert (Hallow : Proxy.allowlist_of env = []
                   \/ In (Proxy.first_segment (Proxy.path_of env))
                         (Proxy.allowlist_of env)).
  { subst blocked. destruct (Proxy.allowlist_of env) as [|b bs];
      [left; reflexivity|]. right.
    apply negb_false_iff in Hblocked.
    apply List.existsb_exists in Hblocked as (x & Hx & Heq).
    apply String.eqb_eq in Heq. subst x. exact Hx. }
  assert (Hbody : Proxy.method req = "GET" \/ Proxy.method req = "HEAD" ->
                  Proxy.body_of req = None).
  { unfold Proxy.body_of. intros [-> | ->]; reflexivity. }
  intros Hin.
  assert (Hup : upstream
                = {| Proxy.targetUrl :=
                       Proxy.AIRTABLE_BASE_URL +:+ "/" +:+ Proxy.path_of env
                       +:+ Proxy.query_of req;
                     Proxy.init_method := Proxy.method req;
                     Proxy.init_authorization := "Bearer " +:+ pat;
                     Proxy.init_content_type := "application/json";
                     Proxy.init_body := Proxy.body_of req |}).
  { destruct (fetch _) as [response|e];
      [destruct (Proxy.upstream_text response)|];
      destruct Hin as [H|[]]; symmetry; exact H. }
  split.
  { rewrite Hup. destruct (fetch _) as [response|e];
      [destruct (Proxy.upstream_text response)|]; reflexivity. }
  subst upstream. cbn [Proxy.init_authorization Proxy.targetUrl
                       Proxy.init_body].
  split; [exists pat; split; reflexivity|].
  split; [reflexivity|]. split; [reflexivity|].
  split; [apply strip_leading_slashes_head|].
  split; [apply first_segment_no_slash|].
  split; [exact Hallow | exact Hbody].
Qed.

Lemma proxy_forwards_only_allowed_witness :
  snd (Proxy.handler unreachable sample_env sample_req) = [sample_upstream]
  /\ In (Proxy.first_segment (Proxy.path_of sample_env))
        (Proxy.allowlist_of sample_env).
Proof.
  pose proof (proxy_forwards_only_allowed
                unreachable sample_env sample_req sample_upstream
                (or_introl eq_refl)) as (Hlog & _ & _ & _ & _ & _ & Hallow & _).
  split; [exact Hlog|].
  destruct Hallow as [Hnone | Hin]; [discriminate Hnone | exact Hin].
Defined.

Section Submitting.
Variable host : Host.
Variable encodeURIComponent : string -> string.
Variable fetch : ClientRequest -> Outcome ClientResponse.
Variable config : AirtableEnvironmentConfig.
Variable toISOString : string -> Outcome string.


Lemma executeWithStatus_ok {A : Type} (elementId : string) (a : A) :
  Submit.executeWithStatus elementId (Ok a) = reported_saved elementId.
Proof. reflexivity. Qed.

Lemma executeWithStatus_throw {A : Type} (elementId e : string) :
  Submit.executeWithStatus elementId (@Throw A e)
  = reported_failed elementId e.
Proof. reflexivity. Qed.

End Submitting.



Section TaskFiles.
Variable host : Host.
Variable pane : Pane.

Lemma prepare_no_token_log (selected : list OutlookAttachmentPreview) :
  token_of host pane = None ->
  prepareAirtableAttachments host pane selected
  = (Ok [], snd (fst (prepareAirtableAttachments host pane selected)),
     log_of (prepareAirtableAttachments host pane selected))
  /\ Forall (fun e => is_credential_event e = true)
            (log_of (prepareAirtableAttachments host pane selected)).
Proof.
  unfold token_of, log_of, prepareAirtableAttachments.
  intros Htok. destruct selected as [|a rest].
  { split; [reflexivity | constructor]. }
  pose proof (getGraphToken_log host pane) as Hlog.
  destruct (getGraphToken host pane) as [[tok pane'] log].
  cbn [fst snd] in Htok, Hlog. subst tok. cbn [truthy_opt fst snd].
  split; [reflexivity | exact Hlog].
Qed.

Lemma task_fields_lacks_files (payload : AirtableTaskPayload) :
  task_attachments payload = Some [] ->
  lacks task_files_field (task_fields payload).
Proof.
  intros Hnone value Hin. unfold task_fields in Hin. rewrite Hnone in Hin.
  unfold when_truthy, project_link, record_links, attachment_field,
    task_files_field in Hin.
  rewrite !List.in_app_iff in Hin.
  repeat match type of Hin with
         | context [match ?x with _ => _ end] => destruct x
         | context [if ?x then _ else _] => destruct x
         end;
    cbn [In] in Hin; intuition congruence.
Qed.

End TaskFiles.

(** X29: without a token for the file service a task is sent without
    files, and no file is touched. When the token broker gives no token,
    submitting a task reads no attachment content and uploads nothing
    (the only calls are those of the token broker), and the request for
    the record, if one is made, has no attachments field, whatever boxes
    are ticked. *)
Theorem task_without_token_sends_no_files
        (host : Host) (encodeURIComponent : string -> string)
        (fetch : ClientRequest -> Outcome ClientResponse)
        (config : AirtableEnvironmentConfig)
        (toISOString : string -> Outcome string)
        (state : Submit.State) (pane : Pane) (form : Submit.TaskForm) :
  token_of host pane = None ->
  Forall (fun e => is_credential_event e = true)
         (Submit.events (Submit.handleTaskSubmit
                           host encodeURIComponent fetch config toISOString
                           state pane form))
  /\ forall r sent,
      In r (Submit.requests (Submit.handleTaskSubmit
                               host encodeURIComponent fetch config
                               toISOString state pane form)) ->
      body r = Some sent ->
      lacks task_files_field sent.
Proof.
  intros Htok. unfold Submit.handleTaskSubmit.
  destruct (Submit.messageMetadata state) as [metadata|];
    [|split; [constructor | intros r sent []]].
  destruct (prepare_no_token_log
              host pane
              (Forms.getSelectedAttachments
                 (Submit.attachments state)
                 (Submit.task_attachment_checkboxes form)) Htok)
    as [Hrun Hlog].
  rewrite Hrun.
  destruct (Submit.task_payload toISOString state form metadata [])
    as [payload|e] eqn:Hpayload.
  2:{ split; [exact Hlog | intros r sent []]. }
  assert (Hfiles : task_attachments payload = Some []).
  { unfold Submit.task_payload in Hpayload.
    destruct (Submit.convertDateToIso toISOString (Submit.task_start form)
                                      true); [|discriminate].
    destruct (Submit.convertDateToIso toISOString (Submit.task_end form)
                                      true); [|discriminate].
    injection Hpayload as <-. reflexivity. }
  destruct (createTask encodeURIComponent fetch config payload)
    as [action sent'] eqn:Hcreate.
  cbn [Submit.events Submit.requests].
  split; [exact Hlog|]. intros r sent Hin Hbody.
  assert (Hin' : In r (snd (createTask encodeURIComponent fetch config
                                       payload)))
    by (rewrite Hcreate; exact Hin).
  apply created_request in Hin'. subst r. cbn [body] in Hbody.
  injection Hbody as <-. apply task_fields_lacks_files. exact Hfiles.
Qed.

Lemma task_without_token_sends_no_files_witness :
  Submit.events (Submit.handleTaskSubmit
                   unconfigured (fun s => s) accepting direct_config
                   sample_clock sample_state fresh (sample_task_form None))
  = []
  /\ length (Submit.requests
               (Submit.handleTaskSubmit
                  unconfigured (fun s => s) accepting direct_config
                  sample_clock sample_state fresh (sample_task_form None)))
     = 1%nat
  /\ forall r sent,
      In r (Submit.requests
              (Submit.handleTaskSubmit
                 unconfigured (fun s => s) accepting direct_config
                 sample_clock sample_state fresh (sample_task_form None))) ->
      body r = Some sent ->
      lacks task_files_field sent.
Proof.
  split; [vm_compute; reflexivity|]. split; [vm_compute; reflexivity|].
  exact (proj2 (task_without_token_sends_no_files
                  unconfigured (fun s => s) accepting direct_config
                  sample_clock sample_state fresh (sample_task_form None)
                  eq_refl)).
Defined.


